(** * telegram-mcp: the tool server's helpers, dispatcher and handlers

    A shallow embedding of [server.py].  Python values that travel through
    the tool interface (JSON arguments in, JSON records out) are one
    inductive type; a Python [str] is a [string], one [ascii] per character
    (the characters below code point 256); a Python [int] is a [Z]; a [dict] received as tool arguments is a
    [gmap string value]; a [dict] built for output keeps its insertion
    order and is an association list with in-place update. *)

From Stdlib Require Import ZArith Lia List String Ascii Bool Sorted.
From Stdlib Require Import Decimal DecimalString DecimalZ.
From Stdlib Require DecimalPos DecimalFacts.
From stdpp Require Import base option list gmap strings.

Import ListNotations.
Set Warnings "-register-all".
Local Open Scope string_scope.
Local Open Scope Z_scope.

(** ** Values *)

Inductive value : Type :=
| VNone
| VBool (b : bool)
| VInt (n : Z)
| VStr (s : string)
| VList (l : list value)
| VDict (d : list (string * value)).

(** Python truthiness, as used by [if x:], [x or y] and [not x]. *)
Definition truthy (v : value) : bool :=
  match v with
  | VNone => false
  | VBool b => b
  | VInt n => negb (n =? 0)
  | VStr s => negb (String.eqb s "")
  | VList l => match l with [] => false | _ => true end
  | VDict d => match d with [] => false | _ => true end
  end.

(** [d[k] = v] on an insertion-ordered dict. *)
Fixpoint dict_set (k : string) (v : value) (d : list (string * value))
  : list (string * value) :=
  match d with
  | [] => [(k, v)]
  | (k', v') :: d' =>
      if String.eqb k k' then (k, v) :: d' else (k', v') :: dict_set k v d'
  end.

Fixpoint dict_get (k : string) (d : list (string * value)) : option value :=
  match d with
  | [] => None
  | (k', v') :: d' => if String.eqb k k' then Some v' else dict_get k d'
  end.

Definition dict_keys (d : list (string * value)) : list string := map fst d.

(** ** Exceptions and results *)

(** The classes of the exceptions the server's code can see.  Every one of
    them derives from Python's [Exception]; [OtherException] stands for any
    further subclass of it ([KeyError], [TypeError], [AttributeError], an
    RPC error that is not one of the four named ones, ...).  What the
    interpreter raises outside that class to stop a program (a keyboard
    interrupt, an exit, the cancellation of a task) is no failure of a
    call and has no place here. *)
Inductive exn_class : Type :=
| ChatAdminRequiredError
| ChannelPrivateError
| MessageNotModifiedError
| MessageAuthorRequiredError
| ValueError
| OtherException
| Exception.

(** An exception object: its class and [str(e)]. *)
Record exn : Type := mk_exn { exn_cls : exn_class; exn_str : string }.

Inductive result (A : Type) : Type :=
| Ok (a : A)
| Raise (e : exn).
Arguments Ok {A} a.
Arguments Raise {A} e.

(** Sequencing: the first exception raised ends the computation.  The
    instances give [result] stdpp's monadic notation [x ← r; k]. *)
#[global] Instance result_ret : MRet result := fun A a => Ok a.
#[global] Instance result_bind : MBind result := fun A B k r =>
  match r with
  | Ok a => k a
  | Raise e => Raise e
  end.

(** ** Characters and numerals *)

Definition is_digit (c : ascii) : bool :=
  let n := N_of_ascii c in ((48 <=? n) && (n <=? 57))%N.

Definition digit_val (c : ascii) : Z := Z.of_N (N_of_ascii c) - 48.

(** White space as [int()] skips it: the six ASCII blanks, and the two
    further blank characters below code point 256. *)
Definition is_space (c : ascii) : bool :=
  let n := N_of_ascii c in
  (((9 <=? n) && (n <=? 13)) || (n =? 32) || (n =? 133) || (n =? 160))%N.

(** [str(n)] for an integer. *)
Definition str_of_Z (n : Z) : string := NilZero.string_of_int (Z.to_int n).

(** ** [int(s)] for a [str] argument, base ten

    Leading and trailing white space is skipped, one sign may precede the
    digits, and single underscores may separate digits.  A numeral of more
    digits than [int_max_str_digits] is refused, as the interpreter does
    unless it is started with another limit.  [None] is the [ValueError]. *)

(** [sys.get_int_max_str_digits()], the interpreter's default. *)
Definition int_max_str_digits : Z := 4300.

Fixpoint lstrip_space (s : string) : string :=
  match s with
  | String c s' => if is_space c then lstrip_space s' else s
  | EmptyString => EmptyString
  end.

Fixpoint all_space (s : string) : bool :=
  match s with
  | String c s' => is_space c && all_space s'
  | EmptyString => true
  end.

(** [int_digits acc after_digit s]: the digits of [s] with [acc] the value
    read so far; [after_digit] tells whether the previous character was a
    digit (an underscore is accepted only then, and only before a digit). *)
Fixpoint int_digits (acc : Z) (after_digit : bool) (s : string) : option Z :=
  match s with
  | EmptyString => if after_digit then Some acc else None
  | String c s' =>
      if is_digit c then int_digits (10 * acc + digit_val c) true s'
      else if Ascii.eqb c "_" then
        match s' with
        | String c' _ =>
            if after_digit && is_digit c' then int_digits acc false s' else None
        | EmptyString => None
        end
      else if after_digit && all_space s then Some acc
      else None
  end.

(** The digit characters of [s].  These are what the limit counts, leading
    zeros included; a sign, blanks and underscores do not count.  (In a
    string [int] reads, every digit belongs to the numeral.) *)
Fixpoint count_digits (s : string) : Z :=
  match s with
  | String c s' => (if is_digit c then 1 else 0) + count_digits s'
  | EmptyString => 0
  end.

(** The integer a string denotes, whatever its length. *)
Definition int_literal (s : string) : option Z :=
  match lstrip_space s with
  | String "+" s' => int_digits 0 false s'
  | String "-" s' => Z.opp <$> int_digits 0 false s'
  | s' => int_digits 0 false s'
  end.

Definition py_int (s : string) : option Z :=
  n ← int_literal s;
  if int_max_str_digits <? count_digits s then None else Some n.

(** [s.lstrip(chars)]: every leading character of [s] that occurs in
    [chars] is removed. *)
Fixpoint char_in (c : ascii) (chars : string) : bool :=
  match chars with
  | String c' chars' => Ascii.eqb c c' || char_in c chars'
  | EmptyString => false
  end.

Fixpoint lstrip (chars : string) (s : string) : string :=
  match s with
  | String c s' => if char_in c chars then lstrip chars s' else s
  | EmptyString => EmptyString
  end.

(** ** Helpers *)

(** [resolve_chat_id(chat_id_raw)] *)
Definition resolve_chat_id (chat_id_raw : value) : value :=
  match chat_id_raw with
  | VStr s =>
      match py_int s with
      | Some n => VInt n
      | None => VStr (lstrip "@" s)
      end
  | _ => chat_id_raw
  end.

(** ** Dates and times

    A [datetime] object: its calendar fields and its [tzinfo], kept as the
    offset from UTC in seconds ([None] for a naive datetime). *)
Record datetime : Type := mk_datetime {
  year : Z; month : Z; day : Z;
  hour : Z; minute : Z; second : Z; microsecond : Z;
  tzinfo : option Z
}.

Definition timezone_utc : Z := 0.

Definition is_leap (y : Z) : bool :=
  ((y mod 4 =? 0) && negb (y mod 100 =? 0)) || (y mod 400 =? 0).

Definition days_in_month (y m : Z) : Z :=
  if m =? 2 then (if is_leap y then 29 else 28)
  else if (m =? 4) || (m =? 6) || (m =? 9) || (m =? 11) then 30
  else 31.

(** The ranges the [datetime] constructor enforces. *)
Definition valid_datetime (dt : datetime) : bool :=
  (1 <=? year dt) && (year dt <=? 9999) &&
  (1 <=? month dt) && (month dt <=? 12) &&
  (1 <=? day dt) && (day dt <=? days_in_month (year dt) (month dt)) &&
  (0 <=? hour dt) && (hour dt <=? 23) &&
  (0 <=? minute dt) && (minute dt <=? 59) &&
  (0 <=? second dt) && (second dt <=? 59) &&
  (0 <=? microsecond dt) && (microsecond dt <=? 999999).

(** [dt.replace(tzinfo=tz)] *)
Definition replace_tzinfo (dt : datetime) (tz : option Z) : datetime :=
  mk_datetime (year dt) (month dt) (day dt)
              (hour dt) (minute dt) (second dt) (microsecond dt) tz.

(** [a < b] for two datetimes that carry the same [tzinfo]: the fields in
    lexicographic order. *)
Fixpoint lex_ltb (a b : list Z) : bool :=
  match a, b with
  | x :: a', y :: b' => (x <? y) || ((x =? y) && lex_ltb a' b')
  | [], _ :: _ => true
  | _, [] => false
  end.

Definition datetime_fields (dt : datetime) : list Z :=
  [year dt; month dt; day dt; hour dt; minute dt; second dt; microsecond dt].

Definition datetime_ltb (a b : datetime) : bool :=
  lex_ltb (datetime_fields a) (datetime_fields b).

(** *** [strftime] *)

Definition digit_char (k : Z) : ascii := ascii_of_N (Z.to_N (48 + k)).

Definition pad2 (n : Z) : string :=
  String (digit_char (n / 10)) (String (digit_char (n mod 10)) "").

(** One conversion of the format.  [%Y] is the year in decimal on as many
    digits as it has: the conversion is the C library's, and the GNU C
    library, under which the interpreter runs on Linux, does not fill a
    year below 1000 with zeros.  The other five are on two digits. *)
Definition strftime_directive (dt : datetime) (c : ascii) : string :=
  if Ascii.eqb c "Y" then str_of_Z (year dt)
  else if Ascii.eqb c "m" then pad2 (month dt)
  else if Ascii.eqb c "d" then pad2 (day dt)
  else if Ascii.eqb c "H" then pad2 (hour dt)
  else if Ascii.eqb c "M" then pad2 (minute dt)
  else if Ascii.eqb c "S" then pad2 (second dt)
  else if Ascii.eqb c "%" then "%"
  else String "%" (String c "").

(** [dt.strftime(fmt)] for formats over [%Y %m %d %H %M %S %%]; every other
    character of the format is copied. *)
Fixpoint strftime (dt : datetime) (fmt : string) : string :=
  match fmt with
  | String "%" (String c fmt') => strftime_directive dt c ++ strftime dt fmt'
  | String c fmt' => String c (strftime dt fmt')
  | EmptyString => EmptyString
  end.

(** [format_timestamp(dt)] *)
Definition format_timestamp (dt : option datetime) : option string :=
  match dt with
  | None => None
  | Some dt =>
      let dt := match tzinfo dt with
                | None => replace_tzinfo dt (Some timezone_utc)
                | Some _ => dt
                end in
      Some (strftime dt "%Y-%m-%d %H:%M:%S UTC")
  end.

(** *** [strptime]

    The numeric conversions of [datetime.strptime], each the ordered
    alternation of the pattern Python compiles for it; a conversion yields
    the number read and the rest of the input. *)

Definition read_digit (s : string) : option (Z * string) :=
  match s with
  | String c s' => if is_digit c then Some (digit_val c, s') else None
  | EmptyString => None
  end.

(** Two digits accepted by [ok2], otherwise one digit accepted by [ok1]. *)
Definition read_field (ok2 : Z -> Z -> bool) (ok1 : Z -> bool) (s : string)
  : option (Z * string) :=
  match read_digit s with
  | Some (d1, s1) =>
      match read_digit s1 with
      | Some (d2, s2) =>
          if ok2 d1 d2 then Some (10 * d1 + d2, s2)
          else if ok1 d1 then Some (d1, s1) else None
      | None => if ok1 d1 then Some (d1, s1) else None
      end
  | None => None
  end.

(** [%Y]: exactly four digits. *)
Definition read_Y (s : string) : option (Z * string) :=
  '(a, s) ← read_digit s; '(b, s) ← read_digit s;
  '(c, s) ← read_digit s; '(d, s) ← read_digit s;
  Some (1000 * a + 100 * b + 10 * c + d, s).

(** [%m]: [1[0-2]|0[1-9]|[1-9]] *)
Definition read_m : string -> option (Z * string) :=
  read_field (fun a b => ((a =? 1) && (b <=? 2)) || ((a =? 0) && (1 <=? b)))
             (fun a => 1 <=? a).

(** [%d]: [3[01]|[12]\d|0[1-9]|[1-9]| [1-9]] *)
Definition read_d (s : string) : option (Z * string) :=
  match s with
  | String " " s' =>
      match read_digit s' with
      | Some (a, s'') => if 1 <=? a then Some (a, s'') else None
      | None => None
      end
  | _ =>
      read_field (fun a b => ((a =? 3) && (b <=? 1)) || ((1 <=? a) && (a <=? 2))
                             || ((a =? 0) && (1 <=? b)))
                 (fun a => 1 <=? a) s
  end.

(** [%H]: [2[0-3]|[0-1]\d|\d] *)
Definition read_H : string -> option (Z * string) :=
  read_field (fun a b => ((a =? 2) && (b <=? 3)) || (a <=? 1)) (fun _ => true).

(** [%M]: [[0-5]\d|\d] *)
Definition read_M : string -> option (Z * string) :=
  read_field (fun a _ => a <=? 5) (fun _ => true).

(** [%S]: [6[0-1]|[0-5]\d|\d] *)
Definition read_S : string -> option (Z * string) :=
  read_field (fun a b => ((a =? 6) && (b <=? 1)) || (a <=? 5)) (fun _ => true).

Definition strptime_directive (c : ascii) (s : string) (dt : datetime)
  : option (datetime * string) :=
  if Ascii.eqb c "Y" then
    '(n, s') ← read_Y s;
    Some (mk_datetime n (month dt) (day dt) (hour dt) (minute dt) (second dt)
                      (microsecond dt) (tzinfo dt), s')
  else if Ascii.eqb c "m" then
    '(n, s') ← read_m s;
    Some (mk_datetime (year dt) n (day dt) (hour dt) (minute dt) (second dt)
                      (microsecond dt) (tzinfo dt), s')
  else if Ascii.eqb c "d" then
    '(n, s') ← read_d s;
    Some (mk_datetime (year dt) (month dt) n (hour dt) (minute dt) (second dt)
                      (microsecond dt) (tzinfo dt), s')
  else if Ascii.eqb c "H" then
    '(n, s') ← read_H s;
    Some (mk_datetime (year dt) (month dt) (day dt) n (minute dt) (second dt)
                      (microsecond dt) (tzinfo dt), s')
  else if Ascii.eqb c "M" then
    '(n, s') ← read_M s;
    Some (mk_datetime (year dt) (month dt) (day dt) (hour dt) n (second dt)
                      (microsecond dt) (tzinfo dt), s')
  else if Ascii.eqb c "S" then
    '(n, s') ← read_S s;
    Some (mk_datetime (year dt) (month dt) (day dt) (hour dt) (minute dt) n
                      (microsecond dt) (tzinfo dt), s')
  else None.

Definition lower (c : ascii) : ascii :=
  let n := N_of_ascii c in
  if ((65 <=? n) && (n <=? 90))%N then ascii_of_N (n + 32) else c.

(** White space as the pattern class [\s] matches it. *)
Definition is_re_space (c : ascii) : bool :=
  let n := N_of_ascii c in
  (((9 <=? n) && (n <=? 13)) || ((28 <=? n) && (n <=? 32))
   || (n =? 133) || (n =? 160))%N.

Fixpoint skip_re_space (s : string) : string :=
  match s with
  | String c s' => if is_re_space c then skip_re_space s' else s
  | EmptyString => EmptyString
  end.

(** The format is matched left to right against the input: a conversion
    reads its field, a blank of the format stands for one or more blanks of
    the input, any other character must be found (letters without regard to
    case), and no input may remain at the end.  Every conversion of the
    formats used here is followed by a character that is no digit, or ends
    the format, so the first alternative that matches is the one Python's
    matcher keeps. *)
Fixpoint strptime_match (fmt : string) (s : string) (dt : datetime)
  : option datetime :=
  match fmt with
  | String "%" (String c fmt') =>
      '(dt', s') ← strptime_directive c s dt; strptime_match fmt' s' dt'
  | String c fmt' =>
      match s with
      | String c' s' =>
          if is_re_space c then
            if is_re_space c' then strptime_match fmt' (skip_re_space s') dt
            else None
          else if Ascii.eqb (lower c) (lower c') then strptime_match fmt' s' dt
          else None
      | EmptyString => None
      end
  | EmptyString => match s with EmptyString => Some dt | _ => None end
  end.

(** [datetime.strptime(s, fmt)]: fields the format does not set default to
    1900-01-01 00:00:00, the result is naive, and a string that does not
    match or names no real date and time is a [ValueError]. *)
Definition strptime (s fmt : string) : result datetime :=
  match strptime_match fmt s (mk_datetime 1900 1 1 0 0 0 0 None) with
  | Some dt =>
      if valid_datetime dt then Ok dt
      else Raise (mk_exn ValueError "value is out of range")
  | None =>
      Raise (mk_exn ValueError "time data does not match format")
  end.

(** ** Remote objects

    What the client library hands to the server, reduced to the attributes
    the server reads. *)

(** An attribute of a document: [type(attr).__name__], and its [voice] flag
    ([getattr(attr, "voice", False)]: false where the class has none). *)
Record DocumentAttribute : Type := mk_attr {
  attr_type_name : string;
  attr_voice : bool
}.

Record Document : Type := mk_document { attributes : list DocumentAttribute }.

(** The media classes [get_media_type] tests for; [MessageMediaUnlisted] is
    any other class of media (a dice, a venue, a game, ...). *)
Inductive MessageMedia : Type :=
| MessageMediaPhoto
| MessageMediaDocument (document : option Document)
| MessageMediaWebPage
| MessageMediaGeo
| MessageMediaContact
| MessageMediaPoll
| MessageMediaUnlisted.

Inductive media_class : Type :=
| cls_Photo | cls_Document | cls_WebPage | cls_Geo | cls_Contact | cls_Poll.

(** [isinstance(media, cls)] *)
Definition isinstance_media (media : MessageMedia) (cls : media_class) : bool :=
  match media, cls with
  | MessageMediaPhoto, cls_Photo
  | MessageMediaDocument _, cls_Document
  | MessageMediaWebPage, cls_WebPage
  | MessageMediaGeo, cls_Geo
  | MessageMediaContact, cls_Contact
  | MessageMediaPoll, cls_Poll => true
  | _, _ => false
  end.

(** [media.document], read only once [media] is known to be a
    [MessageMediaDocument]. *)
Definition media_document (media : MessageMedia) : option Document :=
  match media with
  | MessageMediaDocument doc => doc
  | _ => None
  end.

(** Users, basic groups and channels; [OtherEntity] is any other peer
    object, with the [id] all of them carry and the [title] of those that
    have one (a group or a channel the account is barred from has). *)
Inductive Entity : Type :=
| User (id : Z) (first_name last_name username : option string) (bot : bool)
| Chat (id : Z) (title : option string)
| Channel (id : Z) (title : option string) (megagroup : bool)
| OtherEntity (id : Z) (title : option string).

Definition entity_id (e : Entity) : Z :=
  match e with
  | User id _ _ _ _ | Chat id _ | Channel id _ _ | OtherEntity id _ => id
  end.

(** The header of a reply, a [MessageReplyHeader]: it names the message
    replied to, or leaves it out ([None]).  The header of a reply to a
    story is of another class, which has no [reply_to_msg_id]; messages that
    carry one are not among the messages of this model, as messages whose
    sender cannot be fetched are not. *)
Record MessageReplyHeader : Type := mk_reply { reply_to_msg_id : option Z }.

(** A message.  [msg_sender] is what [await message.get_sender()] yields,
    [msg_forward] tells whether [message.forward] is an object or [None]. *)
Record Message : Type := mk_message {
  msg_id : Z;
  msg_sender : option Entity;
  msg_date : option datetime;
  msg_text : option string;
  msg_reply_to : option MessageReplyHeader;
  msg_media : option MessageMedia;
  msg_forward : bool
}.

Record Dialog : Type := mk_dialog {
  dlg_id : Z;
  dlg_title : option string;
  dlg_name : option string;
  dlg_entity : Entity;
  dlg_message : option Message;
  dlg_unread_count : Z
}.

(** ** Formatting helpers *)

Definition nonempty (s : string) : bool := negb (String.eqb s "").

(** [s or ""] and the value of an optional string. *)
Definition or_empty (s : option string) : string := default "" s.

Definition opt_str (s : option string) : value :=
  match s with Some s => VStr s | None => VNone end.

Definition opt_int (n : option Z) : value :=
  match n with Some n => VInt n | None => VNone end.

(** The [for attr in doc.attributes] loop with the [return "document"] that
    follows it. *)
Fixpoint document_attributes_loop (attrs : list DocumentAttribute) : string :=
  match attrs with
  | attr :: attrs' =>
      let attr_type := attr_type_name attr in
      if String.eqb attr_type "DocumentAttributeVideo" then "video"
      else if String.eqb attr_type "DocumentAttributeAudio" then
        (if attr_voice attr then "voice" else "audio")
      else if String.eqb attr_type "DocumentAttributeSticker" then "sticker"
      else if String.eqb attr_type "DocumentAttributeAnimated" then "gif"
      else document_attributes_loop attrs'
  | [] => "document"
  end.

(** [get_media_type(message)]: the tests in the order of the source; a
    document payload without inner document leaves its branch without
    returning and goes on to the tests below it. *)
Definition get_media_type (message : Message) : option string :=
  match msg_media message with
  | None => None
  | Some media =>
      if isinstance_media media cls_Photo then Some "photo"
      else
        let in_document_branch :=
          if isinstance_media media cls_Document then
            match media_document media with
            | Some doc => Some (document_attributes_loop (attributes doc))
            | None => None
            end
          else None in
        match in_document_branch with
        | Some tag => Some tag
        | None =>
            if isinstance_media media cls_WebPage then Some "webpage"
            else if isinstance_media media cls_Geo then Some "location"
            else if isinstance_media media cls_Contact then Some "contact"
            else if isinstance_media media cls_Poll then Some "poll"
            else Some "other"
        end
  end.

(** [get_sender_name(sender)] *)
Definition get_sender_name (sender : option Entity) : string :=
  match sender with
  | None => "Unknown"
  | Some (User id first_name last_name username _) =>
      let parts := [or_empty first_name; or_empty last_name] in
      let name := String.concat " " (List.filter nonempty parts) in
      if nonempty name then name
      else if nonempty (or_empty username) then or_empty username
      else str_of_Z id
  | Some (Chat id title) | Some (Channel id title _) =>
      if nonempty (or_empty title) then or_empty title else str_of_Z id
  | Some (OtherEntity id _) => str_of_Z id
  end.

(** [format_message(message)]: the record as the ordered list of its keys
    and values. *)
Definition format_message (message : Message) : list (string * value) :=
  let sender := msg_sender message in
  let sender_name := get_sender_name sender in
  let sender_id :=
    match sender with Some s => VInt (entity_id s) | None => VNone end in
  let result :=
    [ ("id", VInt (msg_id message));
      ("sender_name", VStr sender_name);
      ("sender_id", sender_id);
      ("date", opt_str (format_timestamp (msg_date message)));
      ("text", VStr (if nonempty (or_empty (msg_text message))
                     then or_empty (msg_text message) else "")) ] in
  let result :=
    match msg_reply_to message with
    | Some reply_to =>
        dict_set "reply_to_msg_id" (opt_int (reply_to_msg_id reply_to)) result
    | None => result
    end in
  let media_type := get_media_type message in
  let result :=
    if nonempty (or_empty media_type)
    then dict_set "media_type" (VStr (or_empty media_type)) result
    else result in
  let result :=
    if msg_forward message then dict_set "forwarded" (VBool true) result
    else result in
  result.

(** [get_chat_type(dialog_or_entity)]: a dialog is looked through to its
    [entity], anything else is taken as the entity itself. *)
Inductive dialog_or_entity : Type :=
| a_dialog (d : Dialog)
| an_entity (e : Entity).

Definition get_chat_type (x : dialog_or_entity) : string :=
  let entity :=
    match x with a_dialog d => dlg_entity d | an_entity e => e end in
  match entity with
  | Channel _ _ megagroup => if megagroup then "group" else "channel"
  | Chat _ _ => "group"
  | User _ _ _ _ bot => if bot then "bot" else "user"
  | OtherEntity _ _ => "unknown"
  end.

(** ** Tool results *)

(** The body of a text block: a literal line, or the text
    [json.dumps(v, indent=indent, ensure_ascii=ensure_ascii)], whose
    rendering is the JSON library's and is kept symbolic. *)
Inductive text_body : Type :=
| Plain (s : string)
| json_dumps (v : value) (indent : Z) (ensure_ascii : bool).

Record TextContent : Type := mk_TextContent { type : string; text : text_body }.

(** ** The remote client

    The methods of the connected client the handlers below call, as
    functions of what they are called with; a call returns or raises.
    [iter_messages] yields its messages in the order of the list. *)

Inductive kwarg : Type :=
| kw_value (v : value)
| kw_date (d : option datetime)
| kw_entity (e : Entity).

Record AffectedMessages : Type := mk_affected { pts_count : option Z }.

Record Remote : Type := mk_remote {
  get_dialogs : value -> value -> result (list Dialog);
  iter_messages : value -> gmap string kwarg -> result (list Message);
  get_messages : value -> value -> result (option Message);
  delete_messages : value -> list value -> result (list AffectedMessages)
}.

(** [args[k]]: a missing key is a [KeyError], whose text is the quoted
    key. *)
Definition getitem (args : gmap string value) (k : string) : result value :=
  match args !! k with
  | Some v => Ok v
  | None => Raise (mk_exn OtherException ("'" ++ k ++ "'"))
  end.

(** [args.get(k, dflt)] and [args.get(k)] *)
Definition get_default (args : gmap string value) (k : string) (dflt : value)
  : value := default dflt (args !! k).

Definition get (args : gmap string value) (k : string) : value :=
  get_default args k VNone.

(** [len(xs) >= limit]; ordering an [int] against anything but a number is
    a [TypeError]. *)
Definition len_ge {A} (xs : list A) (limit : value) : result bool :=
  match limit with
  | VInt n => Ok (n <=? Z.of_nat (length xs))
  | VBool b => Ok ((if b then 1 else 0) <=? Z.of_nat (length xs))
  | _ => Raise (mk_exn OtherException
                  "'>=' not supported between instances of 'int' and this type")
  end.

(** A value inside an f-string. *)
Definition fstr (v : value) : string :=
  match v with
  | VInt n => str_of_Z n
  | VStr s => s
  | VBool true => "True"
  | VBool false => "False"
  | VNone => "None"
  | VList _ => "[...]"
  | VDict _ => "{...}"
  end.

(** [ctype != v] for a string [ctype]: a string differs from every value
    that is not the same string. *)
Definition str_ne (ctype : string) (v : value) : bool :=
  match v with
  | VStr s => negb (String.eqb ctype s)
  | _ => true
  end.

(** [x or y] on values. *)
Definition py_or (x y : value) : value := if truthy x then x else y.

(** [s[:n]] *)
Definition str_prefix (n : nat) (s : string) : string := substring 0 n s.

(** ** Handlers *)

(** *** List chats *)

(** The record built for one dialog. *)
Definition chat_info_of (d : Dialog) (ctype : string) : list (string * value) :=
  let chat_info :=
    [ ("id", VInt (dlg_id d));
      ("title", py_or (opt_str (dlg_title d)) (opt_str (dlg_name d)));
      ("type", VStr ctype);
      ("unread_count", VInt (dlg_unread_count d)) ] in
  match dlg_message d with
  | Some message =>
      if nonempty (or_empty (msg_text message)) then
        let chat_info :=
          dict_set "last_message"
                   (VStr (str_prefix 100 (or_empty (msg_text message))))
                   chat_info in
        dict_set "last_message_date"
                 (opt_str (format_timestamp (msg_date message))) chat_info
      else chat_info
  | None => chat_info
  end.

(** The [for d in dialogs] loop; [results] is the list built so far. *)
Fixpoint list_chats_loop (chat_type_filter : value) (dialogs : list Dialog)
    (results : list value) : list value :=
  match dialogs with
  | d :: dialogs' =>
      let ctype := get_chat_type (a_dialog d) in
      if truthy chat_type_filter && str_ne ctype chat_type_filter
      then list_chats_loop chat_type_filter dialogs' results
      else list_chats_loop chat_type_filter dialogs'
             (results ++ [VDict (chat_info_of d ctype)])%list
  | [] => results
  end.

Definition handle_list_chats (client : Remote) (args : gmap string value)
  : result (list TextContent) :=
  let limit := get_default args "limit" (VInt 20) in
  let chat_type_filter := get args "chat_type" in
  let offset_id := get_default args "offset_id" (VInt 0) in
  dialogs ← get_dialogs client limit offset_id;
  let results := list_chats_loop chat_type_filter dialogs [] in
  Ok [mk_TextContent "text" (json_dumps (VList results) 2 false)].

(** *** Read messages *)

(** The test at the head of the loop body: does [msg] end the iteration?
    The bound is parsed anew for every message, as in the source. *)
Definition below_min_date (args : gmap string value) (msg : Message)
  : result bool :=
  if truthy (get args "min_date") then
    min_date ← getitem args "min_date";
    min_dt ← match min_date with
             | VStr s => strptime s "%Y-%m-%d"
             | _ => Raise (mk_exn OtherException
                             "strptime() argument 1 must be str")
             end;
    let min_dt := replace_tzinfo min_dt (Some timezone_utc) in
    date ← match msg_date msg with
           | Some date => Ok date
           | None => Raise (mk_exn OtherException
                              "'NoneType' object has no attribute 'replace'")
           end;
    Ok (datetime_ltb (replace_tzinfo date (Some timezone_utc)) min_dt)
  else Ok false.

(** The [async for msg in ...] loop over the messages the client yields.
    It returns the records collected and the part of the stream it never
    asked for. *)
Fixpoint read_messages_loop (args : gmap string value) (limit : value)
    (stream : list Message) (messages : list (list (string * value)))
  : result (list (list (string * value)) * list Message) :=
  match stream with
  | msg :: stream' =>
      stop ← below_min_date args msg;
      if stop : bool then Ok (messages, stream')
      else
        let messages := (messages ++ [format_message msg])%list in
        full ← len_ge messages limit;
        if full : bool then Ok (messages, stream')
        else read_messages_loop args limit stream' messages
  | [] => Ok (messages, [])
  end.

Definition handle_read_messages (client : Remote) (args : gmap string value)
  : result (list TextContent) :=
  chat_id_raw ← getitem args "chat_id";
  let chat_id := resolve_chat_id chat_id_raw in
  let limit := get_default args "limit" (VInt 20) in
  let offset_id := get_default args "offset_id" (VInt 0) in
  let kwargs : gmap string kwarg :=
    <["offset_id" := kw_value offset_id]> {["limit" := kw_value limit]} in
  let kwargs :=
    if truthy (get args "min_date")
    then <["offset_date" := kw_date None]> kwargs else kwargs in
  kwargs ← (if truthy (get args "max_date") then
              max_date ← getitem args "max_date";
              max_dt ← match max_date with
                       | VStr s => strptime s "%Y-%m-%d"
                       | _ => Raise (mk_exn OtherException
                                       "strptime() argument 1 must be str")
                       end;
              let max_dt := replace_tzinfo max_dt (Some timezone_utc) in
              Ok (<["offset_date" := kw_date (Some max_dt)]> kwargs)
            else Ok kwargs);
  stream ← iter_messages client chat_id kwargs;
  '(messages, _) ← read_messages_loop args limit stream [];
  let result :=
    [ ("chat_id", chat_id_raw);
      ("message_count", VInt (Z.of_nat (length messages)));
      ("messages", VList (map VDict messages)) ] in
  result ← match last messages with
           | Some oldest =>
               oldest_id ← match dict_get "id" oldest with
                           | Some v => Ok v
                           | None => Raise (mk_exn OtherException "'id'")
                           end;
               let result := dict_set "oldest_message_id" oldest_id result in
               Ok (dict_set "pagination_hint"
                     (VStr ("To load older messages, use offset_id="
                            ++ fstr oldest_id)) result)
           | None => Ok result
           end;
  Ok [mk_TextContent "text" (json_dumps (VDict result) 2 false)].

(** *** Read thread *)

(** The [async for] over the replies: each one is formatted and appended. *)
Definition collect_replies (stream : list Message)
  : list (list (string * value)) :=
  fold_left (fun replies msg => (replies ++ [format_message msg])%list)
            stream [].

Definition handle_read_thread (client : Remote) (args : gmap string value)
  : result (list TextContent) :=
  chat_id_raw ← getitem args "chat_id";
  let chat_id := resolve_chat_id chat_id_raw in
  message_id ← getitem args "message_id";
  let limit := get_default args "limit" (VInt 20) in
  parent ← get_messages client chat_id message_id;
  match parent with
  | None =>
      Ok [mk_TextContent "text"
            (Plain ("Message " ++ fstr message_id ++ " not found."))]
  | Some parent =>
      let parent_formatted := format_message parent in
      let kwargs : gmap string kwarg :=
        <["limit" := kw_value limit]> {["reply_to" := kw_value message_id]} in
      stream ← iter_messages client chat_id kwargs;
      let replies := collect_replies stream in
      let replies := rev replies in
      let result :=
        [ ("parent_message", VDict parent_formatted);
          ("reply_count", VInt (Z.of_nat (length replies)));
          ("replies", VList (map VDict replies)) ] in
      Ok [mk_TextContent "text" (json_dumps (VDict result) 2 false)]
  end.

(** *** Delete message *)

Definition handle_delete_message (client : Remote) (args : gmap string value)
  : result (list TextContent) :=
  chat_id_raw ← getitem args "chat_id";
  let chat_id := resolve_chat_id chat_id_raw in
  message_id ← getitem args "message_id";
  result ← delete_messages client chat_id [message_id];
  let deleted_count :=
    match result with
    | first :: _ => default 1 (pts_count first)
    | [] => 0
    end in
  Ok [mk_TextContent "text"
        (json_dumps (VDict [ ("status", VStr "deleted");
                             ("message_id", message_id);
                             ("chat_id", chat_id_raw) ]) 2 true)].

(** ** The dispatcher *)

(** The connection handle: [telegram.client] is [None] until [connect] has
    built the client; [is_connected] is the client's own report. *)
Record TelethonClient : Type := mk_client { is_connected : bool }.
Record TelegramClientWrapper : Type := mk_wrapper {
  client : option TelethonClient
}.

(** [not telegram.client or not telegram.client.is_connected()] *)
Definition not_live (telegram : TelegramClientWrapper) : bool :=
  match client telegram with
  | None => true
  | Some c => negb (is_connected c)
  end.

(** [issubclass(c, d)] on the classes above: each class is below itself and
    below [Exception]. *)
Definition exn_class_eqb (c d : exn_class) : bool :=
  match c, d with
  | ChatAdminRequiredError, ChatAdminRequiredError
  | ChannelPrivateError, ChannelPrivateError
  | MessageNotModifiedError, MessageNotModifiedError
  | MessageAuthorRequiredError, MessageAuthorRequiredError
  | ValueError, ValueError
  | OtherException, OtherException
  | Exception, Exception => true
  | _, _ => false
  end.

Definition issubclass (c d : exn_class) : bool :=
  exn_class_eqb c d || exn_class_eqb d Exception.

(** A [try] statement: the body's exception goes to the first [except]
    clause whose class it is an instance of, and leaves the statement when
    there is none. *)
Fixpoint first_clause {A} (clauses : list (exn_class * (exn -> A))) (e : exn)
  : option A :=
  match clauses with
  | (cls, handler) :: clauses' =>
      if issubclass (exn_cls e) cls then Some (handler e)
      else first_clause clauses' e
  | [] => None
  end.

Definition try_except {A} (body : result A)
    (clauses : list (exn_class * (exn -> A))) : result A :=
  match body with
  | Ok a => Ok a
  | Raise e =>
      match first_clause clauses e with
      | Some a => Ok a
      | None => Raise e
      end
  end.

Definition text_result (s : string) : list TextContent :=
  [mk_TextContent "text" (Plain s)].

(** The [except] clauses of [call_tool], in the order of the source. *)
Definition call_tool_clauses : list (exn_class * (exn -> list TextContent)) :=
  [ (ChatAdminRequiredError, fun _ =>
       text_result "Error: Admin privileges required for this action.");
    (ChannelPrivateError, fun _ =>
       text_result "Error: This channel/group is private or you're not a member.");
    (MessageNotModifiedError, fun _ =>
       text_result "Error: Message content is the same — nothing to update.");
    (MessageAuthorRequiredError, fun _ =>
       text_result "Error: You can only edit/delete your own messages.");
    (ValueError, fun e => text_result ("Error: " ++ exn_str e));
    (Exception, fun e => text_result ("Error: " ++ exn_str e)) ].

Section Dispatcher.

(** The state of everything outside the server that a handler can change
    or leave a trace in: the remote service, and any record of the calls
    made to it. *)
Context {World : Type}.

(** A handler is run on the arguments; it returns or raises, and leaves
    the world as its remote calls made it. *)
Definition Handler : Type :=
  gmap string value -> World -> result (list TextContent) * World.

Record Handlers : Type := mk_handlers {
  h_list_chats : Handler;
  h_get_chat_info : Handler;
  h_read_messages : Handler;
  h_search_messages : Handler;
  h_read_thread : Handler;
  h_send_message : Handler;
  h_edit_message : Handler;
  h_delete_message : Handler;
  h_search_contacts : Handler;
  h_get_user_info : Handler
}.

(** The [if]/[elif] chain on the tool's name; [None] is its [else]. *)
Definition route (hs : Handlers) (name : string) : option Handler :=
  if String.eqb name "telegram_list_chats" then Some (h_list_chats hs)
  else if String.eqb name "telegram_get_chat_info" then Some (h_get_chat_info hs)
  else if String.eqb name "telegram_read_messages" then Some (h_read_messages hs)
  else if String.eqb name "telegram_search_messages" then Some (h_search_messages hs)
  else if String.eqb name "telegram_read_thread" then Some (h_read_thread hs)
  else if String.eqb name "telegram_send_message" then Some (h_send_message hs)
  else if String.eqb name "telegram_edit_message" then Some (h_edit_message hs)
  else if String.eqb name "telegram_delete_message" then Some (h_delete_message hs)
  else if String.eqb name "telegram_search_contacts" then Some (h_search_contacts hs)
  else if String.eqb name "telegram_get_user_info" then Some (h_get_user_info hs)
  else None.

(** [call_tool(name, arguments)] *)
Definition call_tool (telegram : TelegramClientWrapper) (hs : Handlers)
    (name : string) (arguments : gmap string value) (w : World)
  : result (list TextContent) * World :=
  if not_live telegram then
    (Ok (text_result "Not connected to Telegram. Please restart the server."), w)
  else
    let '(body, w') :=
      match route hs name with
      | Some handler => handler arguments w
      | None => (Ok (text_result ("Unknown tool: " ++ name)), w)
      end in
    (try_except body call_tool_clauses, w').

End Dispatcher.

Arguments Handler World : clear implicits.
Arguments Handlers World : clear implicits.

(** ** Users, peers and the further remote calls

    The handlers below read more of a user and of a peer than a message's
    sender shows: these are the objects [get_entity] and the contact
    search return. *)

Inductive UserStatus : Type :=
| UserStatusOnline
| UserStatusOffline (was_online : option datetime)
| UserStatusRecently
| UserStatusLastWeek
| UserStatusLastMonth
| UserStatusUnlisted.

Record UserObject : Type := mk_user {
  u_id : Z;
  u_first_name : option string;
  u_last_name : option string;
  u_username : option string;
  u_phone : option string;
  u_bot : bool;
  u_status : option UserStatus
}.

(** A peer as [get_entity] returns it; [UnlistedEntity] is an object of
    any other class, of which the class name is kept. *)
Inductive EntityObject : Type :=
| UserEntity (u : UserObject)
| ChatEntity (id : Z) (title : option string) (participants_count : option Z)
| ChannelEntity (id : Z) (title : option string) (username : option string)
                (megagroup : bool) (participants_count : option Z)
| UnlistedEntity (id : Z) (type_name : string).

Definition entity_object_id (e : EntityObject) : Z :=
  match e with
  | UserEntity u => u_id u
  | ChatEntity id _ _ | ChannelEntity id _ _ _ _ | UnlistedEntity id _ => id
  end.

(** [type(entity).__name__] *)
Definition entity_type_name (e : EntityObject) : string :=
  match e with
  | UserEntity _ => "User"
  | ChatEntity _ _ _ => "Chat"
  | ChannelEntity _ _ _ _ _ => "Channel"
  | UnlistedEntity _ type_name => type_name
  end.

(** The same peer, with the attributes the formatting helpers read. *)
Definition entity_view (e : EntityObject) : Entity :=
  match e with
  | UserEntity u =>
      User (u_id u) (u_first_name u) (u_last_name u)
           (u_username u) (u_bot u)
  | ChatEntity id title _ => Chat id title
  | ChannelEntity id title _ megagroup _ => Channel id title megagroup
  | UnlistedEntity id _ => OtherEntity id None
  end.

(** [full.full_chat] and its two attributes the server reads. *)
Record FullChat : Type := mk_full_chat {
  about : option string;
  full_participants_count : option Z
}.

(** A message found by a search, with the chat it was found in:
    [msg.chat] (also what [await msg.get_chat()] yields) and
    [msg.chat_id]. *)
Record SearchHit : Type := mk_hit {
  hit_message : Message;
  hit_chat : option Entity;
  hit_chat_id : Z
}.

(** The remaining calls on the connected client.  [iter_latest chat_id] is
    [iter_messages(chat_id, filter=None, limit=1)], each message with its
    [pinned] flag; [iter_search] is [iter_messages] under a search, over
    one chat or, with [None] for the chat, over all of them;
    [contacts_search q limit] is [SearchRequest(q, limit)] and yields the
    [users] of its result. *)
Record RemoteMore : Type := mk_remote_more {
  get_entity : value -> result EntityObject;
  get_full_channel : EntityObject -> result FullChat;
  get_full_chat : Z -> result FullChat;
  get_full_user : EntityObject -> result (option string);
  iter_latest : value -> result (list (Message * bool));
  iter_search : value -> gmap string kwarg -> result (list SearchHit);
  send_message : value -> value -> value -> value -> result Message;
  edit_message : value -> value -> value -> value -> result Message;
  contacts_search : value -> value -> result (list UserObject)
}.

(** ** Online status *)

(** What [get_user_status] is handed: [None], an object without a [status]
    attribute, or an object with one (which may be [None]). *)
Inductive status_holder : Type :=
| no_user
| without_status
| with_status (status : option UserStatus).

(** [get_user_status(user)] *)
Definition get_user_status (user : status_holder) : string :=
  match user with
  | no_user | without_status | with_status None => "unknown"
  | with_status (Some status) =>
      match status with
      | UserStatusOnline => "online"
      | UserStatusOffline was_online =>
          "offline (last seen "
          ++ fstr (opt_str (format_timestamp was_online)) ++ ")"
      | UserStatusRecently => "recently"
      | UserStatusLastWeek => "last week"
      | UserStatusLastMonth => "last month"
      | UserStatusUnlisted => "unknown"
      end
  end.

(** ** The remaining handlers *)

(** A [try] whose every failure is passed over ([except Exception: pass]):
    the value built by the body where it returns, [otherwise] where it
    raises. *)
Definition passing_over {A} (body : result A) (otherwise : A) : A :=
  match try_except body [(Exception, fun _ => otherwise)] with
  | Ok a => a
  | Raise _ => otherwise
  end.

(** A count that is there and is not zero. *)
Definition count_given (n : option Z) : bool :=
  match n with
  | Some n => negb (n =? 0)
  | None => false
  end.

(** The six fields of a user that three handlers list after its id. *)
Definition user_fields (u : UserObject) : list (string * value) :=
  [ ("first_name", opt_str (u_first_name u));
    ("last_name", opt_str (u_last_name u));
    ("username", opt_str (u_username u));
    ("phone", opt_str (u_phone u));
    ("bot", VBool (u_bot u));
    ("status", VStr (get_user_status (with_status (u_status u)))) ].

(** *** Get chat info *)

(** The fields read off the entity itself. *)
Definition chat_info_basic (entity : EntityObject) : list (string * value) :=
  let info :=
    [ ("id", VInt (entity_object_id entity));
      ("type", VStr (get_chat_type (an_entity (entity_view entity)))) ] in
  match entity with
  | UserEntity u =>
      fold_left (fun info kv => dict_set (fst kv) (snd kv) info)
                (user_fields u) info
  | ChatEntity _ title participants_count =>
      let info := dict_set "title" (opt_str title) info in
      if count_given participants_count
      then dict_set "member_count" (opt_int participants_count) info
      else info
  | ChannelEntity _ title username megagroup participants_count =>
      let info := dict_set "title" (opt_str title) info in
      let info := dict_set "username" (opt_str username) info in
      let info := dict_set "megagroup" (VBool megagroup) info in
      if count_given participants_count
      then dict_set "member_count" (opt_int participants_count) info
      else info
  | UnlistedEntity _ _ => info
  end.

(** The two assignments made from a full-info answer. *)
Definition with_full_info (full : FullChat) (info : list (string * value))
  : list (string * value) :=
  let info := dict_set "description" (opt_str (about full)) info in
  if count_given (full_participants_count full)
  then dict_set "member_count" (opt_int (full_participants_count full)) info
  else info.

(** The first [try] of the handler. *)
Definition chat_info_full (client : RemoteMore) (entity : EntityObject)
    (info : list (string * value)) : list (string * value) :=
  passing_over
    (match entity with
     | ChannelEntity _ _ _ _ _ =>
         full ← get_full_channel client entity; Ok (with_full_info full info)
     | ChatEntity id _ _ =>
         full ← get_full_chat client id; Ok (with_full_info full info)
     | _ => Ok info
     end) info.

(** The loop of the second [try]: the first pinned message met is
    recorded and ends the loop. *)
Fixpoint pinned_loop (stream : list (Message * bool))
    (info : list (string * value)) : list (string * value) :=
  match stream with
  | (msg, pinned) :: stream' =>
      if pinned : bool then
        dict_set "pinned_message"
          (VDict [ ("id", VInt (msg_id msg));
                   ("text", VStr (str_prefix 200 (or_empty (msg_text msg))));
                   ("date", opt_str (format_timestamp (msg_date msg))) ])
          info
      else pinned_loop stream' info
  | [] => info
  end.

Definition chat_info_pinned (client : RemoteMore) (chat_id : value)
    (info : list (string * value)) : list (string * value) :=
  passing_over
    (stream ← iter_latest client chat_id; Ok (pinned_loop stream info)) info.

Definition handle_get_chat_info (client : RemoteMore)
    (args : gmap string value) : result (list TextContent) :=
  chat_id_raw ← getitem args "chat_id";
  let chat_id := resolve_chat_id chat_id_raw in
  entity ← get_entity client chat_id;
  let info := chat_info_basic entity in
  let info := chat_info_full client entity info in
  let info := chat_info_pinned client chat_id info in
  Ok [mk_TextContent "text" (json_dumps (VDict info) 2 false)].

(** *** Search messages *)

(** [getattr(chat, "title", None)]: users have no title. *)
Definition title_attr (chat : Entity) : option string :=
  match chat with
  | Chat _ title | Channel _ title _ | OtherEntity _ title => title
  | User _ _ _ _ _ => None
  end.

(** The record of one message found; [chat_id] is the resolved chat of the
    search ([None] when the search has none). *)
Definition search_entry (chat_id : value) (hit : SearchHit)
  : list (string * value) :=
  let formatted := format_message (hit_message hit) in
  match hit_chat hit with
  | Some chat =>
      if negb (truthy chat_id) then
        let chat_name :=
          if nonempty (or_empty (title_attr chat))
          then or_empty (title_attr chat)
          else get_sender_name (Some chat) in
        let formatted := dict_set "chat_name" (VStr chat_name) formatted in
        dict_set "chat_id" (VInt (hit_chat_id hit)) formatted
      else formatted
  | None => formatted
  end.

Definition handle_search_messages (client : RemoteMore)
    (args : gmap string value) : result (list TextContent) :=
  query ← getitem args "query";
  let limit := get_default args "limit" (VInt 20) in
  chat_id ← (if truthy (get args "chat_id")
             then chat_id_raw ← getitem args "chat_id";
                  Ok (resolve_chat_id chat_id_raw)
             else Ok VNone);
  let kwargs : gmap string kwarg :=
    <["limit" := kw_value limit]> {["search" := kw_value query]} in
  kwargs ← (if truthy (get args "from_user")
            then from_user ← getitem args "from_user";
                 from_entity ← get_entity client (resolve_chat_id from_user);
                 Ok (<["from_user" := kw_entity (entity_view from_entity)]>
                       kwargs)
            else Ok kwargs);
  let entity := if truthy chat_id then chat_id else VNone in
  stream ← iter_search client entity kwargs;
  let messages := map (search_entry chat_id) stream in
  let result :=
    [ ("query", query);
      ("result_count", VInt (Z.of_nat (length messages)));
      ("messages", VList (map VDict messages)) ] in
  Ok [mk_TextContent "text" (json_dumps (VDict result) 2 false)].

(** *** Send and edit *)

Definition handle_send_message (client : RemoteMore)
    (args : gmap string value) : result (list TextContent) :=
  chat_id_raw ← getitem args "chat_id";
  let chat_id := resolve_chat_id chat_id_raw in
  text ← getitem args "text";
  let reply_to := get args "reply_to" in
  let parse_mode := get args "parse_mode" in
  msg ← send_message client chat_id text reply_to parse_mode;
  Ok [mk_TextContent "text"
        (json_dumps
           (VDict [ ("status", VStr "sent");
                    ("message_id", VInt (msg_id msg));
                    ("chat_id", chat_id_raw);
                    ("date", opt_str (format_timestamp (msg_date msg))) ])
           2 true)].

(** [v[:n]]: a string and a list can be sliced, anything else is a
    [TypeError]. *)
Definition slice_prefix (n : nat) (v : value) : result value :=
  match v with
  | VStr s => Ok (VStr (str_prefix n s))
  | VList l => Ok (VList (firstn n l))
  | _ => Raise (mk_exn OtherException "object is not subscriptable")
  end.

Definition handle_edit_message (client : RemoteMore)
    (args : gmap string value) : result (list TextContent) :=
  chat_id_raw ← getitem args "chat_id";
  let chat_id := resolve_chat_id chat_id_raw in
  message_id ← getitem args "message_id";
  new_text ← getitem args "new_text";
  let parse_mode := get args "parse_mode" in
  msg ← edit_message client chat_id message_id new_text parse_mode;
  shown ← slice_prefix 100 new_text;
  Ok [mk_TextContent "text"
        (json_dumps
           (VDict [ ("status", VStr "edited");
                    ("message_id", VInt (msg_id msg));
                    ("chat_id", chat_id_raw);
                    ("new_text", shown);
                    ("date", opt_str (format_timestamp (msg_date msg))) ])
           2 true)].

(** *** Contacts and users *)

Definition contact_of (u : UserObject) : value :=
  VDict (("id", VInt (u_id u)) :: user_fields u).

Definition handle_search_contacts (client : RemoteMore)
    (args : gmap string value) : result (list TextContent) :=
  query ← getitem args "query";
  let limit := get_default args "limit" (VInt 10) in
  users ← contacts_search client query limit;
  let contacts := map contact_of users in
  Ok [mk_TextContent "text"
        (json_dumps
           (VDict [ ("query", query);
                    ("result_count", VInt (Z.of_nat (length contacts)));
                    ("contacts", VList contacts) ])
           2 false)].

Definition handle_get_user_info (client : RemoteMore)
    (args : gmap string value) : result (list TextContent) :=
  user_id_raw ← getitem args "user_id";
  let user_id := resolve_chat_id user_id_raw in
  entity ← get_entity client user_id;
  match entity with
  | UserEntity u =>
      let info := ("id", VInt (u_id u)) :: user_fields u in
      let info :=
        passing_over
          (bio ← get_full_user client entity;
           Ok (dict_set "bio" (opt_str bio) info)) info in
      Ok [mk_TextContent "text" (json_dumps (VDict info) 2 false)]
  | _ =>
      Ok [mk_TextContent "text"
            (Plain ("Entity " ++ fstr user_id_raw ++ " is not a user (it's a "
                    ++ entity_type_name entity ++ ")."))]
  end.

(** ** The client wrapper *)

(** The three credentials, as [os.environ.get] gives them. *)
Record Environment : Type := mk_env {
  API_ID : option string;
  API_HASH : option string;
  SESSION_STRING : option string
}.

(** What the client library does when [connect] drives it: building the
    client from the session, the numeric id and the hash; connecting;
    telling whether the session is authorized; fetching the account's own
    user ([None] when there is none). *)
Record Backend : Type := mk_backend {
  new_client : string -> Z -> string -> result unit;
  transport_connect : result unit;
  is_user_authorized : result bool;
  get_me : result (option UserObject)
}.

(** [TelegramClientWrapper.connect]: the answer and the wrapper as the call
    leaves it.  Every exception raised on the way is caught and answered
    [False]; [self.client] is assigned once the client is built, and the
    client reports itself connected once its own [connect] has returned. *)
Definition connect (env : Environment) (backend : Backend)
    (self : TelegramClientWrapper) : bool * TelegramClientWrapper :=
  if negb (nonempty (or_empty (API_ID env)))
     || negb (nonempty (or_empty (API_HASH env)))
     || negb (nonempty (or_empty (SESSION_STRING env)))
  then (false, self)
  else
    let built :=
      match py_int (or_empty (API_ID env)) with
      | Some api_id =>
          new_client backend (or_empty (SESSION_STRING env)) api_id
                     (or_empty (API_HASH env))
      | None => Raise (mk_exn ValueError "invalid literal for int()")
      end in
    match built with
    | Raise _ => (false, self)
    | Ok _ =>
        let self := mk_wrapper (Some (mk_client false)) in
        match transport_connect backend with
        | Raise _ => (false, self)
        | Ok _ =>
            let self := mk_wrapper (Some (mk_client true)) in
            match is_user_authorized backend with
            | Raise _ | Ok false => (false, self)
            | Ok true =>
                match get_me backend with
                | Ok (Some me) => (true, self)
                | Ok None | Raise _ => (false, self)
                end
            end
        end
    end.

(** [TelegramClientWrapper.disconnect] *)
Definition disconnect (self : TelegramClientWrapper) : TelegramClientWrapper :=
  match client self with
  | Some _ => mk_wrapper (Some (mk_client false))
  | None => self
  end.

(** [main()]: [run] is the serving of requests over the standard streams,
    which returns or raises; the [finally] disconnects either way. *)
Definition main (env : Environment) (backend : Backend)
    (run : TelegramClientWrapper -> result unit)
    (telegram : TelegramClientWrapper)
  : result unit * TelegramClientWrapper :=
  let '(connected, telegram) := connect env backend telegram in
  if negb connected then (Ok tt, telegram)
  else
    let outcome := run telegram in
    (outcome, disconnect telegram).

(** ** The tool registry *)

Record Tool : Type := mk_Tool {
  tool_name : string;
  tool_description : string;
  inputSchema : value
}.

(** [list_tools()] *)
Definition list_tools : list Tool :=
  [
    mk_Tool
      "telegram_list_chats"
      "List all chats (DMs, groups, channels) with pagination. Returns chat ID, title, unread count, type, and last message preview."
      (VDict
          [ ("type", VStr "object");
            ("properties", VDict
              [ ("limit", VDict
                  [ ("type", VStr "integer");
                    ("description", VStr "Max chats to return (default 20)");
                    ("default", VInt 20) ]);
                ("chat_type", VDict
                  [ ("type", VStr "string");
                    ("description", VStr "Filter by type: 'user', 'group', 'channel', 'bot' (optional)");
                    ("enum", VList [VStr "user"; VStr "group"; VStr "channel"; VStr "bot"]) ]);
                ("offset_id", VDict
                  [ ("type", VStr "integer");
                    ("description", VStr "Offset dialog ID for pagination (optional)") ]) ]);
            ("required", VList []) ]);
    mk_Tool
      "telegram_get_chat_info"
      "Get detailed info about a specific chat. Returns title, type, member count, description, pinned message."
      (VDict
          [ ("type", VStr "object");
            ("properties", VDict
              [ ("chat_id", VDict
                  [ ("type", VList [VStr "integer"; VStr "string"]);
                    ("description", VStr "Chat ID (integer) or @username (string)") ]) ]);
            ("required", VList [VStr "chat_id"]) ]);
    mk_Tool
      "telegram_read_messages"
      "Read messages from a chat in reverse chronological order (newest first). Returns message ID, sender, timestamp, text, media type, reply info."
      (VDict
          [ ("type", VStr "object");
            ("properties", VDict
              [ ("chat_id", VDict
                  [ ("type", VList [VStr "integer"; VStr "string"]);
                    ("description", VStr "Chat ID (integer) or @username (string)") ]);
                ("limit", VDict
                  [ ("type", VStr "integer");
                    ("description", VStr "Max messages to return (default 20)");
                    ("default", VInt 20) ]);
                ("offset_id", VDict
                  [ ("type", VStr "integer");
                    ("description", VStr "Return messages older than this message ID (for pagination)") ]);
                ("min_date", VDict
                  [ ("type", VStr "string");
                    ("description", VStr "Only messages after this date (YYYY-MM-DD)") ]);
                ("max_date", VDict
                  [ ("type", VStr "string");
                    ("description", VStr "Only messages before this date (YYYY-MM-DD)") ]) ]);
            ("required", VList [VStr "chat_id"]) ]);
    mk_Tool
      "telegram_search_messages"
      "Search messages within a specific chat or globally across all chats. Returns matching messages with context."
      (VDict
          [ ("type", VStr "object");
            ("properties", VDict
              [ ("query", VDict
                  [ ("type", VStr "string");
                    ("description", VStr "Search text") ]);
                ("chat_id", VDict
                  [ ("type", VList [VStr "integer"; VStr "string"]);
                    ("description", VStr "Chat ID to search in (optional — omit for global search)") ]);
                ("limit", VDict
                  [ ("type", VStr "integer");
                    ("description", VStr "Max results (default 20)");
                    ("default", VInt 20) ]);
                ("from_user", VDict
                  [ ("type", VList [VStr "integer"; VStr "string"]);
                    ("description", VStr "Filter by sender ID or @username (optional)") ]) ]);
            ("required", VList [VStr "query"]) ]);
    mk_Tool
      "telegram_read_thread"
      "Read replies to a specific message (thread). Returns the parent message and all replies."
      (VDict
          [ ("type", VStr "object");
            ("properties", VDict
              [ ("chat_id", VDict
                  [ ("type", VList [VStr "integer"; VStr "string"]);
                    ("description", VStr "Chat ID (integer) or @username (string)") ]);
                ("message_id", VDict
                  [ ("type", VStr "integer");
                    ("description", VStr "ID of the parent message to read replies for") ]);
                ("limit", VDict
                  [ ("type", VStr "integer");
                    ("description", VStr "Max replies to return (default 20)");
                    ("default", VInt 20) ]) ]);
            ("required", VList [VStr "chat_id"; VStr "message_id"]) ]);
    mk_Tool
      "telegram_send_message"
      "Send a message to a chat. Supports reply_to and parse_mode (markdown/html)."
      (VDict
          [ ("type", VStr "object");
            ("properties", VDict
              [ ("chat_id", VDict
                  [ ("type", VList [VStr "integer"; VStr "string"]);
                    ("description", VStr "Chat ID (integer) or @username (string)") ]);
                ("text", VDict
                  [ ("type", VStr "string");
                    ("description", VStr "Message text to send") ]);
                ("reply_to", VDict
                  [ ("type", VStr "integer");
                    ("description", VStr "Message ID to reply to (optional)") ]);
                ("parse_mode", VDict
                  [ ("type", VStr "string");
                    ("description", VStr "Parse mode: 'markdown' or 'html' (optional)");
                    ("enum", VList [VStr "markdown"; VStr "html"]) ]) ]);
            ("required", VList [VStr "chat_id"; VStr "text"]) ]);
    mk_Tool
      "telegram_edit_message"
      "Edit a previously sent message. You can only edit your own messages."
      (VDict
          [ ("type", VStr "object");
            ("properties", VDict
              [ ("chat_id", VDict
                  [ ("type", VList [VStr "integer"; VStr "string"]);
                    ("description", VStr "Chat ID (integer) or @username (string)") ]);
                ("message_id", VDict
                  [ ("type", VStr "integer");
                    ("description", VStr "ID of the message to edit") ]);
                ("new_text", VDict
                  [ ("type", VStr "string");
                    ("description", VStr "New text for the message") ]);
                ("parse_mode", VDict
                  [ ("type", VStr "string");
                    ("description", VStr "Parse mode: 'markdown' or 'html' (optional)");
                    ("enum", VList [VStr "markdown"; VStr "html"]) ]) ]);
            ("required", VList [VStr "chat_id"; VStr "message_id"; VStr "new_text"]) ]);
    mk_Tool
      "telegram_delete_message"
      "Delete a message. You can delete your own messages in any chat, or any message in groups where you're an admin."
      (VDict
          [ ("type", VStr "object");
            ("properties", VDict
              [ ("chat_id", VDict
                  [ ("type", VList [VStr "integer"; VStr "string"]);
                    ("description", VStr "Chat ID (integer) or @username (string)") ]);
                ("message_id", VDict
                  [ ("type", VStr "integer");
                    ("description", VStr "ID of the message to delete") ]) ]);
            ("required", VList [VStr "chat_id"; VStr "message_id"]) ]);
    mk_Tool
      "telegram_search_contacts"
      "Search your Telegram contacts by name or username."
      (VDict
          [ ("type", VStr "object");
            ("properties", VDict
              [ ("query", VDict
                  [ ("type", VStr "string");
                    ("description", VStr "Search query (name or username)") ]);
                ("limit", VDict
                  [ ("type", VStr "integer");
                    ("description", VStr "Max results (default 10)");
                    ("default", VInt 10) ]) ]);
            ("required", VList [VStr "query"]) ]);
    mk_Tool
      "telegram_get_user_info"
      "Get detailed profile info for a Telegram user."
      (VDict
          [ ("type", VStr "object");
            ("properties", VDict
              [ ("user_id", VDict
                  [ ("type", VList [VStr "integer"; VStr "string"]);
                    ("description", VStr "User ID (integer) or @username (string)") ]) ]);
            ("required", VList [VStr "user_id"]) ])
  ].

(** ** The server's own handlers in the dispatcher *)

(** A handler that changes nothing in the world but through its client. *)
Definition on_client {World : Type}
    (handler : gmap string value -> result (list TextContent))
  : Handler World :=
  fun arguments w => (handler arguments, w).

(** The ten handlers, as [call_tool] names them. *)
Definition server_handlers {World : Type} (client : Remote)
    (more : RemoteMore) : Handlers World :=
  mk_handlers (on_client (handle_list_chats client))
              (on_client (handle_get_chat_info more))
              (on_client (handle_read_messages client))
              (on_client (handle_search_messages more))
              (on_client (handle_read_thread client))
              (on_client (handle_send_message more))
              (on_client (handle_edit_message more))
              (on_client (handle_delete_message client))
              (on_client (handle_search_contacts more))
              (on_client (handle_get_user_info more)).

(** A call on the server, for its answer. *)
Definition serve (telegram : TelegramClientWrapper) (client : Remote)
    (more : RemoteMore) (name : string) (arguments : gmap string value)
  : result (list TextContent) :=
  fst (call_tool telegram (server_handlers client more) name arguments tt).

(** * Vocabulary of the properties

    Notions the statements below are written with; none of them is part of
    the server. *)

(** [k] marker characters in a row. *)
Fixpoint markers (k : nat) : string :=
  match k with
  | O => ""
  | S k' => String "@" (markers k')
  end.

(** Does [s] begin with the marker? *)
Definition starts_with_marker (s : string) : bool :=
  match s with
  | String c _ => Ascii.eqb c "@"
  | EmptyString => false
  end.

(** The reading of the specification: one leading marker is removed, if
    there is one. *)
Definition strip_one_marker (s : string) : string :=
  match s with
  | String "@" s' => s'
  | _ => s
  end.

(** The value of the decimal digits [d] read after a number [acc]. *)
Fixpoint uint_val (d : Decimal.uint) (acc : Z) : Z :=
  match d with
  | Decimal.Nil => acc
  | Decimal.D0 d => uint_val d (10 * acc + 0)
  | Decimal.D1 d => uint_val d (10 * acc + 1)
  | Decimal.D2 d => uint_val d (10 * acc + 2)
  | Decimal.D3 d => uint_val d (10 * acc + 3)
  | Decimal.D4 d => uint_val d (10 * acc + 4)
  | Decimal.D5 d => uint_val d (10 * acc + 5)
  | Decimal.D6 d => uint_val d (10 * acc + 6)
  | Decimal.D7 d => uint_val d (10 * acc + 7)
  | Decimal.D8 d => uint_val d (10 * acc + 8)
  | Decimal.D9 d => uint_val d (10 * acc + 9)
  end.

(** The number of digits of the decimal numeral of [n]. *)
Definition numeral_digits (n : Z) : Z := count_digits (str_of_Z n).

(** Is [s] made of digits only? *)
Fixpoint all_digits (s : string) : bool :=
  match s with
  | String c s' => is_digit c && all_digits s'
  | EmptyString => true
  end.

(** The numeral [d] with the digit [k] in front. *)
Definition digit_cons (k : Z) (d : Decimal.uint) : Decimal.uint :=
  match k with
  | 0 => Decimal.D0 d | 1 => Decimal.D1 d | 2 => Decimal.D2 d
  | 3 => Decimal.D3 d | 4 => Decimal.D4 d | 5 => Decimal.D5 d
  | 6 => Decimal.D6 d | 7 => Decimal.D7 d | 8 => Decimal.D8 d
  | _ => Decimal.D9 d
  end.

(** The least integer whose numeral is over the limit of [int]: a one and
    4300 zeros. *)
Definition ten_to_the_limit : Z := 10 ^ int_max_str_digits.

(** The tag of one attribute, if it decides the kind. *)
Definition attribute_tag (attr : DocumentAttribute) : option string :=
  let attr_type := attr_type_name attr in
  if String.eqb attr_type "DocumentAttributeVideo" then Some "video"
  else if String.eqb attr_type "DocumentAttributeAudio" then
    Some (if attr_voice attr then "voice" else "audio")
  else if String.eqb attr_type "DocumentAttributeSticker" then Some "sticker"
  else if String.eqb attr_type "DocumentAttributeAnimated" then Some "gif"
  else None.

(** [older a b]: both messages are dated, and [a]'s date is before [b]'s,
    as the server compares dates (both read on the UTC clock). *)
Definition older (a b : Message) : Prop :=
  match msg_date a, msg_date b with
  | Some da, Some db =>
      datetime_ltb (replace_tzinfo da (Some timezone_utc))
                   (replace_tzinfo db (Some timezone_utc)) = true
  | _, _ => False
  end.

(** A stream in strictly decreasing date order, and a list in strictly
    increasing date order; every message in them is dated. *)
Definition dated (m : Message) : Prop := msg_date m <> None.

Definition newest_first (stream : list Message) : Prop :=
  List.Forall dated stream /\ Sorted (fun a b => older b a) stream.

Definition oldest_first (l : list Message) : Prop :=
  List.Forall dated l /\ Sorted older l.

(** The record of a dialog, with the kind computed for it. *)
Definition chat_entry (d : Dialog) : list (string * value) :=
  chat_info_of d (get_chat_type (a_dialog d)).

(** A dialog passes the filter [v] when its kind is not different from
    [v], that is when [v] is the string naming its kind. *)
Definition kind_is (v : value) (d : Dialog) : bool :=
  negb (str_ne (get_chat_type (a_dialog d)) v).

(** The record [entry] lists the dialog [d]: it gives the id of the dialog
    and its kind, and for a preview of the last message the first hundred
    characters of the text of that message, the whole text when it is
    shorter; there is no preview when the dialog has no last message or
    that message has no text. *)
Definition lists_dialog (d : Dialog) (entry : list (string * value)) : Prop :=
  dict_get "id" entry = Some (VInt (dlg_id d))
  /\ dict_get "type" entry = Some (VStr (get_chat_type (a_dialog d)))
  /\ match dlg_message d ≫= msg_text with
     | Some (String c text') =>
         let text := String c text' in
         exists preview rest,
           dict_get "last_message" entry = Some (VStr preview)
           /\ text = preview ++ rest
           /\ String.length preview = Nat.min 100 (String.length text)
     | _ => dict_get "last_message" entry = None
     end.

(** The names of the ten tools [list_tools] advertises. *)
Definition tool_names : list string :=
  [ "telegram_list_chats"; "telegram_get_chat_info";
    "telegram_read_messages"; "telegram_search_messages";
    "telegram_read_thread"; "telegram_send_message";
    "telegram_edit_message"; "telegram_delete_message";
    "telegram_search_contacts"; "telegram_get_user_info" ].

(** The line a failure is answered with, by the kind of the failure. *)
Definition failure_line (e : exn) : string :=
  match exn_cls e with
  | ChatAdminRequiredError =>
      "Error: Admin privileges required for this action."
  | ChannelPrivateError =>
      "Error: This channel/group is private or you're not a member."
  | MessageNotModifiedError =>
      "Error: Message content is the same — nothing to update."
  | MessageAuthorRequiredError =>
      "Error: You can only edit/delete your own messages."
  | ValueError | OtherException | Exception => "Error: " ++ exn_str e
  end.

(** The two and four digits of a number, in front of [s]. *)
Definition two_digits (n : Z) (s : string) : string :=
  String (digit_char (n / 10)) (String (digit_char (n mod 10)) s).

Definition four_digits (n : Z) (s : string) : string :=
  String (digit_char (n / 1000))
    (String (digit_char (n / 100 mod 10))
       (String (digit_char (n / 10 mod 10))
          (String (digit_char (n mod 10)) s))).

(** The shape [YYYY-MM-DD HH:MM:SS UTC]: twenty-three characters, digits
    where the letters stand, the separators and the label as written. *)
Definition timestamp_shape (s : string) : bool :=
  match list_ascii_of_string s with
  | [y1; y2; y3; y4; p1; m1; m2; p2; d1; d2; p3;
     H1; H2; p4; M1; M2; p5; S1; S2; p6; p7; p8; p9] =>
      forallb is_digit [y1; y2; y3; y4; m1; m2; d1; d2; H1; H2; M1; M2; S1; S2]
      && String.eqb (string_of_list_ascii [p1; p2; p3; p4; p5; p6; p7; p8; p9])
                    "-- :: UTC"
  | _ => false
  end.

(** The message is dated at [min_dt] or later. *)
Definition meets_min_date (min_dt : datetime) (m : Message) : bool :=
  match msg_date m with
  | Some date =>
      negb (datetime_ltb (replace_tzinfo date (Some timezone_utc)) min_dt)
  | None => false
  end.

(** The date bound, where it is given, can be read. *)
Definition max_date_readable (args : gmap string value) : Prop :=
  truthy (get args "max_date") = false
  \/ exists t max_dt,
       args !! "max_date" = Some (VStr t)
       /\ strptime t "%Y-%m-%d" = Ok max_dt.

(** * Sample data

    Messages, dialogs, arguments and substitute clients on which the
    definitions above are run. *)

Definition dt_2024 : datetime := mk_datetime 2024 3 9 7 5 0 123456 None.

(** A reply whose header names no message. *)
Definition msg_reply_unnamed : Message :=
  mk_message 12 None (Some dt_2024) (Some "re") (Some (mk_reply None))
             None false.

(** A moment of the year 999. *)
Definition dt_999 : datetime := mk_datetime 999 1 2 3 4 5 0 None.

Definition msg_photo : Message :=
  mk_message 7 (Some (User 42 (Some "Ada") None (Some "ada") false))
             (Some dt_2024) (Some "hello") (Some (mk_reply (Some 5)))
             (Some MessageMediaPhoto) false.

Definition msg_voice_note : Message :=
  mk_message 9 None None None None
    (Some (MessageMediaDocument
             (Some (mk_document
                      [ mk_attr "DocumentAttributeFilename" false;
                        mk_attr "DocumentAttributeAudio" true;
                        mk_attr "DocumentAttributeVideo" false ]))))
    false.

Definition msg_empty_document : Message :=
  mk_message 10 None None None None (Some (MessageMediaDocument None)) false.

Definition msg_bare : Message := mk_message 11 None None None None None false.

(** A client whose deletion reports nothing affected. *)
Definition client_nothing_deleted : Remote :=
  mk_remote (fun _ _ => Ok []) (fun _ _ => Ok []) (fun _ _ => Ok None)
            (fun _ _ => Ok []).

Definition delete_args : gmap string value :=
  <["chat_id" := VStr "@team"]> {["message_id" := VInt 17]}.

Definition reply (n : Z) (d : Z) : Message :=
  mk_message n None (Some (mk_datetime 2024 3 d 12 0 0 0 (Some 0)))
             (Some "re") (Some (mk_reply (Some 1))) None false.

(** A client whose thread has the replies 5, 4, 3, newest first. *)
Definition client_thread : Remote :=
  mk_remote (fun _ _ => Ok [])
            (fun _ _ => Ok [reply 5 9; reply 4 8; reply 3 7])
            (fun _ _ => Ok (Some msg_photo))
            (fun _ _ => Ok []).

Definition thread_args : gmap string value :=
  <["chat_id" := VStr "@team"]> {["message_id" := VInt 1]}.

Definition long_text : string :=
  "0123456789012345678901234567890123456789012345678901234567890123456789012345678901234567890123456789 and more".

Definition dlg_user : Dialog :=
  mk_dialog 1 (Some "Ada") (Some "Ada")
            (User 1 (Some "Ada") None None false) None 0.
Definition dlg_supergroup : Dialog :=
  mk_dialog 2 (Some "Team") (Some "Team") (Channel 2 (Some "Team") true)
            (Some (mk_message 30 None (Some dt_2024) (Some long_text)
                              None None false)) 3.
Definition dlg_channel : Dialog :=
  mk_dialog 3 (Some "News") (Some "News") (Channel 3 (Some "News") false)
            None 0.
Definition dlg_group : Dialog :=
  mk_dialog 4 None (Some "Old group") (Chat 4 (Some "Old group")) None 1.

Definition client_dialogs : Remote :=
  mk_remote (fun _ _ => Ok [dlg_user; dlg_supergroup; dlg_channel; dlg_group])
            (fun _ _ => Ok []) (fun _ _ => Ok None) (fun _ _ => Ok []).

Definition group_args : gmap string value := {["chat_type" := VStr "group"]}.

(** A filter that is given and is the empty string. *)
Definition empty_filter_args : gmap string value :=
  {["chat_type" := VStr EmptyString]}.

(** Substitute handlers over a world that is the list of the tools run so
    far: each one adds its name to the list, then returns or raises as it
    is told to. *)
Definition recording (tool : string) (outcome : result (list TextContent))
  : Handler (list string) :=
  fun _ log => (outcome, (log ++ [tool])%list).

Definition recording_handlers (outcome : result (list TextContent))
  : Handlers (list string) :=
  mk_handlers (recording "list_chats" outcome)
              (recording "get_chat_info" outcome)
              (recording "read_messages" outcome)
              (recording "search_messages" outcome)
              (recording "read_thread" outcome)
              (recording "send_message" outcome)
              (recording "edit_message" outcome)
              (recording "delete_message" outcome)
              (recording "search_contacts" outcome)
              (recording "get_user_info" outcome).

Definition telegram_live : TelegramClientWrapper :=
  mk_wrapper (Some (mk_client true)).
Definition telegram_dropped : TelegramClientWrapper :=
  mk_wrapper (Some (mk_client false)).

(** Four messages, one a day, the newest first. *)
Definition four_days : list Message :=
  [reply 5 9; reply 4 8; reply 3 7; reply 2 6].

Definition client_history : Remote :=
  mk_remote (fun _ _ => Ok []) (fun _ _ => Ok four_days)
            (fun _ _ => Ok None) (fun _ _ => Ok []).

Definition since_args : gmap string value :=
  <["chat_id" := VStr "@team"]>
    (<["min_date" := VStr "2024-03-08"]> {["limit" := VInt 10]}).

(** * Further vocabulary and sample data *)

(** The keys a tool's schema lists under ["required"]. *)
Definition schema_required (t : Tool) : list string :=
  match inputSchema t with
  | VDict schema =>
      match dict_get "required" schema with
      | Some (VList keys) =>
          omap (fun k => match k with VStr s => Some s | _ => None end) keys
      | _ => []
      end
  | _ => []
  end.

(** The schema a tool declares for one of its arguments. *)
Definition schema_property (t : Tool) (key : string)
  : option (list (string * value)) :=
  match inputSchema t with
  | VDict schema =>
      match dict_get "properties" schema with
      | Some (VDict properties) =>
          match dict_get key properties with
          | Some (VDict property) => Some property
          | _ => None
          end
      | _ => None
      end
  | _ => None
  end.

(** The tool of a given name, and the default its schema declares for an
    argument. *)
Definition find_tool (name : string) : option Tool :=
  List.find (fun t => String.eqb (tool_name t) name) list_tools.

Definition schema_default (name key : string) : option value :=
  t ← find_tool name;
  property ← schema_property t key;
  dict_get "default" property.

(** The first of [keys] that [args] lacks. *)
Definition first_missing (keys : list string) (args : gmap string value)
  : option string :=
  List.find (fun k => match args !! k with None => true | Some _ => false end)
            keys.

(** The calendar day of a datetime. *)
Definition calendar_day (dt : datetime) : list Z :=
  [year dt; month dt; day dt].

(** The fields [format_timestamp] prints. *)
Definition to_the_second (dt : datetime) : list Z :=
  [year dt; month dt; day dt; hour dt; minute dt; second dt].

(** The keys of a formatted message, in the order they are set. *)
Definition message_keys (message : Message) : list string :=
  (["id"; "sender_name"; "sender_id"; "date"; "text"]
   ++ match msg_reply_to message with
      | Some _ => ["reply_to_msg_id"]
      | None => []
      end
   ++ match msg_media message with
      | Some _ => ["media_type"]
      | None => []
      end
   ++ (if msg_forward message then ["forwarded"] else []))%list.

(** A client that answers nothing, and one whose every call fails. *)
Definition more_silent : RemoteMore :=
  mk_remote_more
    (fun _ => Ok (UnlistedEntity 0 "UserEmpty"))
    (fun _ => Ok (mk_full_chat None None)) (fun _ => Ok (mk_full_chat None None))
    (fun _ => Ok None) (fun _ => Ok []) (fun _ _ => Ok [])
    (fun _ _ _ _ => Ok msg_bare) (fun _ _ _ _ => Ok msg_bare)
    (fun _ _ => Ok []).

Definition flood : exn := mk_exn OtherException "A wait of 30 seconds is required".

Definition more_failing : RemoteMore :=
  mk_remote_more
    (fun _ => Raise flood) (fun _ => Raise flood) (fun _ => Raise flood)
    (fun _ => Raise flood) (fun _ => Raise flood) (fun _ _ => Raise flood)
    (fun _ _ _ _ => Raise flood) (fun _ _ _ _ => Raise flood)
    (fun _ _ => Raise flood).

Definition client_failing : Remote :=
  mk_remote (fun _ _ => Raise flood) (fun _ _ => Raise flood)
            (fun _ _ => Raise flood) (fun _ _ => Raise flood).

(** Arguments with a lower bound that is no date, and with an upper bound
    that is none. *)
Definition bad_since_args : gmap string value :=
  <["chat_id" := VStr "@team"]> {["min_date" := VStr "yesterday"]}.

Definition bad_until_args : gmap string value :=
  <["chat_id" := VStr "@team"]> {["max_date" := VStr "2024-13-01"]}.

Definition latest_two_args : gmap string value :=
  <["chat_id" := VStr "@team"]> {["limit" := VInt 2]}.

Definition no_args : gmap string value := ∅.

(** The value under [key] in an answer that is one JSON object. *)
Definition answer_field (key : string) (answer : result (list TextContent))
  : option value :=
  match answer with
  | Ok [mk_TextContent _ (json_dumps (VDict d) _ _)] => dict_get key d
  | _ => None
  end.

(** The values the schema of list-chats admits for the filter. *)
Definition chat_type_enum : list value :=
  match find_tool "telegram_list_chats" with
  | Some t =>
      match schema_property t "chat_type" with
      | Some property =>
          match dict_get "enum" property with
          | Some (VList kinds) => kinds
          | _ => []
          end
      | None => []
      end
  | None => []
  end.

(** The tool advertised in the [n]-th place. *)
Definition nth_tool (n : nat) : Tool := nth n list_tools (mk_Tool "" "" VNone).

(** A client whose writes are refused for want of admin rights. *)
Definition more_refusing : RemoteMore :=
  mk_remote_more
    (fun _ => Raise flood) (fun _ => Raise flood) (fun _ => Raise flood)
    (fun _ => Raise flood) (fun _ => Raise flood) (fun _ _ => Raise flood)
    (fun _ _ _ _ => Raise (mk_exn ChatAdminRequiredError "CHAT_ADMIN_REQUIRED"))
    (fun _ _ _ _ => Raise (mk_exn MessageAuthorRequiredError
                             "MESSAGE_AUTHOR_REQUIRED"))
    (fun _ _ => Raise flood).

Definition send_args : gmap string value :=
  <["chat_id" := VStr "@team"]> {["text" := VStr "hello"]}.

Definition edit_args : gmap string value :=
  <["chat_id" := VStr "@team"]>
    (<["message_id" := VInt 17]> {["new_text" := VStr long_text]}).

Definition ada : UserObject :=
  mk_user 42 (Some "Ada") None (Some "ada") None false (Some UserStatusOnline).

Definition bot_user : UserObject :=
  mk_user 43 (Some "Helper") None (Some "helper_bot") None true None.

(** A chat of twenty-five messages, whatever is asked of it, and a contact
    search that returns as many users as it is asked for, of twelve. *)
Definition twenty_five : list Message :=
  map (fun i => reply (Z.of_nat i) 9) (rev (seq 1 25)).

Definition client_long_history : Remote :=
  mk_remote (fun _ _ => Ok []) (fun _ _ => Ok twenty_five)
            (fun _ _ => Ok None) (fun _ _ => Ok []).

Definition more_twelve : RemoteMore :=
  mk_remote_more
    (fun _ => Raise flood) (fun _ => Raise flood) (fun _ => Raise flood)
    (fun _ => Raise flood) (fun _ => Raise flood) (fun _ _ => Ok [])
    (fun _ _ _ _ => Raise flood) (fun _ _ _ _ => Raise flood)
    (fun _ limit =>
       match limit with
       | VInt n => Ok (firstn (Z.to_nat n) (repeat ada 12))
       | _ => Raise flood
       end).

(** A chat and a query, and no limit. *)
Definition limit_free_args : gmap string value :=
  <["chat_id" := VStr "@team"]> {["query" := VStr "a"]}.

(** A client whose contact search returns two users whatever the limit,
    that knows of Ada and whose profile fetch fails. *)
Definition more_contacts : RemoteMore :=
  mk_remote_more
    (fun _ => Ok (UserEntity ada))
    (fun _ => Raise flood) (fun _ => Raise flood)
    (fun _ => Raise flood) (fun _ => Raise flood) (fun _ _ => Ok [])
    (fun _ _ _ _ => Raise flood) (fun _ _ _ _ => Raise flood)
    (fun _ _ => Ok [ada; bot_user]).

Definition one_contact_args : gmap string value :=
  <["query" := VStr "a"]> {["limit" := VInt 1]}.

Definition ada_args : gmap string value := {["user_id" := VStr "@ada"]}.

(** The record kept of a pinned message. *)
Definition pinned_summary (msg : Message) : value :=
  VDict [ ("id", VInt (msg_id msg));
          ("text", VStr (str_prefix 200 (or_empty (msg_text msg))));
          ("date", opt_str (format_timestamp (msg_date msg))) ].

(** What the full-info fetch of an entity gives, if there is one to make
    and it returns. *)
Definition full_info_of (client : RemoteMore) (entity : EntityObject)
  : option FullChat :=
  match entity with
  | ChannelEntity _ _ _ _ _ =>
      match get_full_channel client entity with
      | Ok full => Some full
      | Raise _ => None
      end
  | ChatEntity id _ _ =>
      match get_full_chat client id with
      | Ok full => Some full
      | Raise _ => None
      end
  | _ => None
  end.

Definition news_channel : EntityObject :=
  ChannelEntity 3 (Some "News") (Some "news") false (Some 1200).

(** A client that knows the channel, whose full-info fetch fails and whose
    latest message is pinned. *)
Definition more_channel : RemoteMore :=
  mk_remote_more
    (fun _ => Ok news_channel)
    (fun _ => Raise flood) (fun _ => Raise flood)
    (fun _ => Raise flood) (fun _ => Ok [(msg_photo, true)])
    (fun _ _ => Ok [])
    (fun _ _ _ _ => Raise flood) (fun _ _ _ _ => Raise flood)
    (fun _ _ => Ok []).

Definition news_args : gmap string value := {["chat_id" := VStr "@news"]}.

(** The member count an entity carries itself. *)
Definition entity_participants (entity : EntityObject) : option Z :=
  match entity with
  | ChatEntity _ _ participants_count
  | ChannelEntity _ _ _ _ participants_count => participants_count
  | _ => None
  end.

(** A count, where it is given and is not zero. *)
Definition count_shown (n : option Z) : option value :=
  if count_given n then Some (opt_int n) else None.

Definition more_counted : RemoteMore :=
  mk_remote_more
    (fun _ => Ok news_channel)
    (fun _ => Ok (mk_full_chat (Some "All the news") (Some 1250)))
    (fun _ => Raise flood)
    (fun _ => Raise flood) (fun _ => Raise flood)
    (fun _ _ => Ok [])
    (fun _ _ _ _ => Raise flood) (fun _ _ _ _ => Raise flood)
    (fun _ _ => Ok []).

Definition hit_in_group : SearchHit :=
  mk_hit msg_photo (Some (Chat 4 (Some "Old group"))) (-4).

(** A client whose search finds one message, in a group. *)
Definition more_search : RemoteMore :=
  mk_remote_more
    (fun _ => Raise flood) (fun _ => Raise flood) (fun _ => Raise flood)
    (fun _ => Raise flood) (fun _ => Raise flood)
    (fun _ _ => Ok [hit_in_group])
    (fun _ _ _ _ => Raise flood) (fun _ _ _ _ => Raise flood)
    (fun _ _ => Ok []).

Definition search_everywhere_args : gmap string value :=
  {["query" := VStr "hello"]}.

(** A search in the chat written ["@"], a handle of markers only. *)
Definition search_marker_args : gmap string value :=
  <["query" := VStr "hello"]> {["chat_id" := VStr "@"]}.

(** Credentials as a filled-in [.env] gives them, and a library that
    accepts them. *)
Definition env_complete : Environment :=
  mk_env (Some "12345") (Some "0123456789abcdef") (Some "1BVtsOK4Bu").

Definition backend_ready : Backend :=
  mk_backend (fun _ _ _ => Ok tt) (Ok tt) (Ok true) (Ok (Some ada)).

(** The hash left out of the environment. *)
Definition env_without_hash : Environment :=
  mk_env (Some "12345") None (Some "1BVtsOK4Bu").

(** A session that connects but was never authorized. *)
Definition backend_unauthorized : Backend :=
  mk_backend (fun _ _ _ => Ok tt) (Ok tt) (Ok false) (Ok None).

(** The wrapper as the module creates it. *)
Definition telegram_fresh : TelegramClientWrapper := mk_wrapper None.

(** The credentials are all there and the client could be built from
    them. *)
Definition client_built (env : Environment) (backend : Backend) : Prop :=
  exists id hash session api_id,
    API_ID env = Some id /\ API_HASH env = Some hash
    /\ SESSION_STRING env = Some session
    /\ nonempty id = true /\ nonempty hash = true /\ nonempty session = true
    /\ py_int id = Some api_id
    /\ new_client backend session api_id hash = Ok tt.

(** Serving that fails on its streams. *)
Definition run_broken (telegram : TelegramClientWrapper) : result unit :=
  Raise (mk_exn OtherException "broken pipe").

(** * Properties *)

(** ** Worked examples *)

Example resolve_ex1 : resolve_chat_id (VStr "-1001234") = VInt (-1001234).
Proof. reflexivity. Qed.
Example resolve_ex2 : resolve_chat_id (VStr "@durov") = VStr "durov".
Proof. reflexivity. Qed.
Example resolve_ex3 : resolve_chat_id (VStr " 1_000 ") = VInt 1000.
Proof. reflexivity. Qed.
Example resolve_ex4 : resolve_chat_id (VStr "1__0") = VStr "1__0".
Proof. reflexivity. Qed.
Example resolve_ex5 : resolve_chat_id (VStr "@@bob") = VStr "bob".
Proof. reflexivity. Qed.
Example resolve_ex6 : str_of_Z (-42) = "-42" /\ str_of_Z 0 = "0".
Proof. split; reflexivity. Qed.

Example format_timestamp_ex :
  format_timestamp (Some dt_2024) = Some "2024-03-09 07:05:00 UTC".
Proof. reflexivity. Qed.

Example strptime_ex1 :
  strptime "2024-03-09" "%Y-%m-%d" = Ok (mk_datetime 2024 3 9 0 0 0 0 None).
Proof. reflexivity. Qed.
Example strptime_ex2 :
  strptime "2024-3-9" "%Y-%m-%d" = Ok (mk_datetime 2024 3 9 0 0 0 0 None).
Proof. reflexivity. Qed.
Example strptime_ex3 :
  strptime "2023-02-29" "%Y-%m-%d"
  = Raise (mk_exn ValueError "value is out of range").
Proof. reflexivity. Qed.
Example strptime_ex4 :
  strptime "2024-03-09 07:05:00 UTC" "%Y-%m-%d %H:%M:%S UTC"
  = Ok (mk_datetime 2024 3 9 7 5 0 0 None).
Proof. reflexivity. Qed.
Example strptime_ex5 :
  strptime "2024-03-091" "%Y-%m-%d"
  = Raise (mk_exn ValueError "time data does not match format").
Proof. reflexivity. Qed.

Example format_message_ex :
  format_message msg_photo
  = [ ("id", VInt 7); ("sender_name", VStr "Ada"); ("sender_id", VInt 42);
      ("date", VStr "2024-03-09 07:05:00 UTC"); ("text", VStr "hello");
      ("reply_to_msg_id", VInt 5); ("media_type", VStr "photo") ].
Proof. reflexivity. Qed.

(** ** Chat references *)

Lemma lstrip_marker_decompose (s : string) :
  exists k, s = markers k ++ lstrip "@" s
            /\ starts_with_marker (lstrip "@" s) = false.
Proof.
  induction s as [|c s IH].
  - exists O. split; reflexivity.
  - simpl. destruct (Ascii.eqb c "@") eqn:Hc; simpl.
    + apply Ascii.eqb_eq in Hc. subst c.
      destruct IH as [k [Hk Hr]].
      exists (S k). split; [|exact Hr].
      change (String "@" s = String "@" (markers k ++ lstrip "@" s)).
      congruence.
    + exists O. simpl. rewrite Hc. split; reflexivity.
Qed.

Lemma lstrip_no_marker (s : string) :
  starts_with_marker s = false -> lstrip "@" s = s.
Proof.
  destruct s as [|c s]; simpl; [reflexivity|].
  intros ->. reflexivity.
Qed.

(** *** Decimal numerals *)

Lemma int_digits_numeral (d : Decimal.uint) (acc : Z) :
  int_digits acc true (NilEmpty.string_of_uint d) = Some (uint_val d acc).
Proof.
  revert acc. induction d; intros acc; [reflexivity|..];
    cbn [NilEmpty.string_of_uint int_digits uint_val];
    match goal with
    | |- context [is_digit ?c] =>
        change (is_digit c) with true; cbv iota;
        rewrite IHd; do 2 f_equal
    end.
Qed.

Lemma of_uint_acc_val (d : Decimal.uint) (acc : positive) :
  Z.pos (Pos.of_uint_acc d acc) = uint_val d (Z.pos acc).
Proof.
  revert acc. induction d; intros acc; simpl; [reflexivity|..];
    rewrite IHd; f_equal; lia.
Qed.

Lemma of_uint_val (d : Decimal.uint) : Z.of_uint d = uint_val d 0.
Proof.
  unfold Z.of_uint. induction d; simpl; [reflexivity | exact IHd |..];
    rewrite of_uint_acc_val; reflexivity.
Qed.

Lemma int_literal_numeral (d : Decimal.int) :
  int_literal (NilZero.string_of_int d) = Some (Z.of_int d).
Proof.
  destruct d as [u|u]; unfold Z.of_int; rewrite of_uint_val.
  - destruct u; try reflexivity;
      cbn [NilZero.string_of_int NilZero.string_of_uint
           NilEmpty.string_of_uint uint_val];
      unfold int_literal; simpl lstrip_space; cbv iota;
      cbn [int_digits];
      match goal with
      | |- context [is_digit ?c] =>
          change (is_digit c) with true; cbv iota
      end;
      rewrite int_digits_numeral; reflexivity.
  - destruct u; try reflexivity;
      cbn [NilZero.string_of_int NilZero.string_of_uint
           NilEmpty.string_of_uint uint_val];
      unfold int_literal; simpl lstrip_space; cbv iota;
      cbn [int_digits];
      match goal with
      | |- context [is_digit ?c] =>
          change (is_digit c) with true; cbv iota
      end;
      rewrite int_digits_numeral; reflexivity.
Qed.

Lemma int_literal_str_of_Z (n : Z) : int_literal (str_of_Z n) = Some n.
Proof.
  unfold str_of_Z. rewrite int_literal_numeral, DecimalZ.of_to. reflexivity.
Qed.

(** [int] reads back what [str] writes, up to the limit on digits. *)
Lemma py_int_str_of_Z (n : Z) :
  py_int (str_of_Z n)
  = if int_max_str_digits <? numeral_digits n then None else Some n.
Proof.
  unfold py_int. rewrite int_literal_str_of_Z. reflexivity.
Qed.

(** *** How long a numeral is *)

Lemma count_digits_uint (d : Decimal.uint) :
  count_digits (NilEmpty.string_of_uint d) = Z.of_nat (nb_digits d).
Proof.
  induction d; [reflexivity|..];
    cbn [NilEmpty.string_of_uint count_digits nb_digits];
    match goal with
    | |- context [is_digit ?c] => change (is_digit c) with true; cbv iota
    end; rewrite IHd; lia.
Qed.

Lemma uint_val_acc (d : Decimal.uint) (acc : Z) :
  uint_val d acc = acc * 10 ^ Z.of_nat (nb_digits d) + uint_val d 0.
Proof.
  revert acc. induction d; intros acc;
    cbn [uint_val nb_digits];
    [rewrite Z.pow_0_r; simpl; lia|..];
    rewrite IHd, (IHd (10 * 0 + _)), Nat2Z.inj_succ, Z.pow_succ_r by lia; lia.
Qed.

Lemma uint_val_bound (d : Decimal.uint) :
  0 <= uint_val d 0 < 10 ^ Z.of_nat (nb_digits d).
Proof.
  induction d; cbn [uint_val nb_digits];
    [rewrite Z.pow_0_r; simpl; lia|..];
    rewrite uint_val_acc, Nat2Z.inj_succ, Z.pow_succ_r by lia; lia.
Qed.

(** A numeral that does not start with a zero is at least the power of ten
    of its length less one. *)
Lemma uint_val_lower (d : Decimal.uint) :
  d <> Decimal.Nil -> (forall d', d <> Decimal.D0 d') ->
  10 ^ (Z.of_nat (nb_digits d) - 1) <= uint_val d 0.
Proof.
  intros Hnil Hzero. destruct d; try contradiction;
    [exfalso; eapply Hzero; reflexivity|..];
    cbn [uint_val nb_digits];
    rewrite uint_val_acc, Nat2Z.inj_succ;
    replace (Z.succ (Z.of_nat (nb_digits d)) - 1) with (Z.of_nat (nb_digits d))
      by lia;
    pose proof (uint_val_bound d);
    pose proof (Z.pow_pos_nonneg 10 (Z.of_nat (nb_digits d)) ltac:(lia) ltac:(lia));
    nia.
Qed.

Lemma to_uint_head (p : positive) (d' : Decimal.uint) :
  Pos.to_uint p <> Decimal.D0 d'.
Proof.
  intros Heq.
  assert (unorm (Pos.to_uint p) = Pos.to_uint p) as Hnorm.
  { rewrite <- (DecimalPos.Unsigned.to_of (Pos.to_uint p)).
    rewrite DecimalPos.Unsigned.of_to. reflexivity. }
  pose proof (DecimalPos.Unsigned.to_uint_nonzero p) as Hnz.
  unfold unorm in Hnorm.
  destruct (nzhead (Pos.to_uint p)) eqn:Hhead;
    try (rewrite <- Hnorm in Heq; discriminate).
  - congruence.
  - apply (DecimalFacts.nzhead_nonzero (Pos.to_uint p) u). exact Hhead.
Qed.

Lemma numeral_digits_pos (p : positive) :
  10 ^ (numeral_digits (Z.pos p) - 1) <= Z.pos p < 10 ^ numeral_digits (Z.pos p)
  /\ numeral_digits (Z.neg p) = numeral_digits (Z.pos p)
  /\ 1 <= numeral_digits (Z.pos p).
Proof.
  assert (numeral_digits (Z.pos p) = Z.of_nat (nb_digits (Pos.to_uint p))) as Hpos.
  { unfold numeral_digits, str_of_Z. simpl.
    pose proof (DecimalPos.Unsigned.to_uint_nonnil p) as Hnil.
    destruct (Pos.to_uint p) eqn:Hd; try contradiction;
      cbn [NilZero.string_of_uint]; rewrite count_digits_uint; reflexivity. }
  assert (numeral_digits (Z.neg p) = Z.of_nat (nb_digits (Pos.to_uint p))) as Hneg.
  { unfold numeral_digits, str_of_Z. simpl.
    pose proof (DecimalPos.Unsigned.to_uint_nonnil p) as Hnil.
    destruct (Pos.to_uint p) eqn:Hd; try contradiction;
      cbn [NilZero.string_of_uint count_digits];
      change (is_digit "-") with false; cbv iota;
      rewrite count_digits_uint; reflexivity. }
  assert (uint_val (Pos.to_uint p) 0 = Z.pos p) as Hval.
  { rewrite <- of_uint_val. unfold Z.of_uint.
    rewrite DecimalPos.Unsigned.of_to. reflexivity. }
  rewrite Hneg, Hpos. split; [|split; [reflexivity|]].
  - split.
    + rewrite <- Hval at 1.
      apply uint_val_lower; [apply DecimalPos.Unsigned.to_uint_nonnil|].
      intros d'. apply to_uint_head.
    + rewrite <- Hval at 1. apply uint_val_bound.
  - pose proof (DecimalPos.Unsigned.to_uint_nonnil p) as Hnil.
    destruct (Pos.to_uint p); try contradiction; cbn [nb_digits]; lia.
Qed.

(** The numeral of [n] has at most [k] digits exactly when [n] is below the
    [k]-th power of ten in absolute value. *)
Lemma numeral_digits_le (n k : Z) :
  1 <= k -> (numeral_digits n <= k <-> Z.abs n < 10 ^ k).
Proof.
  intros Hk.
  assert (forall p, numeral_digits (Z.pos p) <= k <-> Z.pos p < 10 ^ k) as Hp.
  { intros p. destruct (numeral_digits_pos p) as ([Hlo Hhi] & _ & H1).
    split; intros H.
    - eapply Z.lt_le_trans; [exact Hhi|].
      apply Z.pow_le_mono_r; lia.
    - destruct (Z.le_gt_cases (numeral_digits (Z.pos p)) k) as [|Hgt]; [assumption|].
      exfalso.
      assert (10 ^ k <= 10 ^ (numeral_digits (Z.pos p) - 1))
        by (apply Z.pow_le_mono_r; lia).
      lia. }
  destruct n as [|p|p].
  - change (numeral_digits 0) with 1. simpl Z.abs.
    pose proof (Z.pow_pos_nonneg 10 k ltac:(lia) ltac:(lia)). lia.
  - apply Hp.
  - rewrite (proj1 (proj2 (numeral_digits_pos p))). apply Hp.
Qed.

Lemma py_int_numeral_small (n : Z) :
  Z.abs n < 10 ^ int_max_str_digits -> py_int (str_of_Z n) = Some n.
Proof.
  intros Hn. rewrite py_int_str_of_Z.
  apply numeral_digits_le in Hn; [|unfold int_max_str_digits; lia].
  destruct (Z.ltb_spec int_max_str_digits (numeral_digits n)); [lia|reflexivity].
Qed.

Lemma py_int_numeral_large (n : Z) :
  10 ^ int_max_str_digits <= Z.abs n -> py_int (str_of_Z n) = None.
Proof.
  intros Hn. rewrite py_int_str_of_Z.
  destruct (Z.ltb_spec int_max_str_digits (numeral_digits n)) as [|Hle];
    [reflexivity|].
  apply numeral_digits_le in Hle; [lia|unfold int_max_str_digits; lia].
Qed.

(** C1, as the code has it: the decimal numeral of an integer resolves to
    that integer when it has at most 4300 digits, and so does every string
    that [int] reads, none of which has more digits; any other string, a
    longer numeral included, resolves to itself without its leading markers,
    all of them (the input is some number of markers followed by the
    result, and the result starts with none); an integer, and any value
    that is no string, is returned as it is. *)
Theorem resolve_chat_id_spec :
  (forall n : Z,
      Z.abs n < 10 ^ int_max_str_digits ->
      resolve_chat_id (VStr (str_of_Z n)) = VInt n)
  /\ (forall (s : string) (n : Z),
        py_int s = Some n ->
        resolve_chat_id (VStr s) = VInt n)
  /\ (forall (s : string) (n : Z),
        py_int s = Some n
        <-> int_literal s = Some n /\ count_digits s <= int_max_str_digits)
  /\ (forall s : string,
        py_int s = None ->
        exists k r, s = markers k ++ r
                    /\ starts_with_marker r = false
                    /\ resolve_chat_id (VStr s) = VStr r)
  /\ (forall n : Z,
        10 ^ int_max_str_digits <= Z.abs n ->
        resolve_chat_id (VStr (str_of_Z n)) = VStr (str_of_Z n))
  /\ (forall n : Z, resolve_chat_id (VInt n) = VInt n)
  /\ (forall v : value,
        (forall s, v <> VStr s) -> resolve_chat_id v = v).
Proof.
  split; [|split; [|split; [|split; [|split; [|split]]]]].
  - intros n Hn. unfold resolve_chat_id.
    rewrite py_int_numeral_small by assumption. reflexivity.
  - intros s n Hint. unfold resolve_chat_id. rewrite Hint. reflexivity.
  - intros s n. unfold py_int.
    destruct (int_literal s) as [m|]; simpl;
      [|split; [discriminate | intros [H _]; discriminate]].
    destruct (Z.ltb_spec int_max_str_digits (count_digits s)); split.
    + discriminate.
    + intros [_ Hle]. lia.
    + intros [= <-]. auto.
    + intros [[= <-] _]. reflexivity.
  - intros s Hint. unfold resolve_chat_id. rewrite Hint.
    destruct (lstrip_marker_decompose s) as [k [Hk Hr]].
    exists k, (lstrip "@" s). auto.
  - intros n Hn. unfold resolve_chat_id.
    rewrite py_int_numeral_large by assumption.
    rewrite lstrip_no_marker; [reflexivity|].
    unfold str_of_Z. destruct (Z.to_int n) as [d|d]; simpl;
      [destruct d; reflexivity | reflexivity].
  - reflexivity.
  - intros v Hv. destruct v; try reflexivity.
    exfalso. eapply Hv. reflexivity.
Qed.

Lemma resolve_chat_id_spec_witness :
  resolve_chat_id (VStr " -1_001_234 ") = VInt (-1001234)
  /\ resolve_chat_id (VStr (str_of_Z 1001234)) = VInt 1001234
  /\ exists k r, "@@bob" = markers k ++ r
                 /\ starts_with_marker r = false
                 /\ resolve_chat_id (VStr "@@bob") = VStr r.
Proof.
  split; [|split].
  - apply (proj1 (proj2 resolve_chat_id_spec)). reflexivity.
  - apply (proj1 resolve_chat_id_spec). reflexivity.
  - apply (proj1 (proj2 (proj2 (proj2 resolve_chat_id_spec)))). reflexivity.
Defined.

(** C1 as the specification words it fails on two inputs.  On a handle
    with two leading markers both are removed, not one.  And the numeral
    of the integer written as a one and 4300 zeros, an integer-valued
    string, resolves to that string and not to the integer. *)
Lemma resolve_chat_id_fails_as_worded :
  (py_int "@@bob" = None
   /\ resolve_chat_id (VStr "@@bob") = VStr "bob"
   /\ resolve_chat_id (VStr "@@bob") <> VStr (strip_one_marker "@@bob"))
  /\ (int_literal (str_of_Z ten_to_the_limit) = Some ten_to_the_limit
      /\ resolve_chat_id (VStr (str_of_Z ten_to_the_limit))
         = VStr (str_of_Z ten_to_the_limit)
      /\ resolve_chat_id (VStr (str_of_Z ten_to_the_limit))
         <> VInt ten_to_the_limit).
Proof.
  split.
  - repeat split. discriminate.
  - assert (py_int (str_of_Z ten_to_the_limit) = None) as Hcap.
    { apply py_int_numeral_large. unfold ten_to_the_limit.
      rewrite Z.abs_eq; [apply Z.le_refl|].
      apply Z.pow_nonneg. lia. }
    split; [apply int_literal_str_of_Z|].
    unfold resolve_chat_id. rewrite Hcap. split; [|discriminate].
    rewrite lstrip_no_marker; [reflexivity|].
    unfold str_of_Z. destruct (Z.to_int ten_to_the_limit) as [d|d]; simpl;
      [destruct d; reflexivity | reflexivity].
Qed.

(** With at most one leading marker the two readings agree. *)
Lemma resolve_chat_id_at_most_one_marker (s : string) :
  py_int s = None ->
  starts_with_marker (strip_one_marker s) = false ->
  resolve_chat_id (VStr s) = VStr (strip_one_marker s).
Proof.
  intros Hint Hone. unfold resolve_chat_id. rewrite Hint. f_equal.
  destruct s as [|c s]; [reflexivity|].
  destruct (Ascii.eqb c "@") eqn:Hc.
  - apply Ascii.eqb_eq in Hc. subst c. simpl in *.
    apply lstrip_no_marker, Hone.
  - assert (strip_one_marker (String c s) = String c s) as Heq.
    { destruct c as [[] [] [] [] [] [] [] []]; try reflexivity; discriminate. }
    rewrite Heq in *. apply lstrip_no_marker, Hone.
Qed.

(** ** Media kinds *)

Lemma attribute_tag_not_document attr tag :
  attribute_tag attr = Some tag -> tag <> "document".
Proof.
  unfold attribute_tag.
  repeat match goal with
         | |- context [if ?b then _ else _] => destruct b
         end; intros [= <-]; discriminate.
Qed.

Lemma attributes_loop_cons attr attrs :
  document_attributes_loop (attr :: attrs)
  = match attribute_tag attr with
    | Some tag => tag
    | None => document_attributes_loop attrs
    end.
Proof.
  simpl. unfold attribute_tag.
  repeat match goal with
         | |- context [String.eqb ?a ?b] => destruct (String.eqb a b)
         end; reflexivity.
Qed.

Lemma attributes_loop_first_match pre attr post tag :
  Forall (fun a => attribute_tag a = None) pre ->
  attribute_tag attr = Some tag ->
  document_attributes_loop (pre ++ attr :: post)%list = tag.
Proof.
  intros Hpre Htag. induction Hpre as [|a pre Ha _ IH].
  - rewrite app_nil_l, attributes_loop_cons, Htag. reflexivity.
  - rewrite <- app_comm_cons, attributes_loop_cons, Ha. exact IH.
Qed.

Lemma attributes_loop_document attrs :
  document_attributes_loop attrs = "document"
  <-> Forall (fun a => attribute_tag a = None) attrs.
Proof.
  induction attrs as [|a attrs IH].
  - split; [constructor | reflexivity].
  - rewrite attributes_loop_cons. destruct (attribute_tag a) as [tag|] eqn:Ha.
    + split.
      * intros ->. exfalso. eapply attribute_tag_not_document; eauto.
      * intros H. inversion H; subst. congruence.
    + rewrite IH. split.
      * intros H. constructor; assumption.
      * intros H. inversion H; assumption.
Qed.

(** C10: a document payload whose inner document is absent is classified
    "other"; "document" is the answer exactly for a document payload whose
    inner document is present and none of whose attributes decides a kind;
    and the first attribute that decides a kind gives the answer. *)
Theorem get_media_type_document (message : Message) :
  (msg_media message = Some (MessageMediaDocument None) ->
   get_media_type message = Some "other")
  /\ (get_media_type message = Some "document"
      <-> exists doc,
            msg_media message = Some (MessageMediaDocument (Some doc))
            /\ Forall (fun a => attribute_tag a = None) (attributes doc))
  /\ (forall pre attr post tag,
        msg_media message
        = Some (MessageMediaDocument
                  (Some (mk_document (pre ++ attr :: post)%list))) ->
        Forall (fun a => attribute_tag a = None) pre ->
        attribute_tag attr = Some tag ->
        get_media_type message = Some tag).
Proof.
  unfold get_media_type. repeat split.
  - intros ->. reflexivity.
  - destruct (msg_media message) as [[| [doc|] | | | | |]|];
      simpl; try discriminate.
    intros [= H]. exists doc. split; [reflexivity|].
    apply attributes_loop_document, H.
  - intros [doc [-> H]]. simpl. f_equal. apply attributes_loop_document, H.
  - intros pre attr post tag -> Hpre Htag. simpl. f_equal.
    apply attributes_loop_first_match; assumption.
Qed.

Lemma get_media_type_document_witness :
  get_media_type msg_empty_document = Some "other"
  /\ get_media_type msg_voice_note = Some "voice".
Proof.
  split.
  - apply (proj1 (get_media_type_document msg_empty_document)). reflexivity.
  - apply (proj2 (proj2 (get_media_type_document msg_voice_note))
             [mk_attr "DocumentAttributeFilename" false]
             (mk_attr "DocumentAttributeAudio" true)
             [mk_attr "DocumentAttributeVideo" false] "voice").
    + reflexivity.
    + repeat constructor.
    + reflexivity.
Defined.

(** ** Message records *)

Lemma dict_get_present (k : string) (d : list (string * value)) :
  In k (dict_keys d) <-> exists v, dict_get k d = Some v.
Proof.
  induction d as [|[k' v'] d IH]; simpl.
  - split; [tauto | intros [v Hv]; discriminate].
  - destruct (String.eqb k k') eqn:Hk.
    + apply String.eqb_eq in Hk. split; eauto.
    + apply String.eqb_neq in Hk. rewrite <- IH. split.
      * intros [H|H]; [congruence | assumption].
      * tauto.
Qed.

Lemma dict_get_absent (k : string) (d : list (string * value)) :
  ~ In k (dict_keys d) <-> dict_get k d = None.
Proof.
  rewrite dict_get_present. destruct (dict_get k d) as [v|].
  - split; [intros H; exfalso; eauto | discriminate].
  - split; [reflexivity | intros _ [v Hv]; discriminate].
Qed.

Lemma document_attributes_loop_nonempty attrs :
  nonempty (document_attributes_loop attrs) = true.
Proof.
  induction attrs as [|a attrs IH]; simpl; [reflexivity|].
  repeat match goal with
         | |- context [if ?b then _ else _] => destruct b
         end; auto.
Qed.

Lemma get_media_type_nonempty message tag :
  get_media_type message = Some tag -> nonempty tag = true.
Proof.
  unfold get_media_type.
  destruct (msg_media message) as [[| [doc|] | | | | |]|]; simpl;
    intros [= <-]; auto using document_attributes_loop_nonempty.
Qed.

Lemma get_media_type_present message :
  get_media_type message = None <-> msg_media message = None.
Proof.
  unfold get_media_type.
  destruct (msg_media message) as [[| [doc|] | | | | |]|]; simpl;
    split; intros H; try discriminate; reflexivity.
Qed.

(** C6, as the code has it: in the record of any message, ["date"] and
    ["text"] are always there (the text being the empty string when the
    message has none); the reply-parent id is there exactly when the
    message has a reply header, and holds the id the header names, or a
    null when the header names none; the media kind is there exactly when
    the media classifies to a tag (never for a message without media), the
    forwarded flag exactly when the message is forwarded and then it is
    [True]; neither of these two keys is ever there with a null value. *)
Theorem format_message_optional_keys (message : Message) :
  let record := format_message message in
  dict_get "date" record
  = Some (opt_str (format_timestamp (msg_date message)))
  /\ dict_get "text" record = Some (VStr (default "" (msg_text message)))
  /\ dict_get "reply_to_msg_id" record
     = (fun r => opt_int (reply_to_msg_id r)) <$> msg_reply_to message
  /\ dict_get "media_type" record = VStr <$> get_media_type message
  /\ dict_get "forwarded" record
     = (if msg_forward message then Some (VBool true) else None)
  /\ (In "reply_to_msg_id" (dict_keys record) <-> msg_reply_to message <> None)
  /\ (In "media_type" (dict_keys record) <-> msg_media message <> None)
  /\ (In "forwarded" (dict_keys record) <-> msg_forward message = true)
  /\ List.Forall (fun k => dict_get k record <> Some VNone)
                 ["media_type"; "forwarded"]
  /\ (dict_get "reply_to_msg_id" record = Some VNone
      <-> exists r, msg_reply_to message = Some r
                    /\ reply_to_msg_id r = None).
Proof.
  intros record.
  assert (dict_get "media_type" record = VStr <$> get_media_type message
          /\ dict_get "date" record
             = Some (opt_str (format_timestamp (msg_date message)))
          /\ dict_get "text" record
             = Some (VStr (default "" (msg_text message)))
          /\ dict_get "reply_to_msg_id" record
             = (fun r => opt_int (reply_to_msg_id r)) <$> msg_reply_to message
          /\ dict_get "forwarded" record
             = (if msg_forward message then Some (VBool true) else None))
    as (Hmedia & Hdate & Htext & Hreply & Hfwd).
  { subst record. unfold format_message.
    pose proof (get_media_type_nonempty message) as Hne.
    assert (VStr (if nonempty (or_empty (msg_text message))
                  then or_empty (msg_text message) else "")
            = VStr (default "" (msg_text message))) as ->.
    { unfold or_empty, nonempty.
      destruct (msg_text message) as [[|c t]|]; reflexivity. }
    destruct (get_media_type message) as [tag|]; simpl or_empty.
    - rewrite (Hne tag eq_refl).
      destruct (msg_reply_to message), (msg_forward message);
        repeat split; reflexivity.
    - destruct (msg_reply_to message), (msg_forward message);
        repeat split; reflexivity. }
  split; [assumption|]. split; [assumption|]. split; [assumption|].
  split; [assumption|]. split; [assumption|].
  rewrite !dict_get_present, Hreply, Hmedia, Hfwd.
  split; [|split; [|split; [|split]]].
  - destruct (msg_reply_to message); simpl.
    + split; [discriminate | eauto].
    + split; [intros [v Hv]; discriminate | congruence].
  - destruct (get_media_type message) as [tag|] eqn:Htag; simpl.
    + split; [|eauto]. intros _ Hnone.
      apply get_media_type_present in Hnone. congruence.
    + apply get_media_type_present in Htag.
      split; [intros [v Hv]; discriminate | congruence].
  - destruct (msg_forward message).
    + split; eauto.
    + split; [intros [v Hv]; discriminate | discriminate].
  - repeat constructor.
    + rewrite Hmedia. destruct (get_media_type message); discriminate.
    + rewrite Hfwd. destruct (msg_forward message); discriminate.
  - destruct (msg_reply_to message) as [[[parent|]]|]; simpl.
    + split; [discriminate|]. intros (r & [= <-] & Hr). discriminate.
    + split; [eauto | reflexivity].
    + split; [discriminate|]. intros (r & Hr & _). discriminate.
Qed.

Lemma format_message_optional_keys_witness :
  dict_get "text" (format_message msg_bare) = Some (VStr "")
  /\ dict_get "reply_to_msg_id" (format_message msg_photo) = Some (VInt 5)
  /\ (In "media_type" (dict_keys (format_message msg_bare))
      <-> msg_media msg_bare <> None).
Proof.
  split; [|split].
  - exact (proj1 (proj2 (format_message_optional_keys msg_bare))).
  - exact (proj1 (proj2 (proj2 (format_message_optional_keys msg_photo)))).
  - exact (proj1 (proj2 (proj2 (proj2 (proj2 (proj2 (proj2
             (format_message_optional_keys msg_bare)))))))).
Defined.

(** C6 as the specification words it fails on a reply whose header names
    no message: the key of the reply-parent id is there, and its value is
    a null. *)
Lemma format_message_reply_without_id :
  format_message msg_reply_unnamed
  = [ ("id", VInt 12); ("sender_name", VStr "Unknown"); ("sender_id", VNone);
      ("date", VStr "2024-03-09 07:05:00 UTC"); ("text", VStr "re");
      ("reply_to_msg_id", VNone) ]
  /\ In "reply_to_msg_id" (dict_keys (format_message msg_reply_unnamed))
  /\ dict_get "reply_to_msg_id" (format_message msg_reply_unnamed)
     = Some VNone.
Proof. repeat split. simpl. auto 10. Qed.

Example format_message_bare :
  format_message msg_bare
  = [ ("id", VInt 11); ("sender_name", VStr "Unknown"); ("sender_id", VNone);
      ("date", VNone); ("text", VStr "") ].
Proof. reflexivity. Qed.

(** ** Delete message *)

(** C9: whenever the remote deletion returns, whatever it reports as
    affected (an empty report too), the handler answers with the status
    "deleted", the message id and the chat id as they were given; the
    count it reads from the report appears nowhere in the answer. *)
Theorem handle_delete_message_ignores_count
    (client : Remote) (args : gmap string value)
    (chat_id_raw message_id : value) (affected : list AffectedMessages) :
  args !! "chat_id" = Some chat_id_raw ->
  args !! "message_id" = Some message_id ->
  delete_messages client (resolve_chat_id chat_id_raw) [message_id]
  = Ok affected ->
  handle_delete_message client args
  = Ok [mk_TextContent "text"
          (json_dumps (VDict [ ("status", VStr "deleted");
                               ("message_id", message_id);
                               ("chat_id", chat_id_raw) ]) 2 true)].
Proof.
  intros Hchat Hmsg Hdel. unfold handle_delete_message, getitem.
  rewrite Hchat, Hmsg. simpl. rewrite Hdel. reflexivity.
Qed.

Lemma handle_delete_message_ignores_count_witness :
  handle_delete_message client_nothing_deleted delete_args
  = Ok [mk_TextContent "text"
          (json_dumps (VDict [ ("status", VStr "deleted");
                               ("message_id", VInt 17);
                               ("chat_id", VStr "@team") ]) 2 true)].
Proof.
  apply (handle_delete_message_ignores_count
           client_nothing_deleted delete_args (VStr "@team") (VInt 17) []);
    reflexivity.
Defined.

(** ** Order of messages in time *)

Lemma lex_ltb_trans (a b c : list Z) :
  lex_ltb a b = true -> lex_ltb b c = true -> lex_ltb a c = true.
Proof.
  revert b c. induction a as [|x a IH]; intros [|y b] [|z c]; simpl;
    try discriminate; auto.
  intros Hab Hbc.
  apply orb_true_iff in Hab. apply orb_true_iff in Hbc.
  apply orb_true_iff.
  destruct Hab as [Hab|Hab], Hbc as [Hbc|Hbc];
    repeat match goal with
           | H : (_ && _) = true |- _ => apply andb_true_iff in H; destruct H
           end.
  - left. lia.
  - left. lia.
  - left. lia.
  - right. apply andb_true_iff. split; [lia | eauto].
Qed.

Lemma older_trans a b c : older a b -> older b c -> older a c.
Proof.
  unfold older, datetime_ltb.
  destruct (msg_date a), (msg_date b), (msg_date c); try tauto.
  apply lex_ltb_trans.
Qed.

Lemma newest_first_strong stream :
  newest_first stream -> StronglySorted (fun a b => older b a) stream.
Proof.
  intros [_ H]. revert H.
  apply Sorted_StronglySorted. intros a b c Hab Hbc.
  eapply older_trans; eauto.
Qed.

Lemma newest_first_tail m stream :
  newest_first (m :: stream) -> newest_first stream.
Proof.
  intros [Hd Hs]. inversion Hd; subst. inversion Hs; subst.
  split; assumption.
Qed.

Lemma StronglySorted_snoc {A} (R : A -> A -> Prop) (l : list A) (x : A) :
  StronglySorted R l -> List.Forall (fun y => R y x) l ->
  StronglySorted R (l ++ [x]).
Proof.
  induction 1 as [|a l Hl IH Ha]; intros Hx; simpl.
  - repeat constructor.
  - inversion Hx; subst. constructor; [auto|].
    apply List.Forall_app. split; [assumption | repeat constructor; assumption].
Qed.

Lemma newest_first_rev stream : newest_first stream -> oldest_first (rev stream).
Proof.
  intros H. split.
  - destruct H as [Hd _]. apply List.Forall_forall. intros m Hm.
    apply in_rev in Hm. rewrite List.Forall_forall in Hd. auto.
  - apply newest_first_strong in H.
    apply StronglySorted_Sorted.
    induction H as [|a l Hl IH Ha]; simpl; [constructor|].
    apply StronglySorted_snoc; [exact IH|].
    apply List.Forall_forall. intros y Hy. apply in_rev in Hy.
    rewrite List.Forall_forall in Ha. auto.
Qed.

(** ** Read thread *)

Lemma collect_replies_map stream :
  collect_replies stream = map format_message stream.
Proof.
  unfold collect_replies.
  enough (forall acc,
             fold_left
               (fun replies msg => (replies ++ [format_message msg])%list)
               stream acc
             = (acc ++ map format_message stream)%list) as H by apply (H []).
  induction stream as [|m stream IH]; intros acc; simpl.
  - rewrite app_nil_r. reflexivity.
  - rewrite IH, <- app_assoc. reflexivity.
Qed.

Lemma format_message_id message :
  dict_get "id" (format_message message) = Some (VInt (msg_id message)).
Proof.
  unfold format_message.
  destruct (msg_reply_to message), (nonempty (or_empty (get_media_type message))),
    (msg_forward message); reflexivity.
Qed.

(** C7: when the parent message exists, the replies in the answer are the
    records of the remote replies in reverse order: the ids come out in the
    reverse of the order they came in, and replies that came newest first
    are returned oldest first. *)
Theorem handle_read_thread_reverses
    (client : Remote) (args : gmap string value)
    (chat_id_raw message_id : value) (parent : Message)
    (stream : list Message) :
  args !! "chat_id" = Some chat_id_raw ->
  args !! "message_id" = Some message_id ->
  get_messages client (resolve_chat_id chat_id_raw) message_id
  = Ok (Some parent) ->
  iter_messages client (resolve_chat_id chat_id_raw)
    (<["limit" := kw_value (get_default args "limit" (VInt 20))]>
       {["reply_to" := kw_value message_id]})
  = Ok stream ->
  let replies := map format_message (rev stream) in
  handle_read_thread client args
  = Ok [mk_TextContent "text"
          (json_dumps
             (VDict [ ("parent_message", VDict (format_message parent));
                      ("reply_count", VInt (Z.of_nat (length stream)));
                      ("replies", VList (map VDict replies)) ]) 2 false)]
  /\ map (dict_get "id") replies
     = map (fun m => Some (VInt (msg_id m))) (rev stream)
  /\ (newest_first stream -> oldest_first (rev stream)).
Proof.
  intros Hchat Hmsg Hparent Hstream replies. split; [|split].
  - unfold handle_read_thread, getitem.
    rewrite Hchat, Hmsg. simpl. rewrite Hparent. simpl. rewrite Hstream.
    simpl. rewrite collect_replies_map, <- map_rev, length_map, length_rev.
    reflexivity.
  - subst replies. rewrite map_map. apply map_ext. intros m.
    apply format_message_id.
  - apply newest_first_rev.
Qed.

Lemma handle_read_thread_reverses_witness :
  map (dict_get "id")
      (map format_message (rev [reply 5 9; reply 4 8; reply 3 7]))
  = [Some (VInt 3); Some (VInt 4); Some (VInt 5)].
Proof.
  exact (proj1 (proj2 (handle_read_thread_reverses
                  client_thread thread_args (VStr "@team") (VInt 1) msg_photo
                  [reply 5 9; reply 4 8; reply 3 7]
                  eq_refl eq_refl eq_refl eq_refl))).
Defined.

Example handle_read_thread_ex :
  handle_read_thread client_thread thread_args
  = Ok [mk_TextContent "text"
          (json_dumps
             (VDict [ ("parent_message", VDict (format_message msg_photo));
                      ("reply_count", VInt 3);
                      ("replies",
                       VList (map (fun m => VDict (format_message m))
                                  [reply 3 7; reply 4 8; reply 5 9])) ])
             2 false)].
Proof. reflexivity. Qed.

(** ** List chats *)

Lemma length_str_prefix (n : nat) (s : string) :
  String.length (str_prefix n s) = Nat.min n (String.length s).
Proof.
  unfold str_prefix. revert s.
  induction n as [|n IH]; intros [|c s]; simpl; auto.
Qed.

Lemma str_prefix_is_prefix (n : nat) (s : string) :
  exists tail, s = str_prefix n s ++ tail.
Proof.
  unfold str_prefix. revert s.
  induction n as [|n IH]; intros [|c s]; simpl;
    try (eexists; reflexivity).
  destruct (IH s) as [tail Htail]. exists tail.
  change (String c s = String c (substring 0 n s ++ tail)).
  congruence.
Qed.

Lemma kind_is_spec v d :
  kind_is v d = true <-> v = VStr (get_chat_type (a_dialog d)).
Proof.
  unfold kind_is, str_ne. destruct v as [| b | n | s | l | kv]; simpl;
    try (split; [discriminate | discriminate]).
  rewrite negb_involutive, String.eqb_eq. split; [congruence|].
  intros [= ->]. reflexivity.
Qed.

Lemma list_chats_loop_filtered v dialogs results :
  truthy v = true ->
  list_chats_loop v dialogs results
  = (results
     ++ map (fun d => VDict (chat_entry d)) (List.filter (kind_is v) dialogs))%list.
Proof.
  intros Hv. revert results.
  induction dialogs as [|d dialogs IH]; intros results; simpl.
  - rewrite app_nil_r. reflexivity.
  - rewrite Hv. unfold kind_is at 1. simpl.
    destruct (str_ne (get_chat_type (a_dialog d)) v); simpl.
    + apply IH.
    + rewrite IH, <- app_assoc. reflexivity.
Qed.

Lemma list_chats_loop_unfiltered v dialogs results :
  truthy v = false ->
  list_chats_loop v dialogs results
  = (results ++ map (fun d => VDict (chat_entry d)) dialogs)%list.
Proof.
  intros Hv. revert results.
  induction dialogs as [|d dialogs IH]; intros results; simpl.
  - rewrite app_nil_r. reflexivity.
  - rewrite Hv. simpl. rewrite IH, <- app_assoc. reflexivity.
Qed.

Lemma chat_entry_type d :
  dict_get "type" (chat_entry d) = Some (VStr (get_chat_type (a_dialog d))).
Proof.
  unfold chat_entry, chat_info_of.
  destruct (dlg_message d) as [m|]; [|reflexivity].
  destruct (nonempty (or_empty (msg_text m))); reflexivity.
Qed.

Lemma chat_entry_preview d v :
  dict_get "last_message" (chat_entry d) = Some v ->
  exists m, dlg_message d = Some m
            /\ v = VStr (str_prefix 100 (or_empty (msg_text m)))
            /\ (String.length (str_prefix 100 (or_empty (msg_text m))) <= 100)%nat.
Proof.
  unfold chat_entry, chat_info_of.
  destruct (dlg_message d) as [m|]; [|discriminate].
  destruct (nonempty (or_empty (msg_text m))); [|discriminate].
  simpl. intros [= <-]. exists m. repeat split.
  rewrite length_str_prefix. lia.
Qed.

Lemma chat_entry_lists (d : Dialog) : lists_dialog d (chat_entry d).
Proof.
  unfold lists_dialog. split; [|split; [apply chat_entry_type|]].
  - unfold chat_entry, chat_info_of.
    destruct (dlg_message d) as [m|]; [|reflexivity].
    destruct (nonempty (or_empty (msg_text m))); reflexivity.
  - unfold chat_entry, chat_info_of.
    destruct (dlg_message d) as [m|]; [|reflexivity]. simpl.
    destruct (msg_text m) as [[|c text']|]; try reflexivity. simpl.
    destruct (str_prefix_is_prefix 100 (String c text')) as [rest Hrest].
    exists (str_prefix 100 (String c text')), rest.
    split; [reflexivity|]. split; [exact Hrest|].
    apply length_str_prefix.
Qed.

(** C8, as the code has it: with a chat-kind filter that is not empty, the
    answer lists exactly the dialogs whose computed kind is the filter, one
    record for each, in the order the remote service listed them; the
    record of a dialog gives its id and its kind, and its last-message
    preview is the first 100 characters of the text of the last message,
    so never more than 100 characters. *)
Theorem handle_list_chats_filter
    (client : Remote) (args : gmap string value) (chat_type : value)
    (dialogs : list Dialog) :
  args !! "chat_type" = Some chat_type ->
  truthy chat_type = true ->
  get_dialogs client (get_default args "limit" (VInt 20))
              (get_default args "offset_id" (VInt 0)) = Ok dialogs ->
  let selected := List.filter (kind_is chat_type) dialogs in
  (forall d, In d selected
             <-> In d dialogs
                 /\ chat_type = VStr (get_chat_type (a_dialog d)))
  /\ exists entries,
       handle_list_chats client args
       = Ok [mk_TextContent "text"
               (json_dumps (VList (map VDict entries)) 2 false)]
       /\ List.Forall2 lists_dialog selected entries
       /\ List.Forall
            (fun entry =>
               dict_get "type" entry = Some chat_type
               /\ forall v, dict_get "last_message" entry = Some v ->
                            exists preview,
                              v = VStr preview
                              /\ (String.length preview <= 100)%nat)
            entries.
Proof.
  intros Hfilter Htruthy Hdialogs selected. split.
  - intros d. subst selected. rewrite filter_In, kind_is_spec. tauto.
  - exists (map chat_entry selected). split; [|split].
    + unfold handle_list_chats. rewrite Hdialogs. simpl.
      replace (get args "chat_type") with chat_type
        by (unfold get, get_default; rewrite Hfilter; reflexivity).
      rewrite list_chats_loop_filtered by assumption.
      rewrite map_map. reflexivity.
    + induction selected as [|d rest IH]; simpl; constructor;
        [apply chat_entry_lists | exact IH].
    + apply List.Forall_forall. intros entry Hentry.
      apply in_map_iff in Hentry. destruct Hentry as (d & <- & Hd).
      apply filter_In in Hd. destruct Hd as [_ Hkind].
      apply kind_is_spec in Hkind. split.
      * rewrite chat_entry_type. congruence.
      * intros v Hv. apply chat_entry_preview in Hv.
        destruct Hv as (m & _ & -> & Hlen). eauto.
Qed.

(** Without a filter every dialog is listed. *)
Lemma handle_list_chats_all
    (client : Remote) (args : gmap string value) (dialogs : list Dialog) :
  truthy (get args "chat_type") = false ->
  get_dialogs client (get_default args "limit" (VInt 20))
              (get_default args "offset_id" (VInt 0)) = Ok dialogs ->
  handle_list_chats client args
  = Ok [mk_TextContent "text"
          (json_dumps (VList (map (fun d => VDict (chat_entry d)) dialogs))
                      2 false)].
Proof.
  intros Hfilter Hdialogs. unfold handle_list_chats.
  rewrite Hdialogs. simpl.
  rewrite list_chats_loop_unfiltered by assumption. reflexivity.
Qed.

Lemma handle_list_chats_filter_witness :
  exists entries,
    handle_list_chats client_dialogs group_args
    = Ok [mk_TextContent "text"
            (json_dumps (VList (map VDict entries)) 2 false)]
    /\ List.Forall2 lists_dialog [dlg_supergroup; dlg_group] entries.
Proof.
  destruct (proj2 (handle_list_chats_filter
                     client_dialogs group_args (VStr "group")
                     [dlg_user; dlg_supergroup; dlg_channel; dlg_group]
                     eq_refl eq_refl eq_refl))
    as (entries & Hanswer & Hlisted & _).
  exists entries. split; [exact Hanswer | exact Hlisted].
Defined.

(** C8 as the specification words it fails on the filter that is the
    empty string: no dialog is of that kind, and yet all four are
    listed. *)
Lemma handle_list_chats_empty_filter :
  empty_filter_args !! "chat_type" = Some (VStr "")
  /\ (forall d, In d [dlg_user; dlg_supergroup; dlg_channel; dlg_group] ->
                VStr "" <> VStr (get_chat_type (a_dialog d)))
  /\ handle_list_chats client_dialogs empty_filter_args
     = Ok [mk_TextContent "text"
             (json_dumps
                (VList (map (fun d => VDict (chat_entry d))
                            [dlg_user; dlg_supergroup; dlg_channel; dlg_group]))
                2 false)].
Proof.
  split; [reflexivity|]. split; [|reflexivity].
  intros d [<- | [<- | [<- | [<- | []]]]]; discriminate.
Qed.

Example handle_list_chats_ex :
  List.filter (kind_is (VStr "group"))
              [dlg_user; dlg_supergroup; dlg_channel; dlg_group]
  = [dlg_supergroup; dlg_group]
  /\ dict_get "last_message" (chat_entry dlg_supergroup)
     = Some (VStr "0123456789012345678901234567890123456789012345678901234567890123456789012345678901234567890123456789").
Proof. split; reflexivity. Qed.

(** ** The dispatcher *)

Lemma first_clause_call_tool (e : exn) :
  first_clause call_tool_clauses e = Some (text_result (failure_line e)).
Proof. destruct e as [[] msg]; reflexivity. Qed.

Lemma try_except_call_tool (body : result (list TextContent)) :
  try_except body call_tool_clauses
  = match body with
    | Ok out => Ok out
    | Raise e => Ok (text_result (failure_line e))
    end.
Proof.
  destruct body as [out|e]; unfold try_except; [reflexivity|].
  rewrite first_clause_call_tool. reflexivity.
Qed.

Section DispatcherFacts.

Context {World : Type}.
Implicit Types (hs : Handlers World) (w : World).

Lemma route_unknown hs (name : string) :
  route hs name = None <-> ~ In name tool_names.
Proof.
  unfold route, tool_names. split.
  - intros Hroute Hin. simpl in Hin.
    repeat match goal with
           | H : _ \/ _ |- _ => destruct H as [<-|H]
           end; try discriminate Hroute. exact Hin.
  - intros Hnot.
    repeat match goal with
           | |- context [String.eqb name ?t] =>
               destruct (String.eqb_spec name t) as [->|_];
               [exfalso; apply Hnot; simpl; tauto|]
           end.
    reflexivity.
Qed.

Lemma call_tool_live telegram hs name arguments w :
  not_live telegram = false ->
  call_tool telegram hs name arguments w
  = match route hs name with
    | Some handler =>
        match handler arguments w with
        | (Ok out, w') => (Ok out, w')
        | (Raise e, w') => (Ok (text_result (failure_line e)), w')
        end
    | None => (Ok (text_result ("Unknown tool: " ++ name)), w)
    end.
Proof.
  intros Hlive. unfold call_tool. rewrite Hlive.
  destruct (route hs name) as [handler|]; [|reflexivity].
  destruct (handler arguments w) as [body w'].
  rewrite try_except_call_tool. destruct body; reflexivity.
Qed.

(** C3: whatever the tool name, the arguments and the handlers do, the
    dispatcher returns and does not raise.  On a live connection, a name
    that is none of the ten tools is answered with the one text
    "Unknown tool: <name>"; a handler that raises is answered with one
    text: the fixed line of its kind for the four remote rejections, and
    "Error: <message>" for a value error and for every other failure. *)
Theorem call_tool_never_raises
    telegram hs (name : string) (arguments : gmap string value) w :
  (exists out, fst (call_tool telegram hs name arguments w) = Ok out)
  /\ (not_live telegram = false -> ~ In name tool_names ->
      call_tool telegram hs name arguments w
      = (Ok [mk_TextContent "text" (Plain ("Unknown tool: " ++ name))], w))
  /\ (forall handler e w',
        not_live telegram = false ->
        route hs name = Some handler ->
        handler arguments w = (Raise e, w') ->
        call_tool telegram hs name arguments w
        = (Ok [mk_TextContent "text" (Plain (failure_line e))], w')
        /\ (exn_cls e = ValueError \/ exn_cls e = OtherException
            \/ exn_cls e = Exception ->
            failure_line e = "Error: " ++ exn_str e)).
Proof.
  split; [|split; [|intros handler e w' Hlive Hroute Hraise; split]].
  - destruct (not_live telegram) eqn:Hlive.
    + unfold call_tool. rewrite Hlive. simpl. eauto.
    + rewrite call_tool_live by assumption.
      destruct (route hs name) as [handler|]; [|simpl; eauto].
      destruct (handler arguments w) as [[out|e] w']; simpl; eauto.
  - intros Hlive Hname. rewrite call_tool_live by assumption.
    rewrite (proj2 (route_unknown hs name) Hname). reflexivity.
  - rewrite call_tool_live by assumption.
    rewrite Hroute, Hraise. reflexivity.
  - unfold failure_line. intros [-> | [-> | ->]]; reflexivity.
Qed.

(** C4: when the connection is not live, every call is answered with the
    one text "Not connected to Telegram. Please restart the server.",
    the world is left as it was, and the answer is the same whatever the
    handlers are: none of them is run. *)
Theorem call_tool_not_live
    telegram hs hs' (name : string) (arguments : gmap string value) w :
  not_live telegram = true ->
  call_tool telegram hs name arguments w
  = (Ok [mk_TextContent "text"
           (Plain "Not connected to Telegram. Please restart the server.")],
     w)
  /\ call_tool telegram hs' name arguments w
     = call_tool telegram hs name arguments w.
Proof.
  intros Hdown. unfold call_tool. rewrite Hdown. split; reflexivity.
Qed.

End DispatcherFacts.

Lemma not_live_spec telegram :
  not_live telegram = true
  <-> client telegram = None
      \/ exists c, client telegram = Some c /\ is_connected c = false.
Proof.
  unfold not_live. destruct (client telegram) as [c|].
  - rewrite negb_true_iff. split.
    + intros H. right. eauto.
    + intros [H | [c' [[= <-] H]]]; [discriminate | assumption].
  - split; auto.
Qed.

Lemma call_tool_never_raises_witness :
  call_tool telegram_live
            (recording_handlers (Raise (mk_exn ChannelPrivateError "CHANNEL_PRIVATE")))
            "telegram_read_messages" delete_args []
  = (Ok [mk_TextContent "text"
           (Plain "Error: This channel/group is private or you're not a member.")],
     ["read_messages"])
  /\ call_tool telegram_live (recording_handlers (Ok []))
               "telegram_nope" delete_args []
     = (Ok [mk_TextContent "text" (Plain "Unknown tool: telegram_nope")], []).
Proof.
  split.
  - apply (proj2 (proj2 (call_tool_never_raises
                    telegram_live
                    (recording_handlers
                       (Raise (mk_exn ChannelPrivateError "CHANNEL_PRIVATE")))
                    "telegram_read_messages" delete_args []))
             (recording "read_messages"
                (Raise (mk_exn ChannelPrivateError "CHANNEL_PRIVATE")))
             (mk_exn ChannelPrivateError "CHANNEL_PRIVATE") ["read_messages"]);
      reflexivity.
  - apply (proj1 (proj2 (call_tool_never_raises
                    telegram_live (recording_handlers (Ok []))
                    "telegram_nope" delete_args []))).
    + reflexivity.
    + simpl. intros H.
      repeat match goal with
             | H : _ \/ _ |- _ => destruct H as [H|H]; [discriminate H|]
             end. exact H.
Defined.

Lemma call_tool_not_live_witness :
  call_tool telegram_dropped (recording_handlers (Ok []))
            "telegram_delete_message" delete_args []
  = (Ok [mk_TextContent "text"
           (Plain "Not connected to Telegram. Please restart the server.")],
     []).
Proof.
  apply (call_tool_not_live telegram_dropped
           (recording_handlers (Ok [])) (recording_handlers (Ok []))
           "telegram_delete_message" delete_args []).
  reflexivity.
Defined.

(** ** Timestamps *)

Arguments digit_char : simpl never.
Arguments read_digit : simpl never.

Lemma digit_char_digit (k : Z) :
  0 <= k <= 9 ->
  is_digit (digit_char k) = true /\ digit_val (digit_char k) = k
  /\ Ascii.eqb (digit_char k) " " = false
  /\ is_re_space (digit_char k) = false.
Proof.
  intros Hk.
  assert (k = 0 \/ k = 1 \/ k = 2 \/ k = 3 \/ k = 4 \/ k = 5 \/ k = 6
          \/ k = 7 \/ k = 8 \/ k = 9) as Hcases by lia.
  repeat destruct Hcases as [->|Hcases]; try subst k; repeat split.
Qed.

Lemma read_digit_char (k : Z) (s : string) :
  0 <= k <= 9 -> read_digit (String (digit_char k) s) = Some (k, s).
Proof.
  intros Hk. destruct (digit_char_digit k Hk) as (Hd & Hv & _).
  unfold read_digit. rewrite Hd, Hv. reflexivity.
Qed.

Lemma read_field_pad2 ok2 ok1 (n : Z) (s : string) :
  0 <= n <= 99 -> ok2 (n / 10) (n mod 10) = true ->
  read_field ok2 ok1 (two_digits n s) = Some (n, s).
Proof.
  intros Hn Hok. unfold read_field, two_digits.
  pose proof (Z.div_mod n 10 ltac:(lia)) as Hdiv.
  pose proof (Z.mod_pos_bound n 10 ltac:(lia)) as Hmod.
  rewrite !read_digit_char by lia.
  rewrite Hok. do 2 f_equal. lia.
Qed.

Lemma read_Y_pad4 (y : Z) (s : string) :
  0 <= y <= 9999 ->
  read_Y (four_digits y s) = Some (y, s).
Proof.
  intros Hy. unfold read_Y, four_digits.
  pose proof (Z.div_mod y 1000 ltac:(lia)) as H1.
  pose proof (Z.mod_pos_bound y 1000 ltac:(lia)) as H2.
  pose proof (Z.div_mod y 100 ltac:(lia)) as H3.
  pose proof (Z.mod_pos_bound y 100 ltac:(lia)) as H4.
  pose proof (Z.div_mod y 10 ltac:(lia)) as H5.
  pose proof (Z.mod_pos_bound y 10 ltac:(lia)) as H6.
  pose proof (Z.div_mod (y / 100) 10 ltac:(lia)) as H7.
  pose proof (Z.mod_pos_bound (y / 100) 10 ltac:(lia)) as H8.
  pose proof (Z.div_mod (y / 10) 10 ltac:(lia)) as H9.
  pose proof (Z.mod_pos_bound (y / 10) 10 ltac:(lia)) as H10.
  repeat (rewrite read_digit_char by lia; simpl).
  do 2 f_equal.
  assert (y / 100 / 10 = y / 1000) by (rewrite Z.div_div by lia; reflexivity).
  assert (y / 10 / 10 = y / 100) by (rewrite Z.div_div by lia; reflexivity).
  lia.
Qed.

Ltac each_digit k H :=
  let Hcases := fresh "Hcases" in
  assert (k = 0 \/ k = 1 \/ k = 2 \/ k = 3 \/ k = 4 \/ k = 5 \/ k = 6
          \/ k = 7 \/ k = 8 \/ k = 9) as Hcases by lia;
  clear H; repeat destruct Hcases as [->|Hcases]; try subst k.

Lemma digit_cons_spec (k : Z) (d : Decimal.uint) (acc : Z) :
  0 <= k <= 9 ->
  NilEmpty.string_of_uint (digit_cons k d)
  = String (digit_char k) (NilEmpty.string_of_uint d)
  /\ uint_val (digit_cons k d) acc = uint_val d (10 * acc + k)
  /\ digit_cons k d <> Decimal.Nil
  /\ (1 <= k -> unorm (digit_cons k d) = digit_cons k d).
Proof.
  intros Hk. each_digit k Hk; repeat split; try discriminate; try lia.
Qed.

(** From 1000 to 9999 the numeral of a year is its four digits. *)
Lemma str_of_Z_four_digits (y : Z) :
  1000 <= y <= 9999 -> str_of_Z y = four_digits y "".
Proof.
  intros Hy.
  pose proof (Z.div_mod y 1000 ltac:(lia)) as H1.
  pose proof (Z.mod_pos_bound y 1000 ltac:(lia)) as H2.
  pose proof (Z.div_mod y 10 ltac:(lia)) as H5.
  pose proof (Z.mod_pos_bound y 10 ltac:(lia)) as H6.
  pose proof (Z.div_mod (y / 100) 10 ltac:(lia)) as H7.
  pose proof (Z.mod_pos_bound (y / 100) 10 ltac:(lia)) as H8.
  pose proof (Z.div_mod (y / 10) 10 ltac:(lia)) as H9.
  pose proof (Z.mod_pos_bound (y / 10) 10 ltac:(lia)) as H10.
  assert (y / 100 / 10 = y / 1000) as E1
    by (rewrite Z.div_div by lia; reflexivity).
  assert (y / 10 / 10 = y / 100) as E2
    by (rewrite Z.div_div by lia; reflexivity).
  set (a := y / 1000) in *. set (b := y / 100 mod 10) in *.
  set (c := y / 10 mod 10) in *. set (d := y mod 10) in *.
  set (numeral := digit_cons a (digit_cons b (digit_cons c
                    (digit_cons d Decimal.Nil)))).
  assert (0 <= a <= 9 /\ 1 <= a) as [Ha Ha1] by lia.
  assert (0 <= b <= 9) as Hb by lia.
  assert (0 <= c <= 9) as Hc by lia.
  assert (0 <= d <= 9) as Hd by lia.
  assert (Z.of_int (Decimal.Pos numeral) = y) as Hval.
  { unfold Z.of_int. rewrite of_uint_val. subst numeral.
    rewrite (proj1 (proj2 (digit_cons_spec a _ _ Ha))).
    rewrite (proj1 (proj2 (digit_cons_spec b _ _ Hb))).
    rewrite (proj1 (proj2 (digit_cons_spec c _ _ Hc))).
    rewrite (proj1 (proj2 (digit_cons_spec d _ _ Hd))).
    cbn [uint_val]. lia. }
  unfold str_of_Z. rewrite <- Hval at 1. rewrite DecimalZ.to_of.
  unfold norm. subst numeral.
  rewrite (proj2 (proj2 (proj2 (digit_cons_spec a _ 0 Ha))) Ha1).
  unfold NilZero.string_of_int, NilZero.string_of_uint.
  pose proof (proj1 (proj2 (proj2 (digit_cons_spec a
                (digit_cons b (digit_cons c (digit_cons d Decimal.Nil)))
                0 Ha)))) as Hnil.
  destruct (digit_cons a _) eqn:Hnum; [contradiction|..];
    rewrite <- Hnum;
    rewrite (proj1 (digit_cons_spec a _ 0 Ha)),
            (proj1 (digit_cons_spec b _ 0 Hb)),
            (proj1 (digit_cons_spec c _ 0 Hc)),
            (proj1 (digit_cons_spec d _ 0 Hd)); reflexivity.
Qed.

(** The text of a timestamp: the year as it is written, then the five
    fields of two digits. *)
Lemma strftime_timestamp (dt : datetime) :
  strftime dt "%Y-%m-%d %H:%M:%S UTC"
  = str_of_Z (year dt)
    ++ String "-" (two_digits (month dt)
         (String "-" (two_digits (day dt)
            (String " " (two_digits (hour dt)
               (String ":" (two_digits (minute dt)
                  (String ":" (two_digits (second dt) " UTC"))))))))).
Proof. reflexivity. Qed.

Lemma strftime_timestamp_four (dt : datetime) :
  1000 <= year dt <= 9999 ->
  strftime dt "%Y-%m-%d %H:%M:%S UTC"
  = four_digits (year dt)
      (String "-" (two_digits (month dt)
         (String "-" (two_digits (day dt)
            (String " " (two_digits (hour dt)
               (String ":" (two_digits (minute dt)
                  (String ":" (two_digits (second dt) " UTC")))))))))).
Proof.
  intros Hy. rewrite strftime_timestamp, str_of_Z_four_digits by assumption.
  reflexivity.
Qed.

Ltac solve_ok2 n :=
  pose proof (Z.div_mod n 10 ltac:(lia));
  pose proof (Z.mod_pos_bound n 10 ltac:(lia));
  cbv beta;
  repeat match goal with
         | |- context [?a =? ?b] => destruct (Z.eqb_spec a b)
         | |- context [?a <=? ?b] => destruct (Z.leb_spec a b)
         end; simpl; try reflexivity; lia.

Lemma read_d_pad2 (n : Z) (s : string) :
  1 <= n <= 31 ->
  read_d (two_digits n s) = Some (n, s).
Proof.
  intros Hn. unfold read_d. unfold two_digits at 1.
  pose proof (Z.div_mod n 10 ltac:(lia)) as Hdiv.
  pose proof (Z.mod_pos_bound n 10 ltac:(lia)) as Hmod.
  destruct (digit_char_digit (n / 10) ltac:(lia)) as (_ & _ & Hsp & _).
  assert (forall c (X : Type) (a b : X),
             Ascii.eqb c " " = false ->
             match c with
             | " "%char => a
             | _ => b
             end = b) as Hmatch.
  { intros c X a b Hc.
    destruct c as [[] [] [] [] [] [] [] []]; try reflexivity; discriminate. }
  rewrite Hmatch by exact Hsp.
  apply (read_field_pad2 _ _ n s); [lia|].
  solve_ok2 n.
Qed.

Lemma read_m_pad2 (n : Z) (s : string) :
  1 <= n <= 12 -> read_m (two_digits n s) = Some (n, s).
Proof.
  intros Hn. apply read_field_pad2; [lia|].
  solve_ok2 n.
Qed.

Lemma read_H_pad2 (n : Z) (s : string) :
  0 <= n <= 23 -> read_H (two_digits n s) = Some (n, s).
Proof.
  intros Hn. apply read_field_pad2; [lia|].
  solve_ok2 n.
Qed.

Lemma read_M_pad2 (n : Z) (s : string) :
  0 <= n <= 59 -> read_M (two_digits n s) = Some (n, s).
Proof.
  intros Hn. apply read_field_pad2; [lia|].
  solve_ok2 n.
Qed.

Lemma read_S_pad2 (n : Z) (s : string) :
  0 <= n <= 59 -> read_S (two_digits n s) = Some (n, s).
Proof.
  intros Hn. apply read_field_pad2; [lia|].
  solve_ok2 n.
Qed.

Arguments read_Y : simpl never.
Arguments read_m : simpl never.
Arguments read_d : simpl never.
Arguments read_H : simpl never.
Arguments read_M : simpl never.
Arguments read_S : simpl never.
Arguments two_digits : simpl never.
Arguments four_digits : simpl never.

Lemma valid_datetime_ranges (dt : datetime) :
  valid_datetime dt = true ->
  1 <= year dt <= 9999 /\ 1 <= month dt <= 12
  /\ 1 <= day dt <= days_in_month (year dt) (month dt)
  /\ 0 <= hour dt <= 23 /\ 0 <= minute dt <= 59 /\ 0 <= second dt <= 59
  /\ 0 <= microsecond dt <= 999999.
Proof.
  unfold valid_datetime. rewrite !andb_true_iff, !Z.leb_le. tauto.
Qed.

Lemma days_in_month_le (y m : Z) : days_in_month y m <= 31.
Proof.
  unfold days_in_month.
  repeat match goal with
         | |- context [if ?b then _ else _] => destruct b
         end; lia.
Qed.

Lemma skip_re_space_two_digits (n : Z) (s : string) :
  0 <= n <= 99 -> skip_re_space (two_digits n s) = two_digits n s.
Proof.
  intros Hn. unfold two_digits.
  pose proof (Z.div_mod n 10 ltac:(lia)) as Hdiv.
  pose proof (Z.mod_pos_bound n 10 ltac:(lia)) as Hmod.
  destruct (digit_char_digit (n / 10) ltac:(lia)) as (_ & _ & _ & Hsp).
  simpl. rewrite Hsp. reflexivity.
Qed.

Lemma strptime_directive_pad (dt0 : datetime) (y n : Z) (s : string) :
  (1 <= y <= 9999 ->
   strptime_directive "Y" (four_digits y s) dt0
   = Some (mk_datetime y (month dt0) (day dt0) (hour dt0) (minute dt0)
                       (second dt0) (microsecond dt0) (tzinfo dt0), s))
  /\ (1 <= n <= 12 ->
      strptime_directive "m" (two_digits n s) dt0
      = Some (mk_datetime (year dt0) n (day dt0) (hour dt0) (minute dt0)
                          (second dt0) (microsecond dt0) (tzinfo dt0), s))
  /\ (1 <= n <= 31 ->
      strptime_directive "d" (two_digits n s) dt0
      = Some (mk_datetime (year dt0) (month dt0) n (hour dt0) (minute dt0)
                          (second dt0) (microsecond dt0) (tzinfo dt0), s))
  /\ (0 <= n <= 23 ->
      strptime_directive "H" (two_digits n s) dt0
      = Some (mk_datetime (year dt0) (month dt0) (day dt0) n (minute dt0)
                          (second dt0) (microsecond dt0) (tzinfo dt0), s))
  /\ (0 <= n <= 59 ->
      strptime_directive "M" (two_digits n s) dt0
      = Some (mk_datetime (year dt0) (month dt0) (day dt0) (hour dt0) n
                          (second dt0) (microsecond dt0) (tzinfo dt0), s))
  /\ (0 <= n <= 59 ->
      strptime_directive "S" (two_digits n s) dt0
      = Some (mk_datetime (year dt0) (month dt0) (day dt0) (hour dt0)
                          (minute dt0) n (microsecond dt0) (tzinfo dt0), s)).
Proof.
  unfold strptime_directive; repeat split; intros Hn; simpl.
  - rewrite read_Y_pad4 by lia. reflexivity.
  - rewrite read_m_pad2 by lia. reflexivity.
  - rewrite read_d_pad2 by lia. reflexivity.
  - rewrite read_H_pad2 by lia. reflexivity.
  - rewrite read_M_pad2 by lia. reflexivity.
  - rewrite read_S_pad2 by lia. reflexivity.
Qed.

Opaque two_digits four_digits.

(** Reading a formatted timestamp back gives the same fields, to the
    second. *)
Lemma strptime_strftime (dt : datetime) :
  valid_datetime dt = true ->
  1000 <= year dt ->
  strptime (strftime dt "%Y-%m-%d %H:%M:%S UTC") "%Y-%m-%d %H:%M:%S UTC"
  = Ok (mk_datetime (year dt) (month dt) (day dt)
                    (hour dt) (minute dt) (second dt) 0 None).
Proof.
  intros Hvalid Hyear. pose proof (valid_datetime_ranges dt Hvalid) as Hr.
  pose proof (days_in_month_le (year dt) (month dt)) as Hdim.
  rewrite strftime_timestamp_four by lia. unfold strptime.
  simpl.
  rewrite (proj1 (strptime_directive_pad _ (year dt) 0 _)) by lia. simpl.
  rewrite (proj1 (proj2 (strptime_directive_pad _ 0 (month dt) _))) by lia.
  simpl.
  rewrite (proj1 (proj2 (proj2 (strptime_directive_pad _ 0 (day dt) _))))
    by lia.
  simpl. rewrite skip_re_space_two_digits by lia.
  rewrite (proj1 (proj2 (proj2 (proj2
             (strptime_directive_pad _ 0 (hour dt) _))))) by lia.
  simpl.
  rewrite (proj1 (proj2 (proj2 (proj2 (proj2
             (strptime_directive_pad _ 0 (minute dt) _)))))) by lia.
  simpl.
  rewrite (proj2 (proj2 (proj2 (proj2 (proj2
             (strptime_directive_pad _ 0 (second dt) _)))))) by lia.
  simpl.
  assert (valid_datetime
            (mk_datetime (year dt) (month dt) (day dt)
                         (hour dt) (minute dt) (second dt) 0 None) = true)
    as ->; [|reflexivity].
  unfold valid_datetime. simpl.
  rewrite !andb_true_iff, !Z.leb_le. lia.
Qed.

Transparent two_digits four_digits.

Lemma is_digit_two (n : Z) :
  0 <= n <= 99 ->
  is_digit (digit_char (n / 10)) = true
  /\ is_digit (digit_char (n mod 10)) = true.
Proof.
  intros Hn.
  pose proof (Z.div_mod n 10 ltac:(lia)) as Hdiv.
  pose proof (Z.mod_pos_bound n 10 ltac:(lia)) as Hmod.
  split; apply digit_char_digit; lia.
Qed.

Lemma is_digit_four (y : Z) :
  0 <= y <= 9999 ->
  is_digit (digit_char (y / 1000)) = true
  /\ is_digit (digit_char (y / 100 mod 10)) = true
  /\ is_digit (digit_char (y / 10 mod 10)) = true
  /\ is_digit (digit_char (y mod 10)) = true.
Proof.
  intros Hy.
  pose proof (Z.div_mod y 1000 ltac:(lia)) as H1.
  pose proof (Z.mod_pos_bound y 1000 ltac:(lia)) as H2.
  pose proof (Z.mod_pos_bound (y / 100) 10 ltac:(lia)) as H3.
  pose proof (Z.mod_pos_bound (y / 10) 10 ltac:(lia)) as H4.
  pose proof (Z.mod_pos_bound y 10 ltac:(lia)) as H5.
  repeat split; apply digit_char_digit; lia.
Qed.

Lemma strftime_timestamp_shape (dt : datetime) :
  valid_datetime dt = true ->
  1000 <= year dt ->
  timestamp_shape (strftime dt "%Y-%m-%d %H:%M:%S UTC") = true.
Proof.
  intros Hvalid Hyear. pose proof (valid_datetime_ranges dt Hvalid) as Hr.
  pose proof (days_in_month_le (year dt) (month dt)) as Hdim.
  rewrite strftime_timestamp_four by lia. unfold four_digits, two_digits, timestamp_shape.
  destruct (is_digit_four (year dt) ltac:(lia)) as (Y1 & Y2 & Y3 & Y4).
  destruct (is_digit_two (month dt) ltac:(lia)) as (m1 & m2).
  destruct (is_digit_two (day dt) ltac:(lia)) as (d1 & d2).
  destruct (is_digit_two (hour dt) ltac:(lia)) as (h1 & h2).
  destruct (is_digit_two (minute dt) ltac:(lia)) as (n1 & n2).
  destruct (is_digit_two (second dt) ltac:(lia)) as (s1 & s2).
  simpl. rewrite Y1, Y2, Y3, Y4, m1, m2, d1, d2, h1, h2, n1, n2, s1, s2.
  reflexivity.
Qed.

(** C5, as the code has it: no timestamp formats to no string; a
    timestamp of the year 1000 or later formats to a string of the shape
    [YYYY-MM-DD HH:MM:SS UTC]; that string, read back with the same
    format, is the timestamp itself to the second, without its time zone;
    and what is read back formats to the very same string, be it taken as
    it is read or placed on the UTC clock. *)
Theorem format_timestamp_round_trip (dt : datetime) :
  valid_datetime dt = true ->
  1000 <= year dt ->
  format_timestamp None = None
  /\ exists s,
       format_timestamp (Some dt) = Some s
       /\ timestamp_shape s = true
       /\ exists parsed,
            strptime s "%Y-%m-%d %H:%M:%S UTC" = Ok parsed
            /\ parsed = mk_datetime (year dt) (month dt) (day dt)
                                    (hour dt) (minute dt) (second dt) 0 None
            /\ format_timestamp (Some parsed) = Some s
            /\ format_timestamp
                 (Some (replace_tzinfo parsed (Some timezone_utc))) = Some s.
Proof.
  intros Hvalid Hyear. split; [reflexivity|].
  exists (strftime dt "%Y-%m-%d %H:%M:%S UTC").
  assert (format_timestamp (Some dt)
          = Some (strftime dt "%Y-%m-%d %H:%M:%S UTC")) as Hfmt.
  { unfold format_timestamp. destruct (tzinfo dt); reflexivity. }
  split; [exact Hfmt|].
  split; [apply strftime_timestamp_shape; assumption|].
  eexists. split; [apply strptime_strftime; assumption|].
  split; [reflexivity|]. split; reflexivity.
Qed.

Lemma format_timestamp_round_trip_witness :
  format_timestamp None = None
  /\ exists s,
       format_timestamp (Some dt_2024) = Some s
       /\ timestamp_shape s = true
       /\ exists parsed,
            strptime s "%Y-%m-%d %H:%M:%S UTC" = Ok parsed
            /\ parsed = mk_datetime 2024 3 9 7 5 0 0 None
            /\ format_timestamp (Some parsed) = Some s
            /\ format_timestamp
                 (Some (replace_tzinfo parsed (Some timezone_utc))) = Some s.
Proof.
  apply (format_timestamp_round_trip dt_2024); [reflexivity | discriminate].
Defined.

(** C5 as the specification words it fails before the year 1000: the year
    999 is written on three digits, so the text has not the fixed shape,
    and it cannot be read back. *)
Lemma format_timestamp_year_999 :
  valid_datetime dt_999 = true
  /\ format_timestamp (Some dt_999) = Some "999-01-02 03:04:05 UTC"
  /\ timestamp_shape "999-01-02 03:04:05 UTC" = false
  /\ exists e,
       strptime "999-01-02 03:04:05 UTC" "%Y-%m-%d %H:%M:%S UTC" = Raise e
       /\ exn_cls e = ValueError.
Proof. repeat split. eexists. split; reflexivity. Qed.

(** ** Read messages *)

Section MinDate.

Variables (args : gmap string value) (s : string) (parsed : datetime).
Hypothesis Hmin : args !! "min_date" = Some (VStr s).
Hypothesis Hs : s <> "".
Hypothesis Hparsed : strptime s "%Y-%m-%d" = Ok parsed.

Let min_dt : datetime := replace_tzinfo parsed (Some timezone_utc).

Lemma below_min_date_dated (m : Message) :
  dated m -> below_min_date args m = Ok (negb (meets_min_date min_dt m)).
Proof.
  intros Hd. unfold below_min_date, get, get_default, getitem.
  rewrite Hmin. simpl.
  destruct (String.eqb_spec s "") as [|_]; [contradiction|]. simpl.
  rewrite Hparsed. simpl. unfold meets_min_date, dated in *.
  destruct (msg_date m) as [date|]; [|contradiction]. simpl.
  rewrite negb_involutive. reflexivity.
Qed.

(** In a stream that goes back in time, nothing after a message below
    the bound is at or above it. *)
Lemma below_then_all_below (m : Message) (stream : list Message) :
  newest_first (m :: stream) ->
  meets_min_date min_dt m = false ->
  List.filter (meets_min_date min_dt) stream = [].
Proof.
  intros Hsorted Hm. pose proof (newest_first_strong _ Hsorted) as Hstrong.
  inversion Hstrong as [|? ? _ Hall]; subst.
  induction stream as [|m' stream IH]; [reflexivity|].
  inversion Hall as [|? ? Hm' Hall']; subst. simpl.
  assert (meets_min_date min_dt m' = false) as ->.
  { unfold meets_min_date, older in *.
    destruct (msg_date m') as [d'|]; [|reflexivity].
    destruct (msg_date m) as [d|]; [|contradiction].
    apply negb_false_iff in Hm. apply negb_false_iff.
    unfold datetime_ltb in *. eapply lex_ltb_trans; eauto. }
  apply IH.
  - destruct Hsorted as [Hd Hs']. split.
    + inversion Hd as [|? ? ? Hd']; subst.
      inversion Hd'; subst. constructor; assumption.
    + inversion Hs' as [|? ? Hs'' Hhd]; subst.
      inversion Hs'' as [|? ? Hs3 Hhd']; subst.
      constructor; [assumption|].
      destruct stream as [|m'' stream]; constructor.
      inversion Hhd'; subst. inversion Hhd; subst.
      eapply older_trans; eauto.
  - constructor; [|assumption].
    inversion Hstrong as [|? ? Hst _]; subst.
    inversion Hst; subst. assumption.
  - assumption.
Qed.

(** The messages at or above the bound are a prefix of such a stream. *)
Lemma kept_is_prefix (stream : list Message) :
  newest_first stream ->
  firstn (length (List.filter (meets_min_date min_dt) stream)) stream
  = List.filter (meets_min_date min_dt) stream.
Proof.
  induction stream as [|m stream IH]; intros Hsorted; [reflexivity|].
  simpl. destruct (meets_min_date min_dt m) eqn:Hm; simpl.
  - f_equal. apply IH. eapply newest_first_tail; eauto.
  - rewrite (below_then_all_below m stream Hsorted Hm). reflexivity.
Qed.

(** The loop, started with [acc] already collected and room for more. *)
Lemma read_messages_loop_min_date (limit : Z) (stream : list Message)
    (acc : list (list (string * value))) :
  newest_first stream ->
  Z.of_nat (length acc) < limit ->
  let kept := List.filter (meets_min_date min_dt) stream in
  let room := (Z.to_nat limit - length acc)%nat in
  read_messages_loop args (VInt limit) stream acc
  = Ok ((acc ++ map format_message (firstn room kept))%list,
        skipn (Nat.min room (S (length kept))) stream).
Proof.
  revert acc. induction stream as [|m stream IH]; intros acc Hsorted Hacc.
  - simpl. rewrite firstn_nil, skipn_nil, app_nil_r. reflexivity.
  - cbv zeta. simpl read_messages_loop.
    assert (dated m) as Hd.
    { destruct Hsorted as [Hd _]. inversion Hd; assumption. }
    rewrite (below_min_date_dated m Hd). simpl.
    set (room := (Z.to_nat limit - length acc)%nat).
    assert (exists room', room = S room') as [room' Hroom].
    { exists (Nat.pred room). subst room. lia. }
    destruct (meets_min_date min_dt m) eqn:Hm; simpl.
    + rewrite length_app. simpl length.
      destruct (Z.leb_spec limit (Z.of_nat (length acc + 1))) as [Hfull|Hmore];
        simpl.
      * assert (room' = O) as -> by (subst room; lia).
        rewrite Hroom. reflexivity.
      * rewrite IH;
          [| eapply newest_first_tail; eauto
           | rewrite length_app; simpl; lia ].
        rewrite length_app. simpl length.
        replace (Z.to_nat limit - (length acc + 1))%nat with room'
          by (subst room; lia).
        rewrite Hroom. simpl. rewrite <- app_assoc. reflexivity.
    + rewrite (below_then_all_below m stream Hsorted Hm).
      rewrite Hroom, firstn_nil, app_nil_r. simpl.
      rewrite Nat.min_0_r. reflexivity.
Qed.

End MinDate.

(** C2: for a stream that comes in strictly decreasing date order and a
    [min_date] that reads as a date, with a limit of at least one: the
    messages dated at or after the bound are a prefix of the stream; the
    loop collects the records of that prefix, [limit] of them at most, and
    of the stream it leaves unread everything after the first message
    below the bound (or after the [limit]-th message, if that comes
    first); and the handler answers with those records and their count. *)
Theorem handle_read_messages_min_date
    (client : Remote) (args : gmap string value) (chat_id_raw : value)
    (s : string) (parsed : datetime) (limit : Z) (stream : list Message) :
  args !! "chat_id" = Some chat_id_raw ->
  args !! "min_date" = Some (VStr s) ->
  s <> "" ->
  strptime s "%Y-%m-%d" = Ok parsed ->
  get_default args "limit" (VInt 20) = VInt limit ->
  0 < limit ->
  max_date_readable args ->
  (forall kwargs,
      iter_messages client (resolve_chat_id chat_id_raw) kwargs = Ok stream) ->
  newest_first stream ->
  let min_dt := replace_tzinfo parsed (Some timezone_utc) in
  let kept := List.filter (meets_min_date min_dt) stream in
  let returned := firstn (Z.to_nat limit) kept in
  let unread := skipn (Nat.min (Z.to_nat limit) (S (length kept))) stream in
  firstn (length kept) stream = kept
  /\ read_messages_loop args (VInt limit) stream []
     = Ok (map format_message returned, unread)
  /\ (forall below rest,
        stream = (kept ++ below :: rest)%list ->
        (length kept < Z.to_nat limit)%nat ->
        returned = kept /\ unread = rest)
  /\ exists result,
       handle_read_messages client args
       = Ok [mk_TextContent "text" (json_dumps (VDict result) 2 false)]
       /\ dict_get "messages" result
          = Some (VList (map VDict (map format_message returned)))
       /\ dict_get "message_count" result
          = Some (VInt (Z.of_nat (length returned))).
Proof.
  intros Hchat Hmin Hs Hparsed Hlimit Hpos Hmax Hiter Hsorted
         min_dt kept returned unread.
  assert (read_messages_loop args (VInt limit) stream []
          = Ok (map format_message returned, unread))
    as Hloop.
  { rewrite (read_messages_loop_min_date args s parsed Hmin Hs Hparsed
               limit stream []) by (simpl; auto; lia).
    simpl. rewrite Nat.sub_0_r. reflexivity. }
  split; [apply (kept_is_prefix parsed), Hsorted|].
  split; [exact Hloop|].
  split.
  { intros below rest Hstream Hroom. subst returned unread. split.
    - apply firstn_all2. lia.
    - rewrite Nat.min_r by lia. rewrite Hstream.
      change (S (length kept)) with (1 + length kept)%nat.
      rewrite <- skipn_skipn, skipn_app, skipn_all, Nat.sub_diag.
      reflexivity. }
  unfold handle_read_messages, getitem. rewrite Hchat. simpl.
  rewrite Hlimit.
  assert (truthy (get args "min_date") = true) as ->.
  { unfold get, get_default. rewrite Hmin. simpl.
    destruct (String.eqb_spec s "") as [|_]; [contradiction|reflexivity]. }
  assert (forall oldest,
             last (map format_message returned) = Some oldest ->
             dict_get "id" oldest <> None) as Hid.
  { intros oldest Hlast. apply last_Some in Hlast. destruct Hlast as [l' Hl'].
    assert (In oldest (map format_message returned)) as Hin.
    { rewrite Hl'. apply in_or_app. right. left. reflexivity. }
    apply in_map_iff in Hin. destruct Hin as [m [<- _]].
    rewrite format_message_id. discriminate. }
  assert (forall kwargs : gmap string kwarg,
             exists result,
               (stream ← iter_messages client (resolve_chat_id chat_id_raw) kwargs;
                '(messages, _) ← read_messages_loop args (VInt limit) stream [];
                let result :=
                  [ ("chat_id", chat_id_raw);
                    ("message_count", VInt (Z.of_nat (length messages)));
                    ("messages", VList (map VDict messages)) ] in
                result ← match last messages with
                         | Some oldest =>
                             oldest_id ← match dict_get "id" oldest with
                                         | Some v => Ok v
                                         | None =>
                                             Raise (mk_exn OtherException "'id'")
                                         end;
                             let result :=
                               dict_set "oldest_message_id" oldest_id result in
                             Ok (dict_set "pagination_hint"
                                   (VStr ("To load older messages, use offset_id="
                                          ++ fstr oldest_id)) result)
                         | None => Ok result
                         end;
                Ok [mk_TextContent "text" (json_dumps (VDict result) 2 false)])
               = Ok [mk_TextContent "text" (json_dumps (VDict result) 2 false)]
               /\ dict_get "messages" result
                  = Some (VList (map VDict (map format_message returned)))
               /\ dict_get "message_count" result
                  = Some (VInt (Z.of_nat (length returned)))) as Hrest.
  { intros kwargs. rewrite Hiter. simpl. rewrite Hloop. simpl.
    destruct (last (map format_message returned)) as [oldest|] eqn:Hlast.
    - specialize (Hid oldest eq_refl).
      destruct (dict_get "id" oldest) as [oldest_id|]; [|contradiction].
      simpl. eexists. split; [reflexivity|].
      split; [reflexivity|]. rewrite length_map. reflexivity.
    - simpl. eexists. split; [reflexivity|].
      split; [reflexivity|]. rewrite length_map. reflexivity. }
  destruct Hmax as [Hnone | (t & max_dt & Ht & Hmaxdt)].
  - rewrite Hnone. simpl. apply Hrest.
  - destruct (truthy (get args "max_date")); simpl; [|apply Hrest].
    rewrite Ht. simpl. rewrite Hmaxdt. simpl. apply Hrest.
Qed.

Lemma four_days_newest_first : newest_first four_days.
Proof.
  split.
  - repeat constructor; discriminate.
  - repeat constructor.
Qed.

Lemma handle_read_messages_min_date_witness :
  read_messages_loop since_args (VInt 10) four_days []
  = Ok (map format_message [reply 5 9; reply 4 8], [reply 2 6]).
Proof.
  exact (proj1 (proj2 (handle_read_messages_min_date
                  client_history since_args (VStr "@team") "2024-03-08"
                  (mk_datetime 2024 3 8 0 0 0 0 None) 10 four_days
                  eq_refl eq_refl ltac:(discriminate) eq_refl eq_refl
                  eq_refl (or_introl eq_refl) (fun _ => eq_refl)
                  four_days_newest_first))).
Defined.

(** * Further properties *)

(** ** Ordered dictionaries *)

Lemma dict_get_set (k k' : string) (v : value) (d : list (string * value)) :
  dict_get k (dict_set k' v d)
  = if String.eqb k k' then Some v else dict_get k d.
Proof.
  induction d as [|[k0 v0] d IH]; simpl.
  - destruct (String.eqb k k'); reflexivity.
  - destruct (String.eqb_spec k' k0) as [->|Hne]; simpl.
    + destruct (String.eqb k k0); reflexivity.
    + rewrite IH. destruct (String.eqb_spec k k0) as [->|Hne'].
      * destruct (String.eqb_spec k0 k') as [->|_]; [contradiction|reflexivity].
      * reflexivity.
Qed.

(** ** Numerals and markers *)

Lemma string_of_uint_head (d : Decimal.uint) :
  d <> Decimal.Nil ->
  exists c s, NilEmpty.string_of_uint d = String c s /\ is_digit c = true.
Proof. destruct d; try contradiction; intros _; simpl; eauto. Qed.

(** A numeral starts with a digit or with the minus sign. *)
Lemma str_of_Z_head (n : Z) :
  exists c s, str_of_Z n = String c s
              /\ (is_digit c = true \/ c = "-"%char).
Proof.
  unfold str_of_Z. destruct (Z.to_int n) as [d|d]; simpl.
  - destruct d; simpl; eauto.
  - eexists _, _. split; [reflexivity|]. right. reflexivity.
Qed.

Lemma str_of_Z_nonempty (n : Z) : nonempty (str_of_Z n) = true.
Proof. destruct (str_of_Z_head n) as (c & s & -> & _). reflexivity. Qed.

Lemma str_of_Z_no_marker (n : Z) : starts_with_marker (str_of_Z n) = false.
Proof.
  destruct (str_of_Z_head n) as (c & s & -> & [Hc| ->]); simpl.
  - destruct c as [[] [] [] [] [] [] [] []]; try reflexivity; discriminate.
  - reflexivity.
Qed.

Lemma py_int_marker (s : string) : py_int (String "@" s) = None.
Proof. reflexivity. Qed.

Lemma lstrip_markers (k : nat) (s : string) :
  starts_with_marker s = false -> lstrip "@" (markers k ++ s) = s.
Proof.
  intros Hs. induction k as [|k IH].
  - apply lstrip_no_marker, Hs.
  - exact IH.
Qed.

(** X1: an identifier written after one or more markers resolves to the
    numeral as a handle, a string, and not to the integer; resolving that
    result once more gives the integer, unless the numeral has more than
    4300 digits, which stays the string it is. *)
Theorem resolve_chat_id_marked_numeral (n : Z) (k : nat) :
  (0 < k)%nat ->
  resolve_chat_id (VStr (markers k ++ str_of_Z n)) = VStr (str_of_Z n)
  /\ resolve_chat_id (resolve_chat_id (VStr (markers k ++ str_of_Z n)))
     = if Z.abs n <? 10 ^ int_max_str_digits then VInt n
       else VStr (str_of_Z n).
Proof.
  intros Hk. destruct k as [|k]; [lia|].
  assert (resolve_chat_id (VStr (markers (S k) ++ str_of_Z n))
          = VStr (str_of_Z n)) as Hone.
  { unfold resolve_chat_id.
    change (markers (S k) ++ str_of_Z n)
      with (String "@" (markers k ++ str_of_Z n)) at 1.
    rewrite py_int_marker. f_equal.
    apply lstrip_markers, str_of_Z_no_marker. }
  split; [exact Hone|].
  rewrite Hone. unfold resolve_chat_id.
  destruct (Z.ltb_spec (Z.abs n) (10 ^ int_max_str_digits)) as [Hn|Hn].
  - rewrite py_int_numeral_small by assumption. reflexivity.
  - rewrite py_int_numeral_large by assumption.
    rewrite lstrip_no_marker by apply str_of_Z_no_marker. reflexivity.
Qed.

Lemma resolve_chat_id_marked_numeral_witness :
  resolve_chat_id (VStr "@-1001234") = VStr "-1001234"
  /\ resolve_chat_id (resolve_chat_id (VStr "@-1001234")) = VInt (-1001234).
Proof. apply (resolve_chat_id_marked_numeral (-1001234) 1). lia. Defined.

(** ** Display names *)

Lemma nonempty_or (a b : string) :
  nonempty b = true -> nonempty (if nonempty a then a else b) = true.
Proof. intros Hb. destruct (nonempty a) eqn:Ha; assumption. Qed.

Lemma get_sender_name_not_empty (sender : option Entity) :
  nonempty (get_sender_name sender) = true.
Proof.
  destruct sender as [[id first_name last_name username bot
                      | id title | id title megagroup | id]|];
    simpl; auto using str_of_Z_nonempty, nonempty_or.
Qed.

(** X2: the display name of a sender is never the empty string, whoever
    the sender is and also when there is none; so the record of a message
    always names a sender. *)
Theorem get_sender_name_nonempty (message : Message) :
  nonempty (get_sender_name (msg_sender message)) = true
  /\ exists name,
       dict_get "sender_name" (format_message message) = Some (VStr name)
       /\ nonempty name = true.
Proof.
  split; [apply get_sender_name_not_empty|].
  exists (get_sender_name (msg_sender message)).
  split; [|apply get_sender_name_not_empty].
  unfold format_message.
  destruct (msg_reply_to message),
    (nonempty (or_empty (get_media_type message))), (msg_forward message);
    reflexivity.
Qed.

(** A user is named by the first and last name that are there, joined
    by one blank when both are; with neither, by the handle; with no handle
    either, by the identifier written as a numeral. *)
Lemma get_sender_name_user
    (id : Z) (first_name last_name username : option string) (bot : bool) :
  let first := or_empty first_name in
  let last := or_empty last_name in
  get_sender_name (Some (User id first_name last_name username bot))
  = if nonempty first && nonempty last then first ++ " " ++ last
    else if nonempty first then first
    else if nonempty last then last
    else if nonempty (or_empty username) then or_empty username
    else str_of_Z id.
Proof.
  intros first last. subst first last. unfold get_sender_name.
  destruct (or_empty first_name) as [|c1 s1], (or_empty last_name) as [|c2 s2];
    reflexivity.
Qed.

(** ** Timestamps to the second *)

Lemma format_timestamp_strftime (dt : datetime) :
  format_timestamp (Some dt) = Some (strftime dt "%Y-%m-%d %H:%M:%S UTC").
Proof. unfold format_timestamp. destruct (tzinfo dt); reflexivity. Qed.

Lemma append_cons (c : ascii) (u r : string) :
  String c u ++ r = String c (u ++ r).
Proof. reflexivity. Qed.

(** Two texts that are digits up to their first dash and are equal have
    the same digits before it and the same text after it. *)
Lemma split_at_dash (u1 u2 r1 r2 : string) :
  all_digits u1 = true -> all_digits u2 = true ->
  u1 ++ String "-" r1 = u2 ++ String "-" r2 ->
  u1 = u2 /\ r1 = r2.
Proof.
  revert u2. induction u1 as [|c1 u1 IH]; intros [|c2 u2] H1 H2 Heq.
  - injection Heq as <-. auto.
  - rewrite append_cons in Heq. injection Heq as <- _.
    simpl in H2. discriminate.
  - rewrite append_cons in Heq. injection Heq as -> _.
    simpl in H1. discriminate.
  - rewrite !append_cons in Heq. injection Heq as <- Heq.
    simpl in H1, H2. apply andb_true_iff in H1, H2.
    destruct (IH u2 (proj2 H1) (proj2 H2) Heq) as [-> ->]. auto.
Qed.

Lemma all_digits_uint (d : Decimal.uint) :
  all_digits (NilEmpty.string_of_uint d) = true.
Proof. induction d; [reflexivity|..]; exact IHd. Qed.

Lemma all_digits_str_of_Z (n : Z) : 0 <= n -> all_digits (str_of_Z n) = true.
Proof.
  intros Hn. unfold str_of_Z. destruct n as [|p|p]; [reflexivity | | lia].
  simpl. destruct (Pos.to_uint p); try apply all_digits_uint. reflexivity.
Qed.

Lemma str_of_Z_inj (m n : Z) : str_of_Z m = str_of_Z n -> m = n.
Proof.
  intros Heq. pose proof (int_literal_str_of_Z m) as Hm.
  rewrite Heq, int_literal_str_of_Z in Hm. congruence.
Qed.

(** The same moment in the year 2000, a leap year: every day of a month
    of any year is a day of that month there. *)
Lemma valid_datetime_2000 (dt : datetime) :
  valid_datetime dt = true ->
  valid_datetime (mk_datetime 2000 (month dt) (day dt) (hour dt) (minute dt)
                              (second dt) (microsecond dt) (tzinfo dt))
  = true.
Proof.
  intros Hvalid. pose proof (valid_datetime_ranges dt Hvalid) as Hr.
  assert (days_in_month (year dt) (month dt) <= days_in_month 2000 (month dt))
    as Hdays.
  { unfold days_in_month. change (is_leap 2000) with true.
    repeat match goal with
           | |- context [if ?b then _ else _] => destruct b
           end; lia. }
  unfold valid_datetime. simpl. rewrite !andb_true_iff, !Z.leb_le. lia.
Qed.

(** Two timestamps have the same text exactly when they agree to the
    second. *)
Lemma strftime_to_the_second (a b : datetime) :
  valid_datetime a = true -> valid_datetime b = true ->
  (strftime a "%Y-%m-%d %H:%M:%S UTC" = strftime b "%Y-%m-%d %H:%M:%S UTC"
   <-> to_the_second a = to_the_second b).
Proof.
  intros Ha Hb. split.
  - rewrite !strftime_timestamp. intros Heq.
    pose proof (valid_datetime_ranges a Ha) as Ra.
    pose proof (valid_datetime_ranges b Hb) as Rb.
    apply split_at_dash in Heq; try (apply all_digits_str_of_Z; lia).
    destruct Heq as [Hyear Hrest]. apply str_of_Z_inj in Hyear.
    pose proof (strptime_strftime _ (valid_datetime_2000 a Ha)
                  ltac:(simpl; lia)) as Hpa.
    pose proof (strptime_strftime _ (valid_datetime_2000 b Hb)
                  ltac:(simpl; lia)) as Hpb.
    rewrite !strftime_timestamp in Hpa, Hpb. simpl year in Hpa, Hpb.
    simpl month in Hpa, Hpb. simpl day in Hpa, Hpb.
    simpl hour in Hpa, Hpb. simpl minute in Hpa, Hpb.
    simpl second in Hpa, Hpb.
    rewrite Hrest, Hpb in Hpa. injection Hpa as Hm Hd HH HM HS.
    unfold to_the_second. congruence.
  - unfold to_the_second. intros [= Hy Hm Hd HH HM HS].
    rewrite !strftime_timestamp. congruence.
Qed.

(** X4: two timestamps are formatted alike exactly when they agree in year,
    month, day, hour, minute and second: microseconds and the time zone
    attached do not show, everything else does. *)
Theorem format_timestamp_to_the_second (a b : datetime) :
  valid_datetime a = true -> valid_datetime b = true ->
  (format_timestamp (Some a) = format_timestamp (Some b)
   <-> to_the_second a = to_the_second b).
Proof.
  intros Ha Hb. rewrite !format_timestamp_strftime.
  rewrite <- (strftime_to_the_second a b Ha Hb).
  split; [intros Heq; apply (inj Some) in Heq; exact Heq | congruence].
Qed.

Lemma format_timestamp_to_the_second_witness :
  format_timestamp (Some dt_2024)
  = format_timestamp (Some (mk_datetime 2024 3 9 7 5 0 0 (Some 3600))).
Proof.
  apply (proj2 (format_timestamp_to_the_second
                  dt_2024 (mk_datetime 2024 3 9 7 5 0 0 (Some 3600))
                  eq_refl eq_refl)).
  reflexivity.
Defined.

Lemma app_opening_inj (s a b : string) : s ++ a = s ++ b -> a = b.
Proof.
  induction s as [|c s IH]; [auto|].
  rewrite !append_cons. intros [= Heq]. auto.
Qed.

Lemma app_closing_inj (a b : string) (c : ascii) :
  a ++ String c "" = b ++ String c "" -> a = b.
Proof.
  revert b. induction a as [|x a IH]; intros [|y b] Heq.
  - reflexivity.
  - rewrite append_cons in Heq. injection Heq as _ Heq.
    destruct b; discriminate.
  - rewrite append_cons in Heq. injection Heq as _ Heq.
    destruct a; discriminate.
  - rewrite !append_cons in Heq. injection Heq as <- Heq.
    f_equal. apply IH, Heq.
Qed.

(** ** Online status *)

(** X3: a user last seen offline at a recorded time is reported with
    the text of that time between the words, which from the year 1000 on
    has the shape of a UTC timestamp; two such reports are the same
    exactly when the two times agree to the second; with no time recorded
    the report reads "offline (last seen None)"; a user without status
    information is "unknown". *)
Theorem get_user_status_offline (was_online other : datetime) :
  valid_datetime was_online = true ->
  valid_datetime other = true ->
  (exists t, get_user_status
               (with_status (Some (UserStatusOffline (Some was_online))))
             = "offline (last seen " ++ t ++ ")"
             /\ format_timestamp (Some was_online) = Some t
             /\ (1000 <= year was_online -> timestamp_shape t = true))
  /\ (get_user_status
        (with_status (Some (UserStatusOffline (Some was_online))))
      = get_user_status
          (with_status (Some (UserStatusOffline (Some other))))
      <-> to_the_second was_online = to_the_second other)
  /\ get_user_status (with_status (Some (UserStatusOffline None)))
     = "offline (last seen None)"
  /\ get_user_status no_user = "unknown"
  /\ get_user_status without_status = "unknown"
  /\ get_user_status (with_status None) = "unknown".
Proof.
  intros Hvalid Hother.
  assert (forall dt,
             get_user_status
               (with_status (Some (UserStatusOffline (Some dt))))
             = "offline (last seen "
               ++ strftime dt "%Y-%m-%d %H:%M:%S UTC" ++ ")") as Hstatus.
  { intros dt. unfold get_user_status, format_timestamp.
    destruct (tzinfo dt); reflexivity. }
  split; [|split; [|repeat split]].
  - exists (strftime was_online "%Y-%m-%d %H:%M:%S UTC").
    split; [apply Hstatus|]. split.
    + apply format_timestamp_strftime.
    + intros Hyear. apply strftime_timestamp_shape; assumption.
  - rewrite !Hstatus. split.
    + intros Heq. apply strftime_to_the_second; try assumption.
      apply app_opening_inj in Heq.
      eapply app_closing_inj. exact Heq.
    + intros Heq.
      rewrite (proj2 (strftime_to_the_second _ _ Hvalid Hother) Heq).
      reflexivity.
Qed.

Lemma get_user_status_offline_witness :
  get_user_status (with_status (Some (UserStatusOffline (Some dt_2024))))
  = "offline (last seen 2024-03-09 07:05:00 UTC)".
Proof.
  destruct (proj1 (get_user_status_offline dt_2024 dt_2024 eq_refl eq_refl))
    as (t & Hstatus & Ht & _).
  injection Ht as <-. exact Hstatus.
Defined.

(** ** The date bound of read-messages *)

Lemma strptime_directive_day (c : ascii) (s s' : string) (dt dt' : datetime) :
  c = "Y"%char \/ c = "m"%char \/ c = "d"%char ->
  strptime_directive c s dt = Some (dt', s') ->
  hour dt' = hour dt /\ minute dt' = minute dt /\ second dt' = second dt
  /\ microsecond dt' = microsecond dt.
Proof.
  unfold strptime_directive. intros [-> | [-> | ->]]; simpl.
  - destruct (read_Y s) as [[n s0]|]; simpl; intros [= <- <-]; auto.
  - destruct (read_m s) as [[n s0]|]; simpl; intros [= <- <-]; auto.
  - destruct (read_d s) as [[n s0]|]; simpl; intros [= <- <-]; auto.
Qed.

Ltac taken_branch H :=
  match type of H with
  | (if ?b then _ else _) = _ => destruct b; [|discriminate H]
  end.

(** A date read with the format of the date bounds is at midnight. *)
Lemma strptime_day_midnight (s : string) (dt : datetime) :
  strptime s "%Y-%m-%d" = Ok dt ->
  hour dt = 0 /\ minute dt = 0 /\ second dt = 0 /\ microsecond dt = 0.
Proof.
  unfold strptime.
  destruct (strptime_match "%Y-%m-%d" s (mk_datetime 1900 1 1 0 0 0 0 None))
    as [parsed|] eqn:Hmatch; [|discriminate].
  destruct (valid_datetime parsed); [|discriminate]. intros [= <-].
  cbn [strptime_match] in Hmatch.
  destruct (strptime_directive "Y" s _) as [[dt1 s1]|] eqn:H1;
    [|discriminate].
  apply strptime_directive_day in H1; [|tauto]. simpl in Hmatch.
  destruct s1 as [|c1 s1]; [discriminate|]. taken_branch Hmatch.
  destruct (strptime_directive "m" s1 dt1) as [[dt2 s2]|] eqn:H2;
    [|discriminate].
  apply strptime_directive_day in H2; [|tauto]. simpl in Hmatch.
  destruct s2 as [|c2 s2]; [discriminate|]. taken_branch Hmatch.
  destruct (strptime_directive "d" s2 dt2) as [[dt3 s3]|] eqn:H3;
    [|discriminate].
  apply strptime_directive_day in H3; [|tauto]. simpl in Hmatch.
  destruct s3; [|discriminate]. injection Hmatch as <-.
  simpl in *. intuition congruence.
Qed.

Lemma lex_ltb_midnight (y m d H M S us cy cm cd : Z) :
  0 <= H -> 0 <= M -> 0 <= S -> 0 <= us ->
  lex_ltb [y; m; d; H; M; S; us] [cy; cm; cd; 0; 0; 0; 0]
  = lex_ltb [y; m; d] [cy; cm; cd].
Proof.
  intros HH HM HS Hus. simpl.
  assert (forall x, 0 <= x -> (x <? 0) = false) as Hneg
      by (intros x Hx; apply Z.ltb_ge, Hx).
  rewrite !Hneg by assumption. simpl.
  rewrite !andb_false_r, !orb_false_r. reflexivity.
Qed.

(** X5: the lower date bound is compared by calendar day.  A dated message
    ends the reading exactly when its day is before the day of [min_date]:
    the time of day never matters, and a message of the very day of the
    bound is kept. *)
Theorem below_min_date_by_day
    (args : gmap string value) (s : string) (cutoff date : datetime)
    (msg : Message) :
  args !! "min_date" = Some (VStr s) ->
  s <> "" ->
  strptime s "%Y-%m-%d" = Ok cutoff ->
  msg_date msg = Some date ->
  valid_datetime date = true ->
  below_min_date args msg
  = Ok (lex_ltb (calendar_day date) (calendar_day cutoff)).
Proof.
  intros Hmin Hs Hparsed Hdate Hvalid.
  rewrite (below_min_date_dated args s cutoff Hmin Hs Hparsed)
    by (unfold dated; congruence).
  unfold meets_min_date. rewrite Hdate, negb_involutive. f_equal.
  destruct (strptime_day_midnight s cutoff Hparsed) as (H0 & M0 & S0 & U0).
  apply valid_datetime_ranges in Hvalid.
  unfold datetime_ltb, datetime_fields, replace_tzinfo, calendar_day. simpl.
  rewrite H0, M0, S0, U0.
  apply lex_ltb_midnight; lia.
Qed.

Lemma below_min_date_by_day_witness :
  below_min_date since_args (reply 4 8) = Ok false.
Proof.
  exact (below_min_date_by_day
           since_args "2024-03-08" (mk_datetime 2024 3 8 0 0 0 0 None)
           (mk_datetime 2024 3 8 12 0 0 0 (Some 0)) (reply 4 8)
           eq_refl ltac:(discriminate) eq_refl eq_refl eq_refl).
Defined.

(** ** The reading loop, whatever the stream *)

Lemma read_messages_loop_prefix (args : gmap string value) (limit : Z)
    (stream : list Message) :
  forall acc msgs rest,
    read_messages_loop args (VInt limit) stream acc = Ok (msgs, rest) ->
    exists n,
      msgs = (acc ++ map format_message (firstn n stream))%list
      /\ (n <= length stream)%nat
      /\ (rest = skipn n stream \/ rest = skipn (S n) stream)
      /\ (n = O
          \/ Z.of_nat (length acc + n)
             <= Z.max (Z.of_nat (length acc) + 1) limit).
Proof.
  induction stream as [|m stream IH]; intros acc msgs rest; simpl.
  - intros [= <- <-]. exists O. rewrite app_nil_r. simpl. auto.
  - destruct (below_min_date args m) as [[|]|e]; simpl; [| |discriminate].
    + intros [= <- <-]. exists O. rewrite app_nil_r. simpl.
      split; [reflexivity|]. split; [lia|]. auto.
    + rewrite length_app. simpl length.
      destruct (Z.leb_spec limit (Z.of_nat (length acc + 1))) as [Hfull|Hmore];
        simpl.
      * intros [= <- <-]. exists 1%nat. simpl.
        split; [reflexivity|]. split; [lia|]. split; [auto|]. right. lia.
      * intros Hloop. apply IH in Hloop.
        destruct Hloop as (n & -> & Hn & Hrest & Hbound).
        exists (S n). simpl. rewrite <- app_assoc. simpl.
        split; [reflexivity|]. split; [lia|]. split; [exact Hrest|].
        right. rewrite length_app in Hbound. simpl in Hbound. lia.
Qed.

(** X6: whatever the order of the stream and whatever the bounds, a
    reading that returns has collected the records of the first messages
    of the stream, none skipped: at most [limit] of them (one, if the limit
    is below one), and it has left unread everything after them, but for
    the one message that may have ended it. *)
Theorem read_messages_loop_collects_prefix
    (args : gmap string value) (limit : Z) (stream : list Message)
    (msgs : list (list (string * value))) (rest : list Message) :
  read_messages_loop args (VInt limit) stream [] = Ok (msgs, rest) ->
  exists n,
    msgs = map format_message (firstn n stream)
    /\ length msgs = n
    /\ Z.of_nat n <= Z.max 1 limit
    /\ (rest = skipn n stream \/ rest = skipn (S n) stream).
Proof.
  intros Hloop. apply read_messages_loop_prefix in Hloop.
  destruct Hloop as (n & -> & Hn & Hrest & Hbound).
  exists n. simpl in *. split; [reflexivity|].
  split; [rewrite length_map, length_firstn; lia|].
  split; [lia | exact Hrest].
Qed.

Lemma read_messages_loop_collects_prefix_witness :
  exists n,
    map format_message [reply 5 9; reply 4 8]
    = map format_message (firstn n four_days)
    /\ length (map format_message [reply 5 9; reply 4 8]) = n
    /\ Z.of_nat n <= Z.max 1 10
    /\ ([reply 2 6] = skipn n four_days
        \/ [reply 2 6] = skipn (S n) four_days).
Proof.
  exact (read_messages_loop_collects_prefix
           since_args 10 four_days
           (map format_message [reply 5 9; reply 4 8]) [reply 2 6] eq_refl).
Defined.

(** Without a lower date bound no message ends the reading. *)
Lemma below_min_date_none (args : gmap string value) (m : Message) :
  truthy (get args "min_date") = false -> below_min_date args m = Ok false.
Proof. intros H. unfold below_min_date. rewrite H. reflexivity. Qed.

Lemma read_messages_loop_unbounded (args : gmap string value) (limit : Z)
    (stream : list Message) :
  truthy (get args "min_date") = false ->
  forall acc,
    Z.of_nat (length acc) < limit ->
    let room := (Z.to_nat limit - length acc)%nat in
    read_messages_loop args (VInt limit) stream acc
    = Ok ((acc ++ map format_message (firstn room stream))%list,
          skipn room stream).
Proof.
  intros Hnone. induction stream as [|m stream IH]; intros acc Hacc room.
  - simpl. rewrite firstn_nil, skipn_nil, app_nil_r. reflexivity.
  - simpl read_messages_loop. rewrite (below_min_date_none args m Hnone).
    simpl. rewrite length_app. simpl length.
    assert (exists room', room = S room') as [room' Hroom].
    { exists (Nat.pred room). subst room. lia. }
    destruct (Z.leb_spec limit (Z.of_nat (length acc + 1))) as [Hfull|Hmore];
      simpl.
    + assert (room' = O) as -> by (subst room; lia).
      rewrite Hroom. reflexivity.
    + rewrite IH by (rewrite length_app; simpl; lia).
      rewrite length_app. simpl length.
      replace (Z.to_nat limit - (length acc + 1))%nat with room'
        by (subst room; lia).
      rewrite Hroom. simpl. rewrite <- app_assoc. reflexivity.
Qed.

(** ** The answer of read-messages *)

(** X7: in every answer of read-messages the count is the number of the
    records listed; when records are listed, ["oldest_message_id"] is the
    id of the last of them and the pagination hint names that id; when none
    is, neither key is there. *)
Theorem handle_read_messages_pagination
    (client : Remote) (args : gmap string value)
    (result : list (string * value)) :
  handle_read_messages client args
  = Ok [mk_TextContent "text" (json_dumps (VDict result) 2 false)] ->
  exists messages,
    dict_get "messages" result = Some (VList (map VDict messages))
    /\ dict_get "message_count" result
       = Some (VInt (Z.of_nat (length messages)))
    /\ match last messages with
       | Some oldest =>
           exists oldest_id,
             dict_get "id" oldest = Some oldest_id
             /\ dict_get "oldest_message_id" result = Some oldest_id
             /\ dict_get "pagination_hint" result
                = Some (VStr ("To load older messages, use offset_id="
                              ++ fstr oldest_id))
       | None =>
           dict_get "oldest_message_id" result = None
           /\ dict_get "pagination_hint" result = None
       end.
Proof.
  unfold handle_read_messages.
  destruct (getitem args "chat_id") as [chat_id_raw|e]; simpl; [|discriminate].
  match goal with
  | |- context [mbind _ ?kw] => destruct kw as [kwargs|e]
  end; simpl; [|discriminate].
  destruct (iter_messages client _ kwargs) as [stream|e]; simpl;
    [|discriminate].
  destruct (read_messages_loop args _ stream []) as [[messages rest]|e];
    simpl; [|discriminate].
  destruct (last messages) as [oldest|] eqn:Hlast; simpl.
  - destruct (dict_get "id" oldest) as [oldest_id|] eqn:Hid; simpl;
      [|discriminate].
    intros [= <-]. exists messages. rewrite Hlast.
    split; [reflexivity|]. split; [reflexivity|].
    exists oldest_id. auto.
  - intros [= <-]. exists messages. rewrite Hlast. auto.
Qed.

Lemma handle_read_messages_pagination_witness :
  exists result messages,
    handle_read_messages client_history since_args
    = Ok [mk_TextContent "text" (json_dumps (VDict result) 2 false)]
    /\ dict_get "messages" result = Some (VList (map VDict messages))
    /\ dict_get "oldest_message_id" result = Some (VInt 4).
Proof.
  eexists.
  destruct (handle_read_messages_pagination client_history since_args _
              eq_refl) as (messages & Hm & _ & _).
  exists messages. split; [reflexivity|]. split; [exact Hm | reflexivity].
Defined.

(** X8: the two date bounds are read at different moments.  An upper bound
    that does not read as a date fails the call before the client is asked
    for anything; a lower bound is read only when a message comes, so on an
    empty stream the call answers with no message whatever the lower bound
    is, well-formed or not. *)
Theorem handle_read_messages_bounds_read
    (client : Remote) (args : gmap string value) (chat_id_raw : value) :
  args !! "chat_id" = Some chat_id_raw ->
  (forall t e,
      args !! "max_date" = Some (VStr t) -> t <> "" ->
      strptime t "%Y-%m-%d" = Raise e ->
      handle_read_messages client args = Raise e)
  /\ (max_date_readable args ->
      (forall kwargs,
          iter_messages client (resolve_chat_id chat_id_raw) kwargs = Ok []) ->
      handle_read_messages client args
      = Ok [mk_TextContent "text"
              (json_dumps
                 (VDict [ ("chat_id", chat_id_raw);
                          ("message_count", VInt 0);
                          ("messages", VList []) ]) 2 false)]).
Proof.
  intros Hchat. split.
  - intros t e Hmax Ht Hbad. unfold handle_read_messages, getitem.
    rewrite Hchat. simpl.
    assert (truthy (get args "max_date") = true) as ->.
    { unfold get, get_default. rewrite Hmax. simpl.
      destruct (String.eqb_spec t "") as [|_]; [contradiction|reflexivity]. }
    rewrite Hmax. simpl. rewrite Hbad. reflexivity.
  - intros Hmax Hiter. unfold handle_read_messages, getitem.
    rewrite Hchat. simpl.
    destruct Hmax as [Hnone | (t & max_dt & Ht & Hmaxdt)].
    + rewrite Hnone. simpl. rewrite Hiter. reflexivity.
    + destruct (truthy (get args "max_date")); simpl.
      * rewrite Ht. simpl. rewrite Hmaxdt. simpl. rewrite Hiter. reflexivity.
      * rewrite Hiter. reflexivity.
Qed.

Lemma handle_read_messages_bounds_read_witness :
  handle_read_messages client_history bad_until_args
  = Raise (mk_exn ValueError "time data does not match format")
  /\ handle_read_messages client_nothing_deleted bad_since_args
     = Ok [mk_TextContent "text"
             (json_dumps
                (VDict [ ("chat_id", VStr "@team");
                         ("message_count", VInt 0);
                         ("messages", VList []) ]) 2 false)].
Proof.
  split.
  - apply (proj1 (handle_read_messages_bounds_read
                    client_history bad_until_args (VStr "@team") eq_refl)
             "2024-13-01");
      [reflexivity | discriminate | reflexivity].
  - apply (proj2 (handle_read_messages_bounds_read
                    client_nothing_deleted bad_since_args (VStr "@team")
                    eq_refl)).
    + left. reflexivity.
    + reflexivity.
Defined.

Lemma last_map_format_message_id (l : list Message) oldest :
  last (map format_message l) = Some oldest -> dict_get "id" oldest <> None.
Proof.
  intros Hlast. apply last_Some in Hlast. destruct Hlast as [l' Hl'].
  assert (In oldest (map format_message l)) as Hin.
  { rewrite Hl'. apply in_or_app. right. left. reflexivity. }
  apply in_map_iff in Hin. destruct Hin as [m [<- _]].
  rewrite format_message_id. discriminate.
Qed.

Lemma handle_read_messages_of_loop
    (client : Remote) (args : gmap string value) (chat_id_raw : value)
    (limit : Z) (stream returned rest : list Message) :
  args !! "chat_id" = Some chat_id_raw ->
  get_default args "limit" (VInt 20) = VInt limit ->
  max_date_readable args ->
  (forall kwargs,
      iter_messages client (resolve_chat_id chat_id_raw) kwargs = Ok stream) ->
  read_messages_loop args (VInt limit) stream []
  = Ok (map format_message returned, rest) ->
  exists result,
    handle_read_messages client args
    = Ok [mk_TextContent "text" (json_dumps (VDict result) 2 false)]
    /\ dict_get "messages" result
       = Some (VList (map VDict (map format_message returned)))
    /\ dict_get "message_count" result
       = Some (VInt (Z.of_nat (length returned))).
Proof.
  intros Hchat Hlimit Hmax Hiter Hloop.
  pose proof (last_map_format_message_id returned) as Hid.
  unfold handle_read_messages, getitem. rewrite Hchat. simpl.
  rewrite Hlimit.
  assert (forall kwargs : result (gmap string kwarg),
             (exists kw, kwargs = Ok kw) ->
             exists result,
               (kwargs ← kwargs;
                stream ← iter_messages client (resolve_chat_id chat_id_raw)
                                       kwargs;
                '(messages, _) ← read_messages_loop args (VInt limit) stream [];
                let result :=
                  [ ("chat_id", chat_id_raw);
                    ("message_count", VInt (Z.of_nat (length messages)));
                    ("messages", VList (map VDict messages)) ] in
                result ← match last messages with
                         | Some oldest =>
                             oldest_id ← match dict_get "id" oldest with
                                         | Some v => Ok v
                                         | None =>
                                             Raise (mk_exn OtherException "'id'")
                                         end;
                             let result :=
                               dict_set "oldest_message_id" oldest_id result in
                             Ok (dict_set "pagination_hint"
                                   (VStr ("To load older messages, use offset_id="
                                          ++ fstr oldest_id)) result)
                         | None => Ok result
                         end;
                Ok [mk_TextContent "text" (json_dumps (VDict result) 2 false)])
               = Ok [mk_TextContent "text" (json_dumps (VDict result) 2 false)]
               /\ dict_get "messages" result
                  = Some (VList (map VDict (map format_message returned)))
               /\ dict_get "message_count" result
                  = Some (VInt (Z.of_nat (length returned)))) as Hrest.
  { intros kwargs [kw ->]. simpl. rewrite Hiter. simpl. rewrite Hloop. simpl.
    destruct (last (map format_message returned)) as [oldest|] eqn:Hlast.
    - specialize (Hid oldest eq_refl).
      destruct (dict_get "id" oldest) as [oldest_id|]; [|contradiction].
      simpl. eexists. split; [reflexivity|].
      split; [reflexivity|]. rewrite length_map. reflexivity.
    - simpl. eexists. split; [reflexivity|].
      split; [reflexivity|]. rewrite length_map. reflexivity. }
  apply Hrest.
  destruct Hmax as [Hnone | (t & max_dt & Ht & Hmaxdt)].
  - rewrite Hnone. destruct (truthy (get args "min_date")); eauto.
  - destruct (truthy (get args "max_date")).
    + rewrite Ht. simpl. rewrite Hmaxdt. simpl.
      destruct (truthy (get args "min_date")); eauto.
    + destruct (truthy (get args "min_date")); eauto.
Qed.

(** X9: with no lower date bound, read-messages answers with the records
    of the first [limit] messages of the stream, in the order of the
    stream, and leaves the rest of the stream unread. *)
Theorem handle_read_messages_newest
    (client : Remote) (args : gmap string value) (chat_id_raw : value)
    (limit : Z) (stream : list Message) :
  args !! "chat_id" = Some chat_id_raw ->
  truthy (get args "min_date") = false ->
  get_default args "limit" (VInt 20) = VInt limit ->
  0 < limit ->
  max_date_readable args ->
  (forall kwargs,
      iter_messages client (resolve_chat_id chat_id_raw) kwargs = Ok stream) ->
  let returned := firstn (Z.to_nat limit) stream in
  read_messages_loop args (VInt limit) stream []
  = Ok (map format_message returned, skipn (Z.to_nat limit) stream)
  /\ exists result,
       handle_read_messages client args
       = Ok [mk_TextContent "text" (json_dumps (VDict result) 2 false)]
       /\ dict_get "messages" result
          = Some (VList (map VDict (map format_message returned)))
       /\ dict_get "message_count" result
          = Some (VInt (Z.of_nat (length returned))).
Proof.
  intros Hchat Hnone Hlimit Hpos Hmax Hiter returned.
  assert (read_messages_loop args (VInt limit) stream []
          = Ok (map format_message returned, skipn (Z.to_nat limit) stream))
    as Hloop.
  { rewrite (read_messages_loop_unbounded args limit stream Hnone [])
      by (simpl; lia).
    simpl. rewrite Nat.sub_0_r. reflexivity. }
  split; [exact Hloop|].
  eapply handle_read_messages_of_loop; eauto.
Qed.

Lemma handle_read_messages_newest_witness :
  read_messages_loop latest_two_args (VInt 2) four_days []
  = Ok (map format_message [reply 5 9; reply 4 8], [reply 3 7; reply 2 6]).
Proof.
  exact (proj1 (handle_read_messages_newest
                  client_history latest_two_args (VStr "@team") 2 four_days
                  eq_refl eq_refl eq_refl eq_refl (or_introl eq_refl)
                  (fun _ => eq_refl))).
Defined.

(** ** Read thread, the parent missing *)

(** X10: when the parent message is not found, read-thread answers with
    the one line "Message <id> not found." and asks for no reply: the
    answer is the same whatever the client would have yielded. *)
Theorem handle_read_thread_parent_missing
    (client : Remote) (args : gmap string value)
    (chat_id_raw message_id : value) :
  args !! "chat_id" = Some chat_id_raw ->
  args !! "message_id" = Some message_id ->
  get_messages client (resolve_chat_id chat_id_raw) message_id = Ok None ->
  handle_read_thread client args
  = Ok [mk_TextContent "text"
          (Plain ("Message " ++ fstr message_id ++ " not found."))]
  /\ forall replies : value -> gmap string kwarg -> result (list Message),
       handle_read_thread
         (mk_remote (get_dialogs client) replies (get_messages client)
                    (delete_messages client)) args
       = handle_read_thread client args.
Proof.
  intros Hchat Hmsg Hparent.
  unfold handle_read_thread, getitem. rewrite Hchat, Hmsg. simpl.
  rewrite Hparent. simpl. split; reflexivity.
Qed.

Lemma handle_read_thread_parent_missing_witness :
  handle_read_thread client_nothing_deleted thread_args
  = Ok [mk_TextContent "text" (Plain "Message 1 not found.")].
Proof.
  exact (proj1 (handle_read_thread_parent_missing
                  client_nothing_deleted thread_args (VStr "@team") (VInt 1)
                  eq_refl eq_refl eq_refl)).
Defined.

(** ** The keys of a message record *)

(** X11: the record of a message lists its keys in one fixed order:
    ["id"], ["sender_name"], ["sender_id"], ["date"] and ["text"], which
    are always there, then ["reply_to_msg_id"], ["media_type"] and
    ["forwarded"], those that apply; no key comes twice; ["id"] holds the
    id of the message, ["sender_name"] the display name of its sender, and
    ["sender_id"] the id of the sender, or a null when the message has
    none. *)
Theorem format_message_keys (message : Message) :
  dict_keys (format_message message) = message_keys message
  /\ NoDup (dict_keys (format_message message))
  /\ dict_get "id" (format_message message) = Some (VInt (msg_id message))
  /\ dict_get "sender_name" (format_message message)
     = Some (VStr (get_sender_name (msg_sender message)))
  /\ dict_get "sender_id" (format_message message)
     = Some (match msg_sender message with
             | Some sender => VInt (entity_id sender)
             | None => VNone
             end).
Proof.
  assert (dict_keys (format_message message) = message_keys message) as Hkeys.
  { unfold format_message, message_keys.
    pose proof (get_media_type_nonempty message) as Hne.
    pose proof (get_media_type_present message) as Hnone.
    destruct (get_media_type message) as [tag|] eqn:Htag; simpl or_empty.
    - rewrite (Hne tag eq_refl).
      destruct (msg_media message) as [media|];
        [|destruct Hnone as [_ Habs]; discriminate (Habs eq_refl)].
      destruct (msg_reply_to message), (msg_forward message); reflexivity.
    - rewrite (proj1 Hnone eq_refl).
      destruct (msg_reply_to message), (msg_forward message); reflexivity. }
  split; [exact Hkeys|]. split.
  - rewrite Hkeys. unfold message_keys.
    destruct (msg_reply_to message), (msg_media message),
      (msg_forward message); simpl;
      apply (bool_decide_unpack _); reflexivity.
  - split; [apply format_message_id|].
    unfold format_message.
    destruct (msg_reply_to message),
      (nonempty (or_empty (get_media_type message))), (msg_forward message);
      split; reflexivity.
Qed.

(** ** List chats without a filter *)

Lemma chat_entry_title (d : Dialog) :
  dict_get "title" (chat_entry d)
  = Some (if nonempty (or_empty (dlg_title d)) then opt_str (dlg_title d)
          else opt_str (dlg_name d)).
Proof.
  unfold chat_entry, chat_info_of, py_or.
  assert (truthy (opt_str (dlg_title d)) = nonempty (or_empty (dlg_title d)))
    as Htruthy by (destruct (dlg_title d); reflexivity).
  destruct (dlg_message d) as [m|].
  - destruct (nonempty (or_empty (msg_text m))); simpl; rewrite Htruthy;
      reflexivity.
  - simpl. rewrite Htruthy. reflexivity.
Qed.

(** X12: with no filter (none given, or an empty one) list-chats answers
    with one record for each dialog the client returned, in the same
    order; the title of a record is the dialog's title, and the dialog's
    name where the title is missing or empty. *)
Theorem handle_list_chats_unfiltered
    (client : Remote) (args : gmap string value) (dialogs : list Dialog) :
  truthy (get args "chat_type") = false ->
  get_dialogs client (get_default args "limit" (VInt 20))
              (get_default args "offset_id" (VInt 0)) = Ok dialogs ->
  handle_list_chats client args
  = Ok [mk_TextContent "text"
          (json_dumps (VList (map (fun d => VDict (chat_entry d)) dialogs))
                      2 false)]
  /\ length (map (fun d => VDict (chat_entry d)) dialogs) = length dialogs
  /\ forall d,
       dict_get "title" (chat_entry d)
       = Some (if nonempty (or_empty (dlg_title d)) then opt_str (dlg_title d)
               else opt_str (dlg_name d)).
Proof.
  intros Hfilter Hdialogs. split; [|split].
  - unfold handle_list_chats. rewrite Hdialogs. simpl.
    rewrite list_chats_loop_unfiltered by assumption. reflexivity.
  - apply length_map.
  - apply chat_entry_title.
Qed.

Lemma handle_list_chats_unfiltered_witness :
  handle_list_chats client_dialogs no_args
  = Ok [mk_TextContent "text"
          (json_dumps
             (VList (map (fun d => VDict (chat_entry d))
                         [dlg_user; dlg_supergroup; dlg_channel; dlg_group]))
             2 false)].
Proof.
  exact (proj1 (handle_list_chats_unfiltered
                  client_dialogs no_args
                  [dlg_user; dlg_supergroup; dlg_channel; dlg_group]
                  eq_refl eq_refl)).
Defined.

(** ** The registry and the dispatcher *)

Lemma list_tools_names : map tool_name list_tools = tool_names.
Proof. reflexivity. Qed.

(** X13: the ten tools advertised have ten different names, and the
    dispatcher has a handler for a name exactly when a tool of that name is
    advertised. *)
Theorem list_tools_routed {World : Type} (hs : Handlers World)
    (name : string) :
  NoDup (map tool_name list_tools)
  /\ length list_tools = 10%nat
  /\ ((exists t, In t list_tools /\ tool_name t = name)
      <-> route hs name <> None).
Proof.
  split; [|split].
  - rewrite list_tools_names. apply (bool_decide_unpack _). reflexivity.
  - reflexivity.
  - assert ((exists t, In t list_tools /\ tool_name t = name)
            <-> In name tool_names) as ->.
    { rewrite <- list_tools_names, in_map_iff.
      split; intros (t & H1 & H2); eauto. }
    pose proof (route_unknown hs name) as Hroute.
    destruct (route hs name) as [h|].
    + split; [discriminate|]. intros _.
      destruct (in_dec string_dec name tool_names) as [Hin|Hout];
        [exact Hin|].
      apply Hroute in Hout. discriminate.
    + split; [|congruence]. intros Hin. exfalso.
      apply (proj1 Hroute eq_refl), Hin.
Qed.

(** X14: every kind list-chats can give a dialog is a value the schema
    admits for the filter, but for "unknown"; and every value the schema
    admits is the kind of some dialog. *)
Theorem get_chat_type_kinds :
  (forall x, get_chat_type x = "unknown"
             \/ In (VStr (get_chat_type x)) chat_type_enum)
  /\ (forall v, In v chat_type_enum ->
                exists e, v = VStr (get_chat_type (an_entity e)))
  /\ ~ In (VStr "unknown") chat_type_enum.
Proof.
  split; [|split].
  - intros x. unfold get_chat_type.
    destruct (match x with a_dialog d => dlg_entity d | an_entity e => e end)
      as [id f l u [|] | id t | id t [|] | id];
      cbv [chat_type_enum]; simpl; tauto.
  - cbv [chat_type_enum]. simpl. intros v [<- | [<- | [<- | [<- | []]]]].
    + exists (User 0 None None None false). reflexivity.
    + exists (Chat 0 None). reflexivity.
    + exists (Channel 0 None false). reflexivity.
    + exists (User 0 None None None true). reflexivity.
  - cbv [chat_type_enum]. simpl. intuition discriminate.
Qed.

Lemma get_chat_type_kinds_witness :
  exists e, VStr "channel" = VStr (get_chat_type (an_entity e)).
Proof.
  apply (proj1 (proj2 get_chat_type_kinds)).
  right. right. left. reflexivity.
Defined.

(** On a live connection, what a handler returns is what the call
    returns, and the world is as the handler left it. *)
Lemma call_tool_returns {World : Type} telegram (hs : Handlers World)
    (name : string) (arguments : gmap string value) (w w' : World)
    (handler : Handler World) (out : list TextContent) :
  not_live telegram = false ->
  route hs name = Some handler ->
  handler arguments w = (Ok out, w') ->
  call_tool telegram hs name arguments w = (Ok out, w').
Proof.
  intros Hlive Hroute Hout. rewrite call_tool_live by assumption.
  rewrite Hroute, Hout. reflexivity.
Qed.

Lemma call_tool_returns_witness :
  call_tool telegram_live (recording_handlers (Ok []))
            "telegram_send_message" delete_args []
  = (Ok [], ["send_message"]).
Proof.
  apply (call_tool_returns telegram_live (recording_handlers (Ok []))
           "telegram_send_message" delete_args [] ["send_message"]
           (recording "send_message" (Ok [])) []);
    reflexivity.
Defined.

(** ** Calls that lack a required argument *)

Lemma getitem_missing (args : gmap string value) (k : string) :
  args !! k = None ->
  getitem args k = Raise (mk_exn OtherException ("'" ++ k ++ "'")).
Proof. intros H. unfold getitem. rewrite H. reflexivity. Qed.

Lemma getitem_present (args : gmap string value) (k : string) (v : value) :
  args !! k = Some v -> getitem args k = Ok v.
Proof. intros H. unfold getitem. rewrite H. reflexivity. Qed.

Lemma route_names {World : Type} (hs : Handlers World) :
  route hs "telegram_list_chats" = Some (h_list_chats hs)
  /\ route hs "telegram_get_chat_info" = Some (h_get_chat_info hs)
  /\ route hs "telegram_read_messages" = Some (h_read_messages hs)
  /\ route hs "telegram_search_messages" = Some (h_search_messages hs)
  /\ route hs "telegram_read_thread" = Some (h_read_thread hs)
  /\ route hs "telegram_send_message" = Some (h_send_message hs)
  /\ route hs "telegram_edit_message" = Some (h_edit_message hs)
  /\ route hs "telegram_delete_message" = Some (h_delete_message hs)
  /\ route hs "telegram_search_contacts" = Some (h_search_contacts hs)
  /\ route hs "telegram_get_user_info" = Some (h_get_user_info hs).
Proof. repeat split. Qed.

(** Reads the cases of a [first_missing] hypothesis off the lookups. *)
Ltac which_missing H :=
  cbv [first_missing schema_required inputSchema dict_get omap
       list_omap String.eqb Ascii.eqb Bool.eqb List.find] in H;
  repeat match type of H with
         | context [?args !! ?k] =>
             let E := fresh "Hkey" in
             destruct (args !! k) eqn:E; cbv iota beta in H
         end;
  try discriminate H; injection H as <-.

Ltac answer_missing :=
  repeat match goal with
         | E : ?args !! ?k = Some _ |- context [getitem ?args ?k] =>
             rewrite (getitem_present args k _ E); simpl
         | E : ?args !! ?k = None |- context [getitem ?args ?k] =>
             rewrite (getitem_missing args k E); simpl
         end;
  reflexivity.

(** X15: on a live connection, a call of an advertised tool that lacks an
    argument the tool's schema requires is answered with the one line
    "Error: '<key>'", [<key>] being the first required key that is
    missing; the answer is the same whatever the remote clients are, none
    of them being asked anything. *)
Theorem serve_missing_argument
    telegram (client : Remote) (more : RemoteMore) (t : Tool)
    (args : gmap string value) (k : string) :
  not_live telegram = false ->
  In t list_tools ->
  first_missing (schema_required t) args = Some k ->
  serve telegram client more (tool_name t) args
  = Ok [mk_TextContent "text" (Plain ("Error: '" ++ k ++ "'"))].
Proof.
  intros Hlive Hin Hmissing. unfold serve.
  rewrite call_tool_live by assumption.
  destruct (route_names (@server_handlers unit client more))
    as (R1 & R2 & R3 & R4 & R5 & R6 & R7 & R8 & R9 & R10).
  unfold list_tools in Hin. simpl in Hin.
  repeat destruct Hin as [<- | Hin]; try contradiction;
    which_missing Hmissing;
    cbn [tool_name];
    rewrite ?R1, ?R2, ?R3, ?R4, ?R5, ?R6, ?R7, ?R8, ?R9, ?R10;
    cbv [server_handlers on_client
      h_list_chats h_get_chat_info h_read_messages h_search_messages
      h_read_thread h_send_message h_edit_message h_delete_message
      h_search_contacts h_get_user_info];
    cbv [handle_get_chat_info handle_read_messages handle_search_messages
         handle_read_thread handle_send_message handle_edit_message
         handle_delete_message handle_search_contacts handle_get_user_info];
    answer_missing.
Qed.

Lemma serve_missing_argument_witness :
  serve telegram_live client_failing more_failing
        "telegram_edit_message" delete_args
  = Ok [mk_TextContent "text" (Plain "Error: 'new_text'")].
Proof.
  apply (serve_missing_argument telegram_live client_failing more_failing
           (nth_tool 6) delete_args "new_text").
  - reflexivity.
  - apply nth_In. simpl. lia.
  - reflexivity.
Defined.

(** ** Defaults of the limit *)

Lemma lookup_other (args : gmap string value) (k k' : string) (v : value) :
  k <> k' -> (<[k := v]> args) !! k' = args !! k'.
Proof. apply lookup_insert_ne. Qed.

Lemma get_default_other (args : gmap string value) (k k' : string)
    (v dflt : value) :
  k <> k' -> get_default (<[k := v]> args) k' dflt = get_default args k' dflt.
Proof. intros H. unfold get_default. rewrite lookup_insert_ne by exact H. reflexivity. Qed.

Lemma get_default_same (args : gmap string value) (k : string) (v : value) :
  args !! k = None -> get_default (<[k := v]> args) k v = get_default args k v.
Proof.
  intros H. unfold get_default. rewrite lookup_insert_eq, H. reflexivity.
Qed.

Lemma getitem_other (args : gmap string value) (k k' : string) (v : value) :
  k <> k' -> getitem (<[k := v]> args) k' = getitem args k'.
Proof. intros H. unfold getitem. rewrite lookup_insert_ne by exact H. reflexivity. Qed.

Lemma below_min_date_other (args : gmap string value) (v : value)
    (m : Message) :
  below_min_date (<["limit" := v]> args) m = below_min_date args m.
Proof.
  unfold below_min_date, get.
  rewrite getitem_other, get_default_other by discriminate. reflexivity.
Qed.

Lemma read_messages_loop_other (args : gmap string value) (v limit : value)
    (stream : list Message) :
  forall acc,
    read_messages_loop (<["limit" := v]> args) limit stream acc
    = read_messages_loop args limit stream acc.
Proof.
  induction stream as [|m stream IH]; intros acc; simpl; [reflexivity|].
  rewrite below_min_date_other.
  destruct (below_min_date args m) as [[|]|e]; simpl; try reflexivity.
  destruct (len_ge _ limit) as [[|]|e]; simpl; try reflexivity.
  apply IH.
Qed.

Ltac past_limit :=
  unfold get;
  repeat first
    [ rewrite get_default_same by assumption
    | rewrite get_default_other by discriminate
    | rewrite getitem_other by discriminate
    | rewrite read_messages_loop_other ].

(** Both sides run the same steps: each step is taken on both at once. *)
Ltac same_steps :=
  repeat (past_limit; try reflexivity;
          match goal with
          | |- mbind _ ?x = mbind _ ?x =>
              destruct x as [?|?]; simpl; try reflexivity
          | |- context [if ?b then _ else _] => destruct b; simpl
          end).

(** X16: the default each schema declares for [limit] is the default its
    handler uses: a call without a limit is answered as the same call with
    the declared default given as the limit.  This holds for the five
    tools that take a limit. *)
Theorem limit_default_declared
    (client : Remote) (more : RemoteMore) (args : gmap string value) :
  args !! "limit" = None ->
  (forall d, schema_default "telegram_list_chats" "limit" = Some d ->
             handle_list_chats client (<["limit" := d]> args)
             = handle_list_chats client args)
  /\ (forall d, schema_default "telegram_read_messages" "limit" = Some d ->
                handle_read_messages client (<["limit" := d]> args)
                = handle_read_messages client args)
  /\ (forall d, schema_default "telegram_search_messages" "limit" = Some d ->
                handle_search_messages more (<["limit" := d]> args)
                = handle_search_messages more args)
  /\ (forall d, schema_default "telegram_read_thread" "limit" = Some d ->
                handle_read_thread client (<["limit" := d]> args)
                = handle_read_thread client args)
  /\ (forall d, schema_default "telegram_search_contacts" "limit" = Some d ->
                handle_search_contacts more (<["limit" := d]> args)
                = handle_search_contacts more args).
Proof.
  intros Hnone. repeat split; intros d Hd.
  - change (Some (VInt 20) = Some d) in Hd. injection Hd as <-.
    unfold handle_list_chats. same_steps.
  - change (Some (VInt 20) = Some d) in Hd. injection Hd as <-.
    unfold handle_read_messages. same_steps.
  - change (Some (VInt 20) = Some d) in Hd. injection Hd as <-.
    unfold handle_search_messages. same_steps.
  - change (Some (VInt 20) = Some d) in Hd. injection Hd as <-.
    unfold handle_read_thread. same_steps.
  - change (Some (VInt 10) = Some d) in Hd. injection Hd as <-.
    unfold handle_search_contacts. same_steps.
Qed.

Lemma limit_default_declared_witness :
  answer_field "message_count"
    (handle_read_messages client_long_history limit_free_args)
  = Some (VInt 20)
  /\ answer_field "result_count"
       (handle_search_contacts more_twelve limit_free_args)
     = Some (VInt 10).
Proof.
  pose proof (limit_default_declared client_long_history more_twelve
                limit_free_args eq_refl)
    as (_ & Hread & _ & _ & Hcontacts).
  split.
  - rewrite <- (Hread (VInt 20) eq_refl). reflexivity.
  - rewrite <- (Hcontacts (VInt 10) eq_refl). reflexivity.
Defined.

(** ** Writing tools, end to end *)

Lemma serve_live telegram (client : Remote) (more : RemoteMore)
    (name : string) (arguments : gmap string value)
    (handler : Handler unit) :
  not_live telegram = false ->
  route (server_handlers client more) name = Some handler ->
  serve telegram client more name arguments
  = match fst (handler arguments tt) with
    | Ok out => Ok out
    | Raise e => Ok [mk_TextContent "text" (Plain (failure_line e))]
    end.
Proof.
  intros Hlive Hroute. unfold serve. rewrite call_tool_live by assumption.
  rewrite Hroute. destruct (handler arguments tt) as [[out|e] w]; reflexivity.
Qed.

(** X17: a send-message call that names a chat and a text is answered, on
    a live connection, by what the one remote send does: when it returns
    the message, with the status "sent", the id and the date of that
    message and the chat reference as the caller wrote it (the remote call
    got the resolved one); when it raises, with the line of the failure. *)
Theorem serve_send_message
    telegram (client : Remote) (more : RemoteMore)
    (args : gmap string value) (chat_id_raw text : value) :
  not_live telegram = false ->
  args !! "chat_id" = Some chat_id_raw ->
  args !! "text" = Some text ->
  serve telegram client more "telegram_send_message" args
  = match send_message more (resolve_chat_id chat_id_raw) text
                       (get args "reply_to") (get args "parse_mode") with
    | Ok msg =>
        Ok [mk_TextContent "text"
              (json_dumps
                 (VDict [ ("status", VStr "sent");
                          ("message_id", VInt (msg_id msg));
                          ("chat_id", chat_id_raw);
                          ("date", opt_str (format_timestamp (msg_date msg))) ])
                 2 true)]
    | Raise e => Ok [mk_TextContent "text" (Plain (failure_line e))]
    end.
Proof.
  intros Hlive Hchat Htext.
  rewrite (serve_live telegram client more "telegram_send_message" args
             (on_client (handle_send_message more)) Hlive eq_refl).
  unfold on_client, handle_send_message, getitem. simpl.
  rewrite Hchat, Htext. simpl.
  destruct (send_message more _ _ _ _); reflexivity.
Qed.

Lemma serve_send_message_witness :
  serve telegram_live client_failing more_refusing
        "telegram_send_message" send_args
  = Ok [mk_TextContent "text"
          (Plain "Error: Admin privileges required for this action.")]
  /\ serve telegram_live client_failing more_silent
           "telegram_send_message" send_args
     = Ok [mk_TextContent "text"
             (json_dumps
                (VDict [ ("status", VStr "sent"); ("message_id", VInt 11);
                         ("chat_id", VStr "@team"); ("date", VNone) ])
                2 true)].
Proof.
  split.
  - exact (serve_send_message telegram_live client_failing more_refusing
             send_args (VStr "@team") (VStr "hello") eq_refl eq_refl eq_refl).
  - exact (serve_send_message telegram_live client_failing more_silent
             send_args (VStr "@team") (VStr "hello") eq_refl eq_refl eq_refl).
Defined.

(** X18: an edit-message call with its three arguments, the new text being
    a string, is answered by what the one remote edit does: when it
    returns the message, with the status "edited", the id and the date of
    the message returned and the first 100 characters of the new text at
    most; when it raises, with the line of the failure. *)
Theorem serve_edit_message
    telegram (client : Remote) (more : RemoteMore)
    (args : gmap string value) (chat_id_raw message_id : value)
    (new_text : string) :
  not_live telegram = false ->
  args !! "chat_id" = Some chat_id_raw ->
  args !! "message_id" = Some message_id ->
  args !! "new_text" = Some (VStr new_text) ->
  let shown := str_prefix 100 new_text in
  (String.length shown <= 100)%nat
  /\ (exists tail, new_text = shown ++ tail)
  /\ serve telegram client more "telegram_edit_message" args
     = match edit_message more (resolve_chat_id chat_id_raw) message_id
                          (VStr new_text) (get args "parse_mode") with
       | Ok msg =>
           Ok [mk_TextContent "text"
                 (json_dumps
                    (VDict [ ("status", VStr "edited");
                             ("message_id", VInt (msg_id msg));
                             ("chat_id", chat_id_raw);
                             ("new_text", VStr shown);
                             ("date",
                              opt_str (format_timestamp (msg_date msg))) ])
                    2 true)]
       | Raise e => Ok [mk_TextContent "text" (Plain (failure_line e))]
       end.
Proof.
  intros Hlive Hchat Hmsg Htext shown. split; [|split].
  - subst shown. rewrite length_str_prefix. lia.
  - apply str_prefix_is_prefix.
  - rewrite (serve_live telegram client more "telegram_edit_message" args
               (on_client (handle_edit_message more)) Hlive eq_refl).
    unfold on_client, handle_edit_message, getitem. simpl.
    rewrite Hchat, Hmsg, Htext. simpl.
    destruct (edit_message more _ _ _ _); reflexivity.
Qed.

Lemma serve_edit_message_witness :
  serve telegram_live client_failing more_refusing
        "telegram_edit_message" edit_args
  = Ok [mk_TextContent "text"
          (Plain "Error: You can only edit/delete your own messages.")].
Proof.
  exact (proj2 (proj2 (serve_edit_message
                  telegram_live client_failing more_refusing edit_args
                  (VStr "@team") (VInt 17) long_text
                  eq_refl eq_refl eq_refl eq_refl))).
Defined.

(** ** Contacts and users *)

(** X19: search-contacts lists every user the remote search returns, in
    the order returned, and counts them: the limit is handed to the remote
    search and is not applied to its result again. *)
Theorem handle_search_contacts_lists_all
    (client : RemoteMore) (args : gmap string value) (query : value)
    (users : list UserObject) :
  args !! "query" = Some query ->
  contacts_search client query (get_default args "limit" (VInt 10))
  = Ok users ->
  handle_search_contacts client args
  = Ok [mk_TextContent "text"
          (json_dumps
             (VDict [ ("query", query);
                      ("result_count", VInt (Z.of_nat (length users)));
                      ("contacts", VList (map contact_of users)) ])
             2 false)].
Proof.
  intros Hquery Husers. unfold handle_search_contacts, getitem.
  rewrite Hquery. simpl. rewrite Husers. simpl. rewrite length_map.
  reflexivity.
Qed.

Lemma handle_search_contacts_lists_all_witness :
  handle_search_contacts more_contacts one_contact_args
  = Ok [mk_TextContent "text"
          (json_dumps
             (VDict [ ("query", VStr "a");
                      ("result_count", VInt 2);
                      ("contacts", VList [contact_of ada; contact_of bot_user]) ])
             2 false)].
Proof.
  exact (handle_search_contacts_lists_all
           more_contacts one_contact_args (VStr "a") [ada; bot_user]
           eq_refl eq_refl).
Defined.

Lemma issubclass_Exception (c : exn_class) : issubclass c Exception = true.
Proof. destruct c; reflexivity. Qed.

Lemma passing_over_spec {A} (body : result A) (otherwise : A) :
  passing_over body otherwise
  = match body with
    | Ok a => a
    | Raise _ => otherwise
    end.
Proof.
  unfold passing_over, try_except. destruct body as [a|e]; [reflexivity|].
  simpl. rewrite issubclass_Exception. reflexivity.
Qed.

(** X20: once the entity is resolved, get-user-info returns and does not
    raise.  For an entity that is no user it answers with the one line
    that names the class of the entity, and fetches no profile; for a user
    it lists the user's fields, with the bio when the profile fetch
    returns and without the key when that fetch fails. *)
Theorem handle_get_user_info_best_effort
    (client : RemoteMore) (args : gmap string value) (user_id_raw : value)
    (entity : EntityObject) :
  args !! "user_id" = Some user_id_raw ->
  get_entity client (resolve_chat_id user_id_raw) = Ok entity ->
  match entity with
  | UserEntity u =>
      exists info,
        handle_get_user_info client args
        = Ok [mk_TextContent "text" (json_dumps (VDict info) 2 false)]
        /\ dict_get "id" info = Some (VInt (u_id u))
        /\ dict_get "status" info
           = Some (VStr (get_user_status (with_status (u_status u))))
        /\ dict_get "bio" info
           = match get_full_user client entity with
             | Ok bio => Some (opt_str bio)
             | Raise _ => None
             end
  | _ =>
      handle_get_user_info client args
      = Ok [mk_TextContent "text"
              (Plain ("Entity " ++ fstr user_id_raw
                      ++ " is not a user (it's a "
                      ++ entity_type_name entity ++ ")."))]
  end.
Proof.
  intros Hid Hentity. unfold handle_get_user_info, getitem.
  rewrite Hid. simpl. rewrite Hentity. simpl.
  destruct entity as [u | | |]; try reflexivity.
  rewrite passing_over_spec.
  destruct (get_full_user client (UserEntity u)) as [bio|e]; simpl;
    eexists; (split; [reflexivity|]); repeat split.
Qed.

Lemma handle_get_user_info_best_effort_witness :
  exists info,
    handle_get_user_info more_contacts ada_args
    = Ok [mk_TextContent "text" (json_dumps (VDict info) 2 false)]
    /\ dict_get "id" info = Some (VInt 42)
    /\ dict_get "status" info = Some (VStr "online")
    /\ dict_get "bio" info = None.
Proof.
  exact (handle_get_user_info_best_effort
           more_contacts ada_args (VStr "@ada") (UserEntity ada)
           eq_refl eq_refl).
Defined.

(** ** Get chat info *)

Lemma dict_get_pinned_loop (k : string) (stream : list (Message * bool))
    (info : list (string * value)) :
  dict_get k (pinned_loop stream info)
  = if String.eqb k "pinned_message" then
      match List.find snd stream with
      | Some (msg, _) => Some (pinned_summary msg)
      | None => dict_get k info
      end
    else dict_get k info.
Proof.
  induction stream as [|[msg [|]] stream IH]; simpl.
  - destruct (String.eqb k "pinned_message"); reflexivity.
  - rewrite dict_get_set. reflexivity.
  - exact IH.
Qed.

Lemma dict_get_chat_info_pinned (k : string) (client : RemoteMore)
    (chat_id : value) (info : list (string * value)) :
  dict_get k (chat_info_pinned client chat_id info)
  = if String.eqb k "pinned_message" then
      match iter_latest client chat_id with
      | Ok stream =>
          match List.find snd stream with
          | Some (msg, _) => Some (pinned_summary msg)
          | None => dict_get k info
          end
      | Raise _ => dict_get k info
      end
    else dict_get k info.
Proof.
  unfold chat_info_pinned. rewrite passing_over_spec.
  destruct (iter_latest client chat_id) as [stream|e]; simpl.
  - apply dict_get_pinned_loop.
  - destruct (String.eqb k "pinned_message"); reflexivity.
Qed.

Lemma chat_info_full_spec (client : RemoteMore) (entity : EntityObject)
    (info : list (string * value)) :
  chat_info_full client entity info
  = match full_info_of client entity with
    | Some full => with_full_info full info
    | None => info
    end.
Proof.
  unfold chat_info_full, full_info_of. rewrite passing_over_spec.
  destruct entity as [u | id t p | id t u m p | id n]; simpl; try reflexivity.
  - destruct (get_full_chat client id); reflexivity.
  - destruct (get_full_channel client _); reflexivity.
Qed.

Lemma dict_get_with_full_info (k : string) (full : FullChat)
    (info : list (string * value)) :
  k <> "member_count" ->
  dict_get k (with_full_info full info)
  = if String.eqb k "description" then Some (opt_str (about full))
    else dict_get k info.
Proof.
  intros Hk. unfold with_full_info.
  destruct (count_given (full_participants_count full)).
  - rewrite dict_get_set.
    destruct (String.eqb_spec k "member_count"); [contradiction|].
    apply dict_get_set.
  - apply dict_get_set.
Qed.

Lemma chat_info_basic_keys (entity : EntityObject) :
  dict_get "id" (chat_info_basic entity)
  = Some (VInt (entity_object_id entity))
  /\ dict_get "type" (chat_info_basic entity)
     = Some (VStr (get_chat_type (an_entity (entity_view entity))))
  /\ dict_get "description" (chat_info_basic entity) = None
  /\ dict_get "pinned_message" (chat_info_basic entity) = None.
Proof.
  unfold chat_info_basic.
  destruct entity as [u | id t p | id t u m p | id n]; simpl.
  - repeat split.
  - destruct (count_given p); repeat split.
  - destruct (count_given p); repeat split.
  - repeat split.
Qed.

(** X21: once the chat is resolved, get-chat-info returns and does not
    raise, whatever becomes of its two further fetches.  Its answer names
    the id and the kind of the entity; it carries a description exactly
    when the entity is a group or a channel and the full-info fetch
    returned; and it carries a pinned message exactly when the look at the
    latest messages returned and met a pinned one, of which it keeps the
    id, the date and the first 200 characters of the text at most. *)
Theorem handle_get_chat_info_best_effort
    (client : RemoteMore) (args : gmap string value) (chat_id_raw : value)
    (entity : EntityObject) :
  args !! "chat_id" = Some chat_id_raw ->
  get_entity client (resolve_chat_id chat_id_raw) = Ok entity ->
  exists info,
    handle_get_chat_info client args
    = Ok [mk_TextContent "text" (json_dumps (VDict info) 2 false)]
    /\ dict_get "id" info = Some (VInt (entity_object_id entity))
    /\ dict_get "type" info
       = Some (VStr (get_chat_type (an_entity (entity_view entity))))
    /\ dict_get "description" info
       = (fun full => opt_str (about full)) <$> full_info_of client entity
    /\ dict_get "pinned_message" info
       = match iter_latest client (resolve_chat_id chat_id_raw) with
         | Ok stream => (fun hit => pinned_summary (fst hit))
                          <$> List.find snd stream
         | Raise _ => None
         end.
Proof.
  intros Hchat Hentity. unfold handle_get_chat_info, getitem.
  rewrite Hchat. simpl. rewrite Hentity. simpl.
  eexists. split; [reflexivity|].
  destruct (chat_info_basic_keys entity) as (Hid & Htype & Hdesc & Hpin).
  rewrite !dict_get_chat_info_pinned, !chat_info_full_spec. simpl.
  destruct (full_info_of client entity) as [full|]; simpl.
  - rewrite !dict_get_with_full_info by discriminate. simpl.
    repeat split; try assumption.
    destruct (iter_latest client _) as [stream|e]; [|assumption].
    destruct (List.find snd stream) as [[msg p]|]; [reflexivity|assumption].
  - repeat split; try assumption.
    destruct (iter_latest client _) as [stream|e]; [|assumption].
    destruct (List.find snd stream) as [[msg p]|]; [reflexivity|assumption].
Qed.

Lemma handle_get_chat_info_best_effort_witness :
  exists info,
    handle_get_chat_info more_channel news_args
    = Ok [mk_TextContent "text" (json_dumps (VDict info) 2 false)]
    /\ dict_get "type" info = Some (VStr "channel")
    /\ dict_get "description" info = None
    /\ dict_get "pinned_message" info = Some (pinned_summary msg_photo).
Proof.
  destruct (handle_get_chat_info_best_effort
              more_channel news_args (VStr "@news") news_channel
              eq_refl eq_refl) as (info & H & _ & Htype & Hdesc & Hpin).
  exists info. auto.
Defined.

Lemma chat_info_basic_member_count (entity : EntityObject) :
  dict_get "member_count" (chat_info_basic entity)
  = count_shown (entity_participants entity).
Proof.
  unfold chat_info_basic, count_shown.
  destruct entity as [u | id t p | id t u m p | id n]; simpl; try reflexivity;
    destruct (count_given p); reflexivity.
Qed.

(** X22: the member count in the answer of get-chat-info is the count of
    the full info where that was fetched and gives a count other than
    zero; otherwise it is the count the entity carries itself, if that is
    given and is not zero; otherwise the key is absent. *)
Theorem handle_get_chat_info_member_count
    (client : RemoteMore) (args : gmap string value) (chat_id_raw : value)
    (entity : EntityObject) :
  args !! "chat_id" = Some chat_id_raw ->
  get_entity client (resolve_chat_id chat_id_raw) = Ok entity ->
  exists info,
    handle_get_chat_info client args
    = Ok [mk_TextContent "text" (json_dumps (VDict info) 2 false)]
    /\ dict_get "member_count" info
       = match full_info_of client entity
               ≫= (fun full => count_shown (full_participants_count full)) with
         | Some count => Some count
         | None => count_shown (entity_participants entity)
         end.
Proof.
  intros Hchat Hentity. unfold handle_get_chat_info, getitem.
  rewrite Hchat. simpl. rewrite Hentity. simpl.
  eexists. split; [reflexivity|].
  rewrite dict_get_chat_info_pinned, chat_info_full_spec. simpl.
  destruct (full_info_of client entity) as [full|]; simpl.
  - unfold with_full_info, count_shown at 1.
    destruct (count_given (full_participants_count full)); simpl.
    + rewrite dict_get_set. reflexivity.
    + rewrite dict_get_set. simpl. apply chat_info_basic_member_count.
  - apply chat_info_basic_member_count.
Qed.

Lemma handle_get_chat_info_member_count_witness :
  exists info,
    handle_get_chat_info more_counted news_args
    = Ok [mk_TextContent "text" (json_dumps (VDict info) 2 false)]
    /\ dict_get "member_count" info = Some (VInt 1250).
Proof.
  exact (handle_get_chat_info_member_count
           more_counted news_args (VStr "@news") news_channel
           eq_refl eq_refl).
Defined.

(** ** Search messages *)

Lemma search_entry_scope (chat_id : value) (hit : SearchHit) :
  search_entry chat_id hit
  = if truthy chat_id then format_message (hit_message hit)
    else search_entry VNone hit.
Proof.
  unfold search_entry. destruct (hit_chat hit) as [chat|];
    destruct (truthy chat_id); reflexivity.
Qed.

Lemma dict_get_format_message_chat (message : Message) :
  dict_get "chat_name" (format_message message) = None
  /\ dict_get "chat_id" (format_message message) = None.
Proof.
  unfold format_message.
  destruct (msg_reply_to message),
    (nonempty (or_empty (get_media_type message))), (msg_forward message);
    split; reflexivity.
Qed.

(** X23: a search over one chat lists the plain records of the messages
    found; a search over all chats adds to the record of every message
    whose chat is known the id of that chat and its name, which is never
    empty, and leaves the other records plain. *)
Theorem search_entry_annotation (chat_id : value) (hit : SearchHit) :
  (truthy chat_id = true ->
   search_entry chat_id hit = format_message (hit_message hit))
  /\ (truthy chat_id = false ->
      match hit_chat hit with
      | Some chat =>
          exists chat_name,
            dict_get "chat_name" (search_entry chat_id hit)
            = Some (VStr chat_name)
            /\ nonempty chat_name = true
            /\ dict_get "chat_id" (search_entry chat_id hit)
               = Some (VInt (hit_chat_id hit))
      | None => search_entry chat_id hit = format_message (hit_message hit)
      end).
Proof.
  split; intros Hscope; rewrite search_entry_scope, Hscope; [reflexivity|].
  unfold search_entry. destruct (hit_chat hit) as [chat|]; [|reflexivity].
  cbn [truthy negb].
  set (chat_name := if nonempty (or_empty (title_attr chat))
                    then or_empty (title_attr chat)
                    else get_sender_name (Some chat)).
  exists chat_name. rewrite !dict_get_set. simpl.
  split; [reflexivity|]. split; [|reflexivity].
  apply nonempty_or, get_sender_name_not_empty.
Qed.

Lemma search_entry_annotation_witness :
  exists chat_name,
    dict_get "chat_name" (search_entry VNone hit_in_group)
    = Some (VStr chat_name)
    /\ nonempty chat_name = true
    /\ dict_get "chat_id" (search_entry VNone hit_in_group)
       = Some (VInt (-4)).
Proof.
  exact (proj2 (search_entry_annotation VNone hit_in_group) eq_refl).
Defined.

(** X24: search-messages, given a query and no sender to filter by,
    answers with one record for every message the remote search yields, in
    its order, and their number; the search is over the chat named when
    the resolved reference is a non-zero id or a non-empty handle, and over
    all chats otherwise. *)
Theorem handle_search_messages_answer
    (client : RemoteMore) (args : gmap string value) (query : value)
    (hits : list SearchHit) :
  args !! "query" = Some query ->
  truthy (get args "from_user") = false ->
  let chat_id :=
    if truthy (get args "chat_id") then resolve_chat_id (get args "chat_id")
    else VNone in
  iter_search client (if truthy chat_id then chat_id else VNone)
              (<["limit" := kw_value (get_default args "limit" (VInt 20))]>
                 {["search" := kw_value query]})
  = Ok hits ->
  handle_search_messages client args
  = Ok [mk_TextContent "text"
          (json_dumps
             (VDict [ ("query", query);
                      ("result_count", VInt (Z.of_nat (length hits)));
                      ("messages",
                       VList (map VDict (map (search_entry chat_id) hits))) ])
             2 false)].
Proof.
  intros Hquery Hfrom chat_id Hiter.
  unfold handle_search_messages, getitem. rewrite Hquery. simpl.
  rewrite Hfrom. subst chat_id. unfold get, get_default in *.
  destruct (args !! "chat_id") as [c|]; simpl in *.
  - destruct (truthy c); simpl in *; rewrite Hiter; simpl;
      rewrite length_map; reflexivity.
  - rewrite Hiter. simpl. rewrite length_map. reflexivity.
Qed.

Lemma handle_search_messages_answer_witness :
  handle_search_messages more_search search_everywhere_args
  = Ok [mk_TextContent "text"
          (json_dumps
             (VDict [ ("query", VStr "hello");
                      ("result_count", VInt 1);
                      ("messages",
                       VList [VDict (search_entry VNone hit_in_group)]) ])
             2 false)].
Proof.
  exact (handle_search_messages_answer
           more_search search_everywhere_args (VStr "hello") [hit_in_group]
           eq_refl eq_refl eq_refl).
Defined.

Lemma lookup_delete_other (args : gmap string value) (k k' : string) :
  k <> k' -> delete k args !! k' = args !! k'.
Proof. apply lookup_delete_ne. Qed.

(** X25: a chat reference that resolves to zero or to the empty handle, as
    ["0"] and ["@"] do, does not confine the search: the call is answered
    exactly as the same call without the chat, a search over all chats. *)
Theorem handle_search_messages_empty_chat
    (client : RemoteMore) (args : gmap string value) (chat_id_raw : value) :
  args !! "chat_id" = Some chat_id_raw ->
  truthy (resolve_chat_id chat_id_raw) = false ->
  handle_search_messages client args
  = handle_search_messages client (delete "chat_id" args).
Proof.
  intros Hchat Hfalsy. unfold handle_search_messages, getitem, get, get_default.
  rewrite lookup_delete_eq, !lookup_delete_other by discriminate.
  rewrite Hchat. simpl.
  destruct (args !! "query") as [query|]; simpl; [|reflexivity].
  assert (forall chat_id,
             truthy chat_id = false ->
             forall kwargs : result (gmap string kwarg),
               (kwargs ← kwargs;
                stream ← iter_search client
                           (if truthy chat_id then chat_id else VNone) kwargs;
                Ok [mk_TextContent "text"
                      (json_dumps
                         (VDict
                            [ ("query", query);
                              ("result_count",
                               VInt (Z.of_nat
                                       (length (map (search_entry chat_id)
                                                    stream))));
                              ("messages",
                               VList (map VDict (map (search_entry chat_id)
                                                     stream))) ]) 2 false)])
               = (kwargs ← kwargs;
                  stream ← iter_search client VNone kwargs;
                  Ok [mk_TextContent "text"
                        (json_dumps
                           (VDict
                              [ ("query", query);
                                ("result_count",
                                 VInt (Z.of_nat
                                         (length (map (search_entry VNone)
                                                      stream))));
                                ("messages",
                                 VList (map VDict (map (search_entry VNone)
                                                       stream))) ]) 2 false)]))
    as Hsame.
  { intros chat_id Hc kwargs. rewrite Hc.
    destruct kwargs as [kw|e]; simpl; [|reflexivity].
    destruct (iter_search client VNone kw) as [stream|e]; simpl;
      [|reflexivity].
    assert (map (search_entry chat_id) stream = map (search_entry VNone) stream)
      as ->; [|reflexivity].
    apply map_ext. intros hit. rewrite search_entry_scope, Hc. reflexivity. }
  destruct (truthy chat_id_raw); simpl.
  - apply (Hsame _ Hfalsy).
  - reflexivity.
Qed.

Lemma handle_search_messages_empty_chat_witness :
  handle_search_messages more_search search_marker_args
  = handle_search_messages more_search (delete "chat_id" search_marker_args).
Proof.
  exact (handle_search_messages_empty_chat
           more_search search_marker_args (VStr "@") eq_refl eq_refl).
Defined.

(** ** Connecting and shutting down *)

Lemma nonempty_or_empty (s : option string) :
  nonempty (or_empty s) = true ->
  exists text, s = Some text /\ nonempty text = true.
Proof.
  destruct s as [text|]; simpl; [eauto | discriminate].
Qed.

Lemma connect_spec (env : Environment) (backend : Backend)
    (self : TelegramClientWrapper) :
  (client_built env backend ->
   connect env backend self
   = match transport_connect backend with
     | Raise _ => (false, mk_wrapper (Some (mk_client false)))
     | Ok _ =>
         (match is_user_authorized backend, get_me backend with
          | Ok true, Ok (Some _) => true
          | _, _ => false
          end, mk_wrapper (Some (mk_client true)))
     end)
  /\ (~ client_built env backend -> connect env backend self = (false, self)).
Proof.
  split.
  - intros (id & hash & session & api_id & Hid & Hhash & Hsession
            & Nid & Nhash & Nsession & Hint & Hnew).
    unfold connect. rewrite Hid, Hhash, Hsession. simpl.
    rewrite Nid, Nhash, Nsession, Hint, Hnew. simpl.
    destruct (transport_connect backend) as [[]|e]; [|reflexivity].
    destruct (is_user_authorized backend) as [[|]|e]; try reflexivity.
    destruct (get_me backend) as [[me|]|e]; reflexivity.
  - intros Hnot. unfold connect.
    destruct (nonempty (or_empty (API_ID env))) eqn:Nid; [|reflexivity].
    destruct (nonempty (or_empty (API_HASH env))) eqn:Nhash; [|reflexivity].
    destruct (nonempty (or_empty (SESSION_STRING env))) eqn:Nsession;
      [|reflexivity].
    simpl.
    destruct (nonempty_or_empty _ Nid) as (id & Hid & Nid').
    destruct (nonempty_or_empty _ Nhash) as (hash & Hhash & Nhash').
    destruct (nonempty_or_empty _ Nsession) as (session & Hsession & Nsession').
    rewrite Hid, Hhash, Hsession. simpl.
    destruct (py_int id) as [api_id|] eqn:Hint; [|reflexivity].
    destruct (new_client backend session api_id hash) as [[]|e] eqn:Hnew;
      [|reflexivity].
    exfalso. apply Hnot. exists id, hash, session, api_id. auto 10.
Qed.

Lemma client_built_dec (env : Environment) (backend : Backend) :
  client_built env backend \/ ~ client_built env backend.
Proof.
  unfold client_built.
  destruct (API_ID env) as [id|]; [|right; intros (?&?&?&?&?&?); discriminate].
  destruct (API_HASH env) as [hash|];
    [|right; intros (?&?&?&?&?&?&?); discriminate].
  destruct (SESSION_STRING env) as [session|];
    [|right; intros (?&?&?&?&?&?&?&?); discriminate].
  destruct (nonempty id) eqn:Nid;
    [|right; intros (?&?&?&?&[= <-]&?&?&?&?); congruence].
  destruct (nonempty hash) eqn:Nhash;
    [|right; intros (?&?&?&?&?&[= <-]&?&?&?&?); congruence].
  destruct (nonempty session) eqn:Nsession;
    [|right; intros (?&?&?&?&?&?&[= <-]&?&?&?&?); congruence].
  destruct (py_int id) as [api_id|] eqn:Hint;
    [|right; intros (?&?&?&?&[= <-]&?&?&?&?&?&?&?); congruence].
  destruct (new_client backend session api_id hash) as [[]|e] eqn:Hnew.
  - left. exists id, hash, session, api_id. auto 10.
  - right. intros (?&?&?&?&[= <-]&[= <-]&[= <-]&?&?&?&?&?). congruence.
Qed.

(** X26: connecting answers true exactly when the three credentials are set
    and not empty, the id reads as an integer, the client is built from
    them, its connection is made, the session is authorized and the
    account's own user is returned; the wrapper then holds a connected
    client, so that tool calls are served. *)
Theorem connect_true_iff (env : Environment) (backend : Backend)
    (self : TelegramClientWrapper) :
  (fst (connect env backend self) = true
   <-> client_built env backend
       /\ transport_connect backend = Ok tt
       /\ is_user_authorized backend = Ok true
       /\ exists me, get_me backend = Ok (Some me))
  /\ (fst (connect env backend self) = true ->
      snd (connect env backend self) = mk_wrapper (Some (mk_client true))
      /\ not_live (snd (connect env backend self)) = false).
Proof.
  destruct (connect_spec env backend self) as [Hbuilt Hnot].
  assert (fst (connect env backend self) = true -> client_built env backend)
    as Hneeds.
  { intros Htrue.
    destruct (client_built_dec env backend) as [H|H]; [exact H|].
    rewrite (Hnot H) in Htrue. discriminate. }
  split; [split|].
  - intros Htrue. pose proof (Hneeds Htrue) as H. split; [exact H|].
    rewrite (Hbuilt H) in Htrue.
    destruct (transport_connect backend) as [[]|e]; [|discriminate].
    destruct (is_user_authorized backend) as [[|]|e]; try discriminate.
    destruct (get_me backend) as [[me|]|e]; try discriminate.
    eauto.
  - intros (H & Hconnect & Hauth & me & Hme).
    rewrite (Hbuilt H), Hconnect, Hauth, Hme. reflexivity.
  - intros Htrue. pose proof (Hneeds Htrue) as H.
    rewrite (Hbuilt H) in *.
    destruct (transport_connect backend) as [[]|e]; [|discriminate].
    split; reflexivity.
Qed.

Lemma client_built_complete : client_built env_complete backend_ready.
Proof.
  exists "12345", "0123456789abcdef", "1BVtsOK4Bu", 12345.
  repeat split; reflexivity.
Qed.

Lemma connect_true_iff_witness :
  fst (connect env_complete backend_ready telegram_fresh) = true
  /\ not_live (snd (connect env_complete backend_ready telegram_fresh)) = false.
Proof.
  pose proof (connect_true_iff env_complete backend_ready telegram_fresh)
    as [Hiff Hlive].
  assert (fst (connect env_complete backend_ready telegram_fresh) = true)
    as Htrue.
  { apply Hiff. split; [exact client_built_complete|].
    repeat split; try reflexivity. exists ada. reflexivity. }
  split; [exact Htrue | exact (proj2 (Hlive Htrue))].
Defined.

(** X27: started on good credentials, the program serves on a wrapper
    holding a connected client and ends as the serving ends: with its
    return, or with the exception it raised; either way the client has been
    disconnected by then, so that a later tool call would be refused. *)
Theorem main_serves_then_disconnects
    (env : Environment) (backend : Backend)
    (run : TelegramClientWrapper -> result unit) :
  fst (connect env backend telegram_fresh) = true ->
  main env backend run telegram_fresh
  = (run (mk_wrapper (Some (mk_client true))),
     mk_wrapper (Some (mk_client false)))
  /\ not_live (snd (main env backend run telegram_fresh)) = true.
Proof.
  intros Htrue.
  destruct (connect_spec env backend telegram_fresh) as [Hbuilt Hnot].
  destruct (client_built_dec env backend) as [H|H].
  - unfold main. rewrite (Hbuilt H) in *.
    destruct (transport_connect backend) as [[]|e]; [|discriminate].
    simpl in Htrue. rewrite Htrue. split; reflexivity.
  - rewrite (Hnot H) in Htrue. discriminate.
Qed.

Lemma main_serves_then_disconnects_witness :
  main env_complete backend_ready run_broken telegram_fresh
  = (Raise (mk_exn OtherException "broken pipe"), telegram_dropped)
  /\ not_live (snd (main env_complete backend_ready run_broken telegram_fresh))
     = true.
Proof.
  exact (main_serves_then_disconnects env_complete backend_ready run_broken
           eq_refl).
Defined.

(** X28: when connecting fails the program returns normally without
    serving, whatever the serving would have done, and without
    disconnecting: the client is left connected exactly when the failure
    came after the connection was made (a session that is not authorized,
    or no own user), and no client was created at all when a credential is
    missing or the client could not be built. *)
Theorem main_failed_connect
    (env : Environment) (backend : Backend)
    (run : TelegramClientWrapper -> result unit) :
  fst (connect env backend telegram_fresh) = false ->
  main env backend run telegram_fresh
  = (Ok tt, snd (connect env backend telegram_fresh))
  /\ (not_live (snd (main env backend run telegram_fresh)) = false
      <-> client_built env backend /\ transport_connect backend = Ok tt)
  /\ (~ client_built env backend ->
      snd (main env backend run telegram_fresh) = telegram_fresh).
Proof.
  intros Hfalse.
  assert (main env backend run telegram_fresh
          = (Ok tt, snd (connect env backend telegram_fresh))) as Hmain.
  { unfold main.
    destruct (connect env backend telegram_fresh) as [connected telegram].
    simpl in Hfalse. subst connected. reflexivity. }
  rewrite Hmain. simpl.
  destruct (connect_spec env backend telegram_fresh) as [Hbuilt Hnot].
  split; [reflexivity|]. split.
  - destruct (client_built_dec env backend) as [H|H].
    + rewrite (Hbuilt H).
      destruct (transport_connect backend) as [[]|e]; simpl.
      * split; [intros _; split; [exact H | reflexivity] | reflexivity].
      * split; [discriminate | intros [_ Hc]; discriminate].
    + rewrite (Hnot H). simpl.
      split; [discriminate | intros [Hb _]; contradiction].
  - intros H. rewrite (Hnot H). reflexivity.
Qed.

Lemma main_failed_connect_witness :
  main env_complete backend_unauthorized run_broken telegram_fresh
  = (Ok tt, telegram_live)
  /\ main env_without_hash backend_ready run_broken telegram_fresh
     = (Ok tt, telegram_fresh).
Proof.
  split.
  - exact (proj1 (main_failed_connect env_complete backend_unauthorized
                    run_broken eq_refl)).
  - exact (proj1 (main_failed_connect env_without_hash backend_ready
                    run_broken eq_refl)).
Defined.
